(** * The voice assistant's question-answering core (voice_qa/qa_processor.py)

    A shallow embedding of [QAProcessor]: the constructor, [process_question],
    the two-phase tool-calling dispatcher ([_get_openai_response_with_mcp] and
    [_handle_function_calls]) and the rule-based [_get_fallback_response].

    Python strings are sequences of code points; the reasoning service and the
    LeetCode client are oracles that answer from the history of calls made so
    far, and every call to one of them is recorded in a trace. *)

From Stdlib Require Import List String Ascii Bool NArith ZArith Lia DecimalString.
Import ListNotations.

Set Implicit Arguments.

(** ** Python strings *)

(** A [str] is a sequence of Unicode code points. *)
Definition pystr := list N.

(** An ASCII literal of the source, as a [str]. *)
Definition lit (s : string) : pystr := map N_of_ascii (list_ascii_of_string s).

(** [a == b] *)
Fixpoint pystr_eqb (a b : pystr) : bool :=
  match a, b with
  | [], [] => true
  | x :: a', y :: b' => (x =? y)%N && pystr_eqb a' b'
  | _, _ => false
  end.

(** [c.isspace()] for one code point: the code points CPython's
    [_PyUnicode_IsWhitespace] accepts, which are the ones [str.strip()]
    removes. *)
Definition isspace (c : N) : bool :=
  ((9 <=? c) && (c <=? 13) || (28 <=? c) && (c <=? 32)
   || (c =? 133) || (c =? 160) || (c =? 5760)
   || (8192 <=? c) && (c <=? 8202)
   || (c =? 8232) || (c =? 8233) || (c =? 8239) || (c =? 8287)
   || (c =? 12288))%N.

Fixpoint lstrip (s : pystr) : pystr :=
  match s with
  | c :: s' => if isspace c then lstrip s' else s
  | [] => []
  end.

Definition rstrip (s : pystr) : pystr := rev (lstrip (rev s)).

(** [s.strip()] *)
Definition strip (s : pystr) : pystr := rstrip (lstrip s).

(** [s.startswith(p)] *)
Fixpoint startswith (p s : pystr) : bool :=
  match p, s with
  | [], _ => true
  | a :: p', b :: s' => (a =? b)%N && startswith p' s'
  | _ :: _, [] => false
  end.

(** [sub in s] *)
Fixpoint contains (sub s : pystr) : bool :=
  startswith sub s
  || match s with
     | [] => false
     | _ :: s' => contains sub s'
     end.

Definition ascii_lower (c : N) : N :=
  if ((65 <=? c) && (c <=? 90))%N then (c + 32)%N else c.

(** [s.lower()]: an ASCII code point is lowered by the ASCII rule; the
    lowering of any other code point comes from the Unicode tables, which may
    look at the code points before and after it (final sigma) and may give
    several code points.  [before] is the part of the string already passed,
    last code point first. *)
Fixpoint lower_from (ucd : pystr -> N -> pystr -> pystr)
    (before s : pystr) : pystr :=
  match s with
  | [] => []
  | c :: after =>
      (if (c <? 128)%N then [ascii_lower c] else ucd before c after)
        ++ lower_from ucd (c :: before) after
  end.

Definition lower (ucd : pystr -> N -> pystr -> pystr) (s : pystr) : pystr :=
  lower_from ucd [] s.

(** ** Python values and JSON *)

(** The values [json.loads] produces and [json.dumps] accepts.  A float is
    carried as the text [float.__repr__] gives for it: the code never
    computes with one. *)
#[warnings="-register-all"]
Inductive value : Type :=
| VNone
| VBool (b : bool)
| VInt (n : Z)
| VFloat (repr : pystr)
| VStr (s : pystr)
| VList (l : list value)
| VDict (items : list (pystr * value)).

(** [bool(v)] *)
Definition truthy (v : value) : bool :=
  match v with
  | VNone => false
  | VBool b => b
  | VInt n => negb (n =? 0)%Z
  | VFloat r => negb (pystr_eqb r (lit "0.0") || pystr_eqb r (lit "-0.0"))
  | VStr s => match s with [] => false | _ => true end
  | VList l => match l with [] => false | _ => true end
  | VDict d => match d with [] => false | _ => true end
  end.

(** [type(v).__name__] *)
Definition type_name (v : value) : string :=
  match v with
  | VNone => "NoneType"
  | VBool _ => "bool"
  | VInt _ => "int"
  | VFloat _ => "float"
  | VStr _ => "str"
  | VList _ => "list"
  | VDict _ => "dict"
  end.

Fixpoint dict_lookup (k : pystr) (d : list (pystr * value)) : option value :=
  match d with
  | [] => None
  | (k', v) :: d' => if pystr_eqb k k' then Some v else dict_lookup k d'
  end.

Definition hex_digit (n : N) : N :=
  if (n <? 10)%N then (48 + n)%N else (87 + n)%N.

(** ["\\u{0:04x}".format(n)] *)
Definition u_escape (n : N) : pystr :=
  lit "\u" ++ [hex_digit (N.land (N.shiftr n 12) 15);
               hex_digit (N.land (N.shiftr n 8) 15);
               hex_digit (N.land (N.shiftr n 4) 15);
               hex_digit (N.land n 15)].

(** One code point of a string under [json.dumps] ([ensure_ascii=True]). *)
Definition dumps_char (c : N) : pystr :=
  if (c =? 34)%N then [92; 34]%N
  else if (c =? 92)%N then lit "\\"
  else if (c =? 10)%N then lit "\n"
  else if (c =? 13)%N then lit "\r"
  else if (c =? 9)%N then lit "\t"
  else if (c =? 12)%N then lit "\f"
  else if (c =? 8)%N then lit "\b"
  else if ((32 <=? c) && (c <=? 126))%N then [c]
  else if (c <? 65536)%N then u_escape c
  else
    let n := (c - 65536)%N in
    u_escape (N.lor 55296 (N.land (N.shiftr n 10) 1023))
      ++ u_escape (N.lor 56320 (N.land n 1023)).

Definition dumps_str (s : pystr) : pystr :=
  [34%N] ++ flat_map dumps_char s ++ [34%N].

Definition dumps_float (r : pystr) : pystr :=
  if pystr_eqb r (lit "nan") then lit "NaN"
  else if pystr_eqb r (lit "inf") then lit "Infinity"
  else if pystr_eqb r (lit "-inf") then lit "-Infinity"
  else r.

Fixpoint join (sep : pystr) (parts : list pystr) : pystr :=
  match parts with
  | [] => []
  | [p] => p
  | p :: rest => p ++ sep ++ join sep rest
  end.

(** [json.dumps(v)] with the default separators. *)
Fixpoint json_dumps (v : value) : pystr :=
  match v with
  | VNone => lit "null"
  | VBool true => lit "true"
  | VBool false => lit "false"
  | VInt n => lit (NilZero.string_of_int (Z.to_int n))
  | VFloat r => dumps_float r
  | VStr s => dumps_str s
  | VList l => lit "[" ++ join (lit ", ") (map json_dumps l) ++ lit "]"
  | VDict d =>
      lit "{"
        ++ join (lit ", ")
             (map (fun kv => dumps_str (fst kv) ++ lit ": " ++ json_dumps (snd kv)) d)
        ++ lit "}"
  end.

Arguments lit s%_string.

(** ** Exceptions *)

(** The exceptions the processor can meet.  [LibraryError] stands for
    whatever a library call raises (the OpenAI client, the LeetCode client,
    [json.loads]); the others are raised by the interpreter on the
    processor's own attribute accesses and subscripts. *)
Inductive exn : Type :=
| AttributeError (owner attr : string)
| KeyError (key : pystr)
| SubscriptTypeError (owner : string)
| IndexError
| LibraryError (cls : string) (msg : pystr).

Inductive result (A : Type) : Type :=
| Ok (a : A)
| Raise (e : exn).

Arguments Ok {A} a.
Arguments Raise {A} e.

(** What the Python runtime provides and this development does not fix: the
    Unicode lowering of a non-ASCII code point, the JSON parser, and the text
    of [str(e)]. *)
Record Runtime : Type := {
  ucd_lower : pystr -> N -> pystr -> pystr;
  json_loads : pystr -> result value;
  str_exn : exn -> pystr
}.

(** ** The reasoning service and the LeetCode client *)

Record Function : Type := {
  fn_name : pystr;
  fn_arguments : pystr
}.

Record ToolCall : Type := {
  tc_id : pystr;
  tc_function : Function
}.

(** [response.choices[0].message]: [content] and [tool_calls] may be
    [None]. *)
Record ChatCompletionMessage : Type := {
  msg_content : option pystr;
  msg_tool_calls : option (list ToolCall)
}.

Record Choice : Type := { ch_message : ChatCompletionMessage }.

Record ChatCompletion : Type := { choices : list Choice }.

Record ParamDecl : Type := {
  p_name : pystr;
  p_type : pystr;
  p_enum : list pystr;
  p_description : pystr;
  p_default : option value
}.

Record ToolDecl : Type := {
  t_name : pystr;
  t_description : pystr;
  t_properties : list ParamDecl;
  t_required : list pystr
}.

(** An entry of the [messages] list: a role/content dict, the assistant
    message object of the first response, or a tool dict. *)
Inductive ChatMessage : Type :=
| RoleMessage (role content : pystr)
| AssistantMessage (m : ChatCompletionMessage)
| ToolMessage (tool_call_id content : pystr).

(** The keyword arguments of [client.chat.completions.create]; the
    temperature is carried as the text of the float. *)
Record ChatRequest : Type := {
  req_model : pystr;
  req_messages : list ChatMessage;
  req_tools : option (list ToolDecl);
  req_tool_choice : option pystr;
  req_max_tokens : Z;
  req_temperature : pystr
}.

(** A call on [self.leetcode_client]. *)
Inductive ClientCall : Type :=
| Call_get_daily_challenge
| Call_get_problem (title_slug : value)
| Call_search_problems (keywords difficulty limit : value)
| Call_get_user_profile (username : value)
| Call_get_recent_submissions (username limit : value).

Inductive Event : Type :=
| EvChat (req : ChatRequest)
| EvClient (call : ClientCall).

(** The two collaborators answer from the events so far (latest first) and
    the request; either may raise. *)
Record Oracles : Type := {
  service : list Event -> ChatRequest -> result ChatCompletion;
  leetcode : list Event -> ClientCall -> result value
}.

Definition is_chat (e : Event) : bool :=
  match e with EvChat _ => true | EvClient _ => false end.

Definition is_client (e : Event) : bool :=
  match e with EvChat _ => false | EvClient _ => true end.

(** Number of reasoning-service round trips, of client calls, in a trace. *)
Definition chat_calls (t : list Event) : nat := List.length (filter is_chat t).
Definition client_calls (t : list Event) : nat := List.length (filter is_client t).

(** ** The processor object *)

Record OpenAI : Type := { openai_api_key : pystr }.

Record LeetCodeAPIClient : Type := { lc_session : option pystr }.

(** The attributes of a [QAProcessor].  [default_username] is [None] when the
    attribute was never assigned (the client failed to initialise). *)
Record QAProcessor : Type := {
  api_key : option pystr;
  client : option OpenAI;
  use_openai : bool;
  leetcode_client : option LeetCodeAPIClient;
  default_username : option pystr;
  mcp_available : bool;
  fallback_responses : list (pystr * pystr)
}.

(** [a or b] on optional strings. *)
Definition py_or (a b : option pystr) : option pystr :=
  match a with
  | Some (_ :: _) => a
  | _ => b
  end.

(** [os.getenv(name, default)] *)
Definition getenv_default (env : pystr -> option pystr) (name dflt : pystr) : pystr :=
  match env name with
  | Some v => v
  | None => dflt
  end.

(** [QAProcessor.__init__]: [env] is the environment once [.env] is loaded,
    [new_client] the [LeetCodeAPIClient] constructor. *)
Definition __init__ (env : pystr -> option pystr)
    (new_client : option pystr -> result LeetCodeAPIClient)
    (api_key : option pystr) : QAProcessor :=
  let key := py_or api_key (env (lit "OPENAI_API_KEY")) in
  let session := env (lit "LEETCODE_SESSION") in
  let username := getenv_default env (lit "LEETCODE_USERNAME") (lit "dviresh1993") in
  let responses :=
    [ (lit "hello", lit "Hello! I'm your voice assistant. I can help with LeetCode problems and general questions!");
      (lit "hi", lit "Hi there! Ask me about LeetCode problems or any other questions!");
      (lit "how are you", lit "I'm doing great! Ready to help with LeetCode or other questions. How can I assist you?");
      (lit "what is your name", lit "I'm your voice assistant powered by AI with LeetCode integration.");
      (lit "goodbye", lit "Goodbye! It was nice talking with you.");
      (lit "bye", lit "Bye! Have a great day!");
      (lit "thank you", lit "You're welcome! Is there anything else I can help you with?");
      (lit "thanks", lit "You're welcome!") ] in
  let with_key (lc : option LeetCodeAPIClient) (user : option pystr) (mcp : bool) :=
    match key with
    | Some (c :: k) =>
        {| api_key := key; client := Some {| openai_api_key := c :: k |};
           use_openai := true; leetcode_client := lc; default_username := user;
           mcp_available := mcp; fallback_responses := responses |}
    | _ =>
        {| api_key := key; client := None;
           use_openai := false; leetcode_client := lc; default_username := user;
           mcp_available := mcp; fallback_responses := responses |}
    end in
  match new_client session with
  | Ok lc => with_key (Some lc) (Some username) true
  | Raise _ => with_key None None false
  end.

(** ** The effect monad *)

(** The state a method runs in: the processor object it is called on and the
    trace of calls made to the collaborators, latest first. *)
Record World : Type := {
  self_obj : QAProcessor;
  trace : list Event
}.

(** A computation returns a value or raises, and leaves a world behind. *)
Definition M (A : Type) : Type := World -> result A * World.

Definition ret {A : Type} (a : A) : M A := fun w => (Ok a, w).

Definition raise {A : Type} (e : exn) : M A := fun w => (Raise e, w).

Definition bind {A B : Type} (m : M A) (k : A -> M B) : M B :=
  fun w =>
    match m w with
    | (Ok a, w') => k a w'
    | (Raise e, w') => (Raise e, w')
    end.

(** [try: m  except Exception as e: h e] *)
Definition try_except {A : Type} (m : M A) (h : exn -> M A) : M A :=
  fun w =>
    match m w with
    | (Ok a, w') => (Ok a, w')
    | (Raise e, w') => h e w'
    end.

Definition lift {A : Type} (r : result A) : M A := fun w => (r, w).

Definition get_self : M QAProcessor := fun w => (Ok (self_obj w), w).

Definition record (e : Event) (w : World) : World :=
  {| self_obj := self_obj w; trace := e :: trace w |}.

Declare Scope effect_scope.
Delimit Scope effect_scope with effect.
Notation "x <- m ;; k" := (bind m (fun x => k))
  (at level 61, m at next level, right associativity) : effect_scope.
Open Scope effect_scope.

Section Processor.

Context (rt : Runtime) (orc : Oracles).

(** [self.client.chat.completions.create(...)]: one round trip. *)
Definition chat_completions_create (req : ChatRequest) : M ChatCompletion :=
  self <- get_self ;;
  match client self with
  | None => raise (AttributeError "NoneType" "chat")
  | Some _ => fun w => (service orc (trace w) req, record (EvChat req) w)
  end.

(** Looking up a method on [self.leetcode_client]. *)
Definition client_method (attr : string) : M unit :=
  self <- get_self ;;
  match leetcode_client self with
  | None => raise (AttributeError "NoneType" attr)
  | Some _ => ret tt
  end.

(** Calling a method of the LeetCode client: one client call. *)
Definition invoke (call : ClientCall) : M value :=
  fun w => (leetcode orc (trace w) call, record (EvClient call) w).

(** [self.default_username] *)
Definition read_default_username : M value :=
  self <- get_self ;;
  match default_username self with
  | None => raise (AttributeError "QAProcessor" "default_username")
  | Some u => ret (VStr u)
  end.

(** [response.choices[0].message] *)
Definition first_message (response : ChatCompletion) : M ChatCompletionMessage :=
  match choices response with
  | [] => raise IndexError
  | c :: _ => ret (ch_message c)
  end.

(** [content.strip()] on a content that may be [None]. *)
Definition content_strip (content : option pystr) : M pystr :=
  match content with
  | None => raise (AttributeError "NoneType" "strip")
  | Some s => ret (strip s)
  end.

(** [args[key]] *)
Definition subscript (args : value) (key : pystr) : M value :=
  match args with
  | VDict d =>
      match dict_lookup key d with
      | Some v => ret v
      | None => raise (KeyError key)
      end
  | _ => raise (SubscriptTypeError (type_name args))
  end.

(** [args.get]: the bound method of a dict; any other value has none. *)
Definition get_method (args : value) : M (pystr -> value -> value) :=
  match args with
  | VDict d =>
      ret (fun key dflt =>
             match dict_lookup key d with
             | Some v => v
             | None => dflt
             end)
  | _ => raise (AttributeError (type_name args) "get")
  end.

(** The tool declarations [functions] sent with the first request. *)
Definition functions : list ToolDecl :=
  [ {| t_name := lit "get_daily_challenge";
       t_description := lit "Get today's LeetCode daily challenge problem";
       t_properties := [];
       t_required := [] |};
    {| t_name := lit "get_problem";
       t_description := lit "Get details about a specific LeetCode problem";
       t_properties :=
         [ {| p_name := lit "title_slug"; p_type := lit "string"; p_enum := [];
              p_description := lit "The problem slug (e.g., 'two-sum', 'add-two-numbers')";
              p_default := None |} ];
       t_required := [lit "title_slug"] |};
    {| t_name := lit "search_problems";
       t_description := lit "Search for LeetCode problems by keywords, tags, or difficulty";
       t_properties :=
         [ {| p_name := lit "keywords"; p_type := lit "string"; p_enum := [];
              p_description := lit "Search keywords"; p_default := None |};
           {| p_name := lit "difficulty"; p_type := lit "string";
              p_enum := [lit "EASY"; lit "MEDIUM"; lit "HARD"];
              p_description := lit "Problem difficulty level"; p_default := None |};
           {| p_name := lit "limit"; p_type := lit "integer"; p_enum := [];
              p_description := lit "Number of results to return";
              p_default := Some (VInt 5) |} ];
       t_required := [] |};
    {| t_name := lit "get_user_profile";
       t_description := lit "Get LeetCode user profile information";
       t_properties :=
         [ {| p_name := lit "username"; p_type := lit "string"; p_enum := [];
              p_description := lit "LeetCode username (optional if default user is set)";
              p_default := None |} ];
       t_required := [] |};
    {| t_name := lit "get_recent_submissions";
       t_description := lit "Get user's recent LeetCode submissions";
       t_properties :=
         [ {| p_name := lit "username"; p_type := lit "string"; p_enum := [];
              p_description := lit "LeetCode username (optional if default user is set)";
              p_default := None |};
           {| p_name := lit "limit"; p_type := lit "integer"; p_enum := [];
              p_description := lit "Number of submissions to return";
              p_default := Some (VInt 10) |} ];
       t_required := [] |} ].

(** The arguments of the first [create] call: the question and the tool
    declarations. *)
Definition initial_request (question : pystr) : ChatRequest :=
  {| req_model := lit "gpt-3.5-turbo";
     req_messages :=
       [ RoleMessage (lit "system")
           (lit "You are a helpful voice assistant with access to LeetCode data. Use the available functions when users ask about LeetCode problems, daily challenges, or coding questions. Give concise, conversational responses (1-3 sentences).");
         RoleMessage (lit "user") question ];
     req_tools := Some functions; req_tool_choice := Some (lit "auto");
     req_max_tokens := 150; req_temperature := lit "0.7" |}.

(** The [messages] list [_handle_function_calls] starts from. *)
Definition initial_messages (original_question : pystr) (message : ChatCompletionMessage)
    : list ChatMessage :=
  [ RoleMessage (lit "system")
      (lit "You are a helpful voice assistant. Give concise, conversational responses (1-3 sentences).");
    RoleMessage (lit "user") original_question;
    AssistantMessage message ].

(** The arguments of the second [create] call: the messages, no tools. *)
Definition final_request (messages : list ChatMessage) : ChatRequest :=
  {| req_model := lit "gpt-3.5-turbo"; req_messages := messages;
     req_tools := None; req_tool_choice := None;
     req_max_tokens := 150; req_temperature := lit "0.7" |}.

Definition no_username_error : value :=
  VDict [(lit "error", VStr (lit "No username provided and no default username set"))].

(** The [if]/[elif] chain of [_handle_function_calls]: the value bound to
    [result] for one tool call. *)
Definition call_mcp_function (function_name : pystr) (function_args : value) : M value :=
  if pystr_eqb function_name (lit "get_daily_challenge") then
    _ <- client_method "get_daily_challenge" ;;
    invoke Call_get_daily_challenge
  else if pystr_eqb function_name (lit "get_problem") then
    _ <- client_method "get_problem" ;;
    title_slug <- subscript function_args (lit "title_slug") ;;
    invoke (Call_get_problem title_slug)
  else if pystr_eqb function_name (lit "search_problems") then
    _ <- client_method "search_problems" ;;
    get1 <- get_method function_args ;;
    get2 <- get_method function_args ;;
    get3 <- get_method function_args ;;
    invoke (Call_search_problems (get1 (lit "keywords") (VStr []))
                                 (get2 (lit "difficulty") (VStr []))
                                 (get3 (lit "limit") (VInt 5)))
  else if pystr_eqb function_name (lit "get_user_profile") then
    get <- get_method function_args ;;
    dflt <- read_default_username ;;
    let username := get (lit "username") dflt in
    if negb (truthy username) then ret no_username_error
    else
      _ <- client_method "get_user_profile" ;;
      invoke (Call_get_user_profile username)
  else if pystr_eqb function_name (lit "get_recent_submissions") then
    get <- get_method function_args ;;
    dflt <- read_default_username ;;
    let username := get (lit "username") dflt in
    if negb (truthy username) then ret no_username_error
    else
      _ <- client_method "get_recent_submissions" ;;
      get_limit <- get_method function_args ;;
      invoke (Call_get_recent_submissions username (get_limit (lit "limit") (VInt 10)))
  else
    ret (VDict [(lit "error", VStr (lit "Unknown function: " ++ function_name))]).

(** The body of the loop over the tool calls: parse the arguments, run the
    function under [try], and give the tool message to append. *)
Definition execute_tool_call (tool_call : ToolCall) : M ChatMessage :=
  let function_name := fn_name (tc_function tool_call) in
  function_args <- lift (json_loads rt (fn_arguments (tc_function tool_call))) ;;
  try_except
    (result <- call_mcp_function function_name function_args ;;
     ret (ToolMessage (tc_id tool_call) (json_dumps result)))
    (fun e =>
       ret (ToolMessage (tc_id tool_call)
              (json_dumps (VDict [(lit "error", VStr (str_exn rt e))])))).

(** [for tool_call in ...tool_calls: ...], threading the [messages] list. *)
Fixpoint execute_tool_calls (tool_calls : list ToolCall) (messages : list ChatMessage)
    : M (list ChatMessage) :=
  match tool_calls with
  | [] => ret messages
  | tool_call :: rest =>
      m <- execute_tool_call tool_call ;;
      execute_tool_calls rest (messages ++ [m])
  end.

(** Iterating over [message.tool_calls], which may be [None]. *)
Definition iter_tool_calls (tool_calls : option (list ToolCall)) : M (list ToolCall) :=
  match tool_calls with
  | None => raise (LibraryError "TypeError" (lit "'NoneType' object is not iterable"))
  | Some l => ret l
  end.

Definition _handle_function_calls (response : ChatCompletion) (original_question : pystr)
    : M pystr :=
  message <- first_message response ;;
  let messages := initial_messages original_question message in
  tool_calls <- iter_tool_calls (msg_tool_calls message) ;;
  messages <- execute_tool_calls tool_calls messages ;;
  final_response <- chat_completions_create (final_request messages) ;;
  final_message <- first_message final_response ;;
  content_strip (msg_content final_message).

(** [if message.tool_calls:] *)
Definition has_tool_calls (m : ChatCompletionMessage) : bool :=
  match msg_tool_calls m with
  | Some (_ :: _) => true
  | _ => false
  end.

Definition _get_openai_response_with_mcp (question : pystr) : M pystr :=
  try_except
    (response <- chat_completions_create (initial_request question) ;;
     message <- first_message response ;;
     if has_tool_calls message then _handle_function_calls response question
     else content_strip (msg_content message))
    (fun e => raise e).

(** [any(word in text for word in words)] *)
Definition any_in (words : list pystr) (text : pystr) : bool :=
  existsb (fun word => contains word text) words.

Definition _get_fallback_response (self : QAProcessor) (question : pystr) : pystr :=
  let question_lower := strip (lower (ucd_lower rt) question) in
  match find (fun kv => contains (fst kv) question_lower) (fallback_responses self) with
  | Some (_, response) => response
  | None =>
      if any_in [lit "what"; lit "how"; lit "why"; lit "when"; lit "where"; lit "who"]
           question_lower
      then lit "That's an interesting question! I'd recommend checking reliable sources for detailed information on this topic."
      else if any_in [lit "calculate"; lit "math"; lit "plus"; lit "minus"] question_lower
      then lit "I can help with basic math, but I'd need my full capabilities for complex calculations."
      else lit "I'm sorry, I need my AI capabilities to answer that properly. Please check your OpenAI API configuration."
  end.

Definition process_question (question : pystr) : M pystr :=
  match strip question with
  | [] => ret (lit "I didn't hear anything. Could you please repeat your question?")
  | _ :: _ =>
      self <- get_self ;;
      if use_openai self then
        try_except (_get_openai_response_with_mcp question)
          (fun _ =>
             self <- get_self ;;
             ret (_get_fallback_response self question))
      else ret (_get_fallback_response self question)
  end.

End Processor.

(** ** Scripted collaborators and a sample runtime *)

(** A mocked reasoning service that replays [script]: its k-th call since the
    invocation began (when the trace held [start] round trips) gets the k-th
    entry, whatever the request; past the end it raises. *)
Definition scripted (script : list (result ChatCompletion)) (start : nat)
    : list Event -> ChatRequest -> result ChatCompletion :=
  fun history _ =>
    nth (chat_calls history - start) script (Raise (LibraryError "StopIteration" [])).

(** A reply with text only, and a reply asking for tool calls. *)
Definition text_reply (text : pystr) : ChatCompletion :=
  {| choices := [ {| ch_message := {| msg_content := Some text; msg_tool_calls := None |} |} ] |}.

Definition tool_reply (calls : list ToolCall) : ChatCompletion :=
  {| choices := [ {| ch_message := {| msg_content := None; msg_tool_calls := Some calls |} |} ] |}.

Definition tool_call (id name arguments : pystr) : ToolCall :=
  {| tc_id := id; tc_function := {| fn_name := name; fn_arguments := arguments |} |}.

(** A parser that knows the documents [docs] by their serialisation and
    rejects every other text; it agrees with [json.loads] on the texts used
    in the examples. *)
Definition loads_among (docs : list value) (text : pystr) : result value :=
  match find (fun v => pystr_eqb (json_dumps v) text) docs with
  | Some v => Ok v
  | None => Raise (LibraryError "JSONDecodeError" (lit "Expecting value"))
  end.

Definition sample_str_exn (e : exn) : pystr :=
  match e with
  | AttributeError owner attr =>
      lit "'" ++ lit owner ++ lit "' object has no attribute '" ++ lit attr ++ lit "'"
  | KeyError key => lit "'" ++ key ++ lit "'"
  | SubscriptTypeError owner => lit "'" ++ lit owner ++ lit "' object is not subscriptable"
  | IndexError => lit "list index out of range"
  | LibraryError _ msg => msg
  end.

Definition sample_runtime : Runtime :=
  {| ucd_lower := fun _ c _ => [c];
     json_loads := loads_among [VDict []; VDict [(lit "username", VStr [])]];
     str_exn := sample_str_exn |}.

(** A client that answers every call with an empty dict, as the real one
    does on a network error. *)
Definition empty_client : list Event -> ClientCall -> result value :=
  fun _ _ => Ok (VDict []).

Definition sample_oracles (script : list (result ChatCompletion)) : Oracles :=
  {| service := scripted script 0; leetcode := empty_client |}.

(** A client whose every call fails. *)
Definition failing_client : list Event -> ClientCall -> result value :=
  fun _ _ => Raise (LibraryError "ConnectionError" (lit "network down")).

(** The processor of a machine with no [.env] entries, built with or without
    an API key, and a fresh world around it. *)
Definition no_env : pystr -> option pystr := fun _ => None.

Definition new_client_ok (session : option pystr) : result LeetCodeAPIClient :=
  Ok {| lc_session := session |}.

Definition fresh (self : QAProcessor) : World := {| self_obj := self; trace := [] |}.

Definition offline_world : World := fresh (__init__ no_env new_client_ok None).

Definition online_world : World :=
  fresh (__init__ no_env new_client_ok (Some (lit "sk-test"))).

(** An environment that sets [LEETCODE_USERNAME] to the empty string, and
    the world of a processor built in it. *)
Definition blank_user_env (name : pystr) : option pystr :=
  if pystr_eqb name (lit "LEETCODE_USERNAME") then Some [] else None.

Definition anonymous_world : World :=
  fresh (__init__ blank_user_env new_client_ok (Some (lit "sk-test"))).

(** The text [_get_fallback_response] matches against. *)
Definition question_lower (rt : Runtime) (question : pystr) : pystr :=
  strip (lower (ucd_lower rt) question).

(** The trigger table every processor is built with. *)
Definition trigger_table : list (pystr * pystr) :=
  fallback_responses (__init__ no_env new_client_ok None).

(** The three replies given by category when no trigger occurs. *)
Definition category_replies : list pystr :=
  [ lit "That's an interesting question! I'd recommend checking reliable sources for detailed information on this topic.";
    lit "I can help with basic math, but I'd need my full capabilities for complex calculations.";
    lit "I'm sorry, I need my AI capabilities to answer that properly. Please check your OpenAI API configuration." ].

Definition repeat_prompt : pystr :=
  lit "I didn't hear anything. Could you please repeat your question?".

(** A word that lowering and stripping leave alone wherever it stands: its
    code points are ASCII and not upper case, and it neither starts nor ends
    with white space.  Every trigger of the table is such a word. *)
Definition plain_word (k : pystr) : bool :=
  forallb (fun c => (c <? 128)%N && (ascii_lower c =? c)%N) k
  && match k with c :: _ => negb (isspace c) | [] => false end
  && match rev k with c :: _ => negb (isspace c) | [] => false end.

(** ** Notions the statements use *)

(** The argument text of a tool call is a JSON document. *)
Definition parses (rt : Runtime) (tc : ToolCall) : bool :=
  match json_loads rt (fn_arguments (tc_function tc)) with
  | Ok _ => true
  | Raise _ => false
  end.

(** The name of a tool call is one of the declared tools. *)
Definition registered (name : pystr) : bool :=
  existsb (pystr_eqb name) (map t_name functions).

(** The payload of the tool message for one call with parsed arguments, and
    the world its execution leaves: the value of the function, or the error
    object made from the exception it raised. *)
Definition tool_result (rt : Runtime) (orc : Oracles)
    (function_name : pystr) (function_args : value) (w : World) : value * World :=
  match call_mcp_function orc function_name function_args w with
  | (Ok v, w') => (v, w')
  | (Raise e, w') => (VDict [(lit "error", VStr (str_exn rt e))], w')
  end.

(** The username a profile or submissions call resolves to: the argument
    when the arguments carry one, the default identity otherwise. *)
Definition resolved_username (args : list (pystr * value)) (dflt : pystr) : value :=
  match dict_lookup (lit "username") args with
  | Some v => v
  | None => VStr dflt
  end.

(** The client call a profile or submissions tool call makes for the
    username [user]. *)
Definition username_call (function_name : pystr) (user : value)
    (args : list (pystr * value)) : ClientCall :=
  if pystr_eqb function_name (lit "get_user_profile")
  then Call_get_user_profile user
  else Call_get_recent_submissions user
         match dict_lookup (lit "limit") args with
         | Some v => v
         | None => VInt 10
         end.

(** The payload made from the outcome of a client call. *)
Definition payload_of (rt : Runtime) (r : result value) : value :=
  match r with
  | Ok v => v
  | Raise e => VDict [(lit "error", VStr (str_exn rt e))]
  end.

(** The text of the first message of a scripted reply, stripped; [None]
    where the processor would raise. *)
Definition reply_text (r : result ChatCompletion) : option pystr :=
  match r with
  | Ok {| choices := c :: _ |} => option_map strip (msg_content (ch_message c))
  | _ => None
  end.

Definition script_entry (script : list (result ChatCompletion)) (k : nat)
    : result ChatCompletion :=
  nth k script (Raise (LibraryError "StopIteration" [])).

(** The stripped text of the first message of a reply of the service, as
    the processor reads it: it raises when the service raised, when there is
    no choice, and when the content is [None]. *)
Definition response_text (r : result ChatCompletion) : result pystr :=
  match r with
  | Raise e => Raise e
  | Ok response =>
      match choices response with
      | [] => Raise IndexError
      | c :: _ =>
          match msg_content (ch_message c) with
          | None => Raise (AttributeError "NoneType" "strip")
          | Some s => Ok (strip s)
          end
      end
  end.

(** What the dispatcher returns against a script, read off the script
    alone; [None] where it raises. *)
Definition scripted_dispatch (rt : Runtime) (self : QAProcessor)
    (script : list (result ChatCompletion)) : option pystr :=
  match client self, script_entry script 0 with
  | Some _, Ok {| choices := c :: _ |} =>
      if has_tool_calls (ch_message c) then
        match msg_tool_calls (ch_message c) with
        | Some calls =>
            if forallb (parses rt) calls then reply_text (script_entry script 1)
            else None
        | None => None
        end
      else reply_text (script_entry script 0)
  | _, _ => None
  end.

(** What [process_question] answers against a script. *)
Definition scripted_answer (rt : Runtime) (self : QAProcessor)
    (script : list (result ChatCompletion)) (question : pystr) : pystr :=
  match strip question with
  | [] => repeat_prompt
  | _ :: _ =>
      if use_openai self then
        match scripted_dispatch rt self script with
        | Some text => text
        | None => _get_fallback_response rt self question
        end
      else _get_fallback_response rt self question
  end.

(** [w'] comes from [w] by client calls only: same processor object, and
    the new events are all calls to the client. *)
Definition client_steps (w w' : World) : Prop :=
  self_obj w' = self_obj w
  /\ exists new, trace w' = new ++ trace w /\ forallb is_client new = true.

(** A computation that, from any world, makes client calls only. *)
Definition client_only {A : Type} (m : M A) : Prop :=
  forall w, client_steps w (snd (m w)).

(** The tool message of one call with parsed arguments, produced in some
    world reached by client calls from [w]. *)
Definition tool_message_of (rt : Runtime) (orc : Oracles) (w : World) (tc : ToolCall) (m : ChatMessage) : Prop :=
  exists args wi,
    json_loads rt (fn_arguments (tc_function tc)) = Ok args
    /\ client_steps w wi
    /\ m = ToolMessage (tc_id tc)
             (json_dumps (fst (tool_result rt orc (fn_name (tc_function tc)) args wi))).

(** The tool calls the first reply of the service asks for, when it asks
    for any: what the decide phase returned in world [w]. *)
Definition decided_calls (orc : Oracles) (question : pystr) (w : World)
    : option (list ToolCall) :=
  match service orc (trace w) (initial_request question) with
  | Ok {| choices := ch :: _ |} =>
      if has_tool_calls (ch_message ch) then msg_tool_calls (ch_message ch) else None
  | _ => None
  end.

(** ** Values outside the monad *)

(** Operations on values that raise without touching the world. *)
Definition rbind {A B : Type} (r : result A) (k : A -> result B) : result B :=
  match r with
  | Ok a => k a
  | Raise e => Raise e
  end.

Notation "x <~ r ;; k" := (rbind r (fun x => k))
  (at level 61, r at next level, right associativity) : effect_scope.

(** [v.get(key, dflt)] *)
Definition value_get (v : value) (key : pystr) (dflt : value) : result value :=
  match v with
  | VDict d =>
      Ok match dict_lookup key d with
         | Some x => x
         | None => dflt
         end
  | _ => Raise (AttributeError (type_name v) "get")
  end.

(** [v[key]] for a string key *)
Definition value_getitem (v : value) (key : pystr) : result value :=
  match v with
  | VDict d =>
      match dict_lookup key d with
      | Some x => Ok x
      | None => Raise (KeyError key)
      end
  | _ => Raise (SubscriptTypeError (type_name v))
  end.

(** [v[i]] for an index that is not negative *)
Definition value_index (v : value) (i : nat) : result value :=
  match v with
  | VList l =>
      match nth_error l i with
      | Some x => Ok x
      | None => Raise IndexError
      end
  | VStr s =>
      match nth_error s i with
      | Some c => Ok (VStr [c])
      | None => Raise IndexError
      end
  | VDict _ => Raise (LibraryError "KeyError" (lit (NilZero.string_of_uint (Nat.to_uint i))))
  | _ => Raise (SubscriptTypeError (type_name v))
  end.

(** The items [for x in v] goes through: the elements of a list, the
    characters of a string, the keys of a dict; nothing else can be
    iterated. *)
Definition value_iter (v : value) : result (list value) :=
  match v with
  | VList l => Ok l
  | VStr s => Ok (map (fun c => VStr [c]) s)
  | VDict d => Ok (map (fun kv => VStr (fst kv)) d)
  | _ => Raise (LibraryError "TypeError" (lit "object is not iterable"))
  end.

(** [len(v)] for a value that was iterated *)
Definition value_len (v : value) : nat :=
  match v with
  | VList l => List.length l
  | VStr s => List.length s
  | VDict d => List.length d
  | _ => 0
  end.

(** [v == text] for a string literal *)
Definition value_is_str (v : value) (text : pystr) : bool :=
  match v with
  | VStr s => pystr_eqb s text
  | _ => false
  end.

(** ** Reading the session from the MCP configuration *)

(** The files the processor can see: whether a path exists, and what
    opening it and [json.load] give. *)
Record Files : Type := {
  path_exists : pystr -> bool;
  load_json : pystr -> result value
}.

Definition mcp_config_path : pystr :=
  lit "/home/virus/Documents/repo/lc_problems/.mcp.json".

(** The loop of [_get_leetcode_session] from index [i] on: [Some v] when it
    returns [v], [None] when it runs to its end. *)
Fixpoint session_after_flag (args : value) (i : nat) (items : list value)
    : result (option value) :=
  match items with
  | [] => Ok None
  | arg :: rest =>
      if value_is_str arg (lit "--session") && (i + 1 <? value_len args)%nat
      then v <~ value_index args (i + 1) ;; Ok (Some v)
      else session_after_flag args (S i) rest
  end.

(** [QAProcessor._get_leetcode_session]; Python's [None] is [VNone]. *)
Definition _get_leetcode_session (env : pystr -> option pystr) (fs : Files) : value :=
  let body : result value :=
    match env (lit "LEETCODE_SESSION") with
    | Some (c :: session) => Ok (VStr (c :: session))
    | _ =>
        if path_exists fs mcp_config_path then
          config <~ load_json fs mcp_config_path ;;
          servers <~ value_get config (lit "mcpServers") (VDict []) ;;
          leetcode_config <~ value_get servers (lit "leetcode") (VDict []) ;;
          args <~ value_get leetcode_config (lit "args") (VList []) ;;
          items <~ value_iter args ;;
          found <~ session_after_flag args 0 items ;;
          match found with
          | Some v => Ok v
          | None => Ok VNone
          end
        else Ok VNone
    end in
  match body with
  | Ok v => v
  | Raise _ => VNone
  end.

(** The [args] list of the leetcode server in a configuration, when the
    configuration has the expected shape all the way down. *)
Definition config_args (config : value) : option (list value) :=
  match config with
  | VDict d =>
      match dict_lookup (lit "mcpServers") d with
      | Some (VDict servers) =>
          match dict_lookup (lit "leetcode") servers with
          | Some (VDict leetcode_config) =>
              match dict_lookup (lit "args") leetcode_config with
              | Some (VList args) => Some args
              | _ => None
              end
          | _ => None
          end
      | _ => None
      end
  | _ => None
  end.

(** A configuration file with the given [args], and the files of a machine
    that has only it. *)
Definition config_with_args (args : list value) : value :=
  VDict [(lit "mcpServers",
          VDict [(lit "leetcode",
                  VDict [(lit "command", VStr (lit "npx")); (lit "args", VList args)])])].

Definition only_config (config : value) : Files :=
  {| path_exists := fun path => pystr_eqb path mcp_config_path;
     load_json := fun _ => Ok config |}.

(** ** The voice application (voice_qa/voice_qa_app.py, text_to_speech.py) *)

(** What a call the application waits on does: it finishes, or the user
    interrupts it from the keyboard.  A [KeyboardInterrupt] is no
    [Exception]: no [except Exception] of the program stops it, only the
    [except KeyboardInterrupt] of [listen_and_respond] and of
    [run_interactive_mode] do. *)
Inductive interruptible (A : Type) : Type :=
| Finished (a : A)
| KeyboardInterrupt.

Arguments Finished {A} a.
Arguments KeyboardInterrupt {A}.

(** A [TextToSpeech] object: whether its engine initialised, and what
    [engine.say] followed by [engine.runAndWait] do with a text, given the
    texts said before. *)
Record TextToSpeech : Type := {
  engine : bool;
  say_and_wait : list pystr -> pystr -> interruptible (result unit)
}.

(** The state of the application: the world of its processor and the texts
    handed to the engine, latest first. *)
Record AppWorld : Type := {
  qa_world : World;
  said : list pystr
}.

(** [TextToSpeech.speak]: its [except Exception] turns a failure of the
    engine into [False] and lets an interrupt through. *)
Definition speak (tts : TextToSpeech) (text : pystr) (a : AppWorld)
    : interruptible bool * AppWorld :=
  if negb (engine tts) then (Finished false, a)
  else
    match strip text with
    | [] => (Finished false, a)
    | _ :: _ =>
        let a1 := {| qa_world := qa_world a; said := text :: said a |} in
        match say_and_wait tts (said a) text with
        | Finished (Ok _) => (Finished true, a1)
        | Finished (Raise _) => (Finished false, a1)
        | KeyboardInterrupt => (KeyboardInterrupt, a1)
        end
    end.

Definition exit_words : list pystr := [lit "quit"; lit "exit"; lit "stop"; lit "bye"].

Definition apology : pystr :=
  lit "I'm sorry, I couldn't process your question. Please try again.".

(** What the application waits on in one turn of the conversation, besides
    the speech: what [stt.record_audio] gives; whether the user interrupts
    [qa.process_question] while it works, [Some w] when they do, [w] being
    the world the processor had reached ([process_question] has no handler
    for the interrupt, which leaves it at once); and what [time.sleep] does
    in the pause after the turn. *)
Record Turn : Type := {
  record_audio : interruptible (result pystr);
  answering : option World;
  sleep : interruptible unit
}.

(** [self.tts.speak(text)] followed by [return value] inside the [try] of
    [listen_and_respond]: an interrupt of the speech is caught by
    [except KeyboardInterrupt], which returns [False]. *)
Definition speak_then_return (tts : TextToSpeech) (text : pystr) (value : bool)
    (a : AppWorld) : interruptible bool * AppWorld :=
  match speak tts text a with
  | (Finished _, a1) => (Finished value, a1)
  | (KeyboardInterrupt, a1) => (Finished false, a1)
  end.

(** The handler [except Exception] of [listen_and_respond]: it speaks and
    returns [True]; nothing in the method catches an interrupt of this
    speech, which leaves the method. *)
Definition on_error (tts : TextToSpeech) (a : AppWorld) : interruptible bool * AppWorld :=
  match speak tts (lit "Sorry, I encountered an error. Please try again.") a with
  | (Finished _, a1) => (Finished true, a1)
  | (KeyboardInterrupt, a1) => (KeyboardInterrupt, a1)
  end.

(** [VoiceQAApp.listen_and_respond] in one turn.  It returns [True] or
    [False], or is left by an interrupt.  An interrupt of the recording, of
    the processor or of a speech inside the [try] ends in
    [except KeyboardInterrupt: return False]. *)
Definition listen_and_respond (rt : Runtime) (orc : Oracles) (tts : TextToSpeech)
    (turn : Turn) (a : AppWorld) : interruptible bool * AppWorld :=
  match record_audio turn with
  | KeyboardInterrupt => (Finished false, a)
  | Finished (Raise _) => on_error tts a
  | Finished (Ok []) =>
      speak_then_return tts (lit "I couldn't hear you clearly. Please try again.") true a
  | Finished (Ok (c :: q)) =>
      let user_question := c :: q in
      if any_in exit_words (lower (ucd_lower rt) user_question) then
        speak_then_return tts (lit "Goodbye! Thanks for using the voice assistant.") false a
      else
        match answering turn with
        | Some w1 => (Finished false, {| qa_world := w1; said := said a |})
        | None =>
            match process_question rt orc user_question (qa_world a) with
            | (Ok ai_response, w1) =>
                let ai_response :=
                  match ai_response with
                  | [] => apology
                  | _ :: _ => ai_response
                  end in
                speak_then_return tts ai_response true {| qa_world := w1; said := said a |}
            | (Raise _, w1) => on_error tts {| qa_world := w1; said := said a |}
            end
        end
  end.

(** A turn reaches the processor: something was heard and it holds no exit
    word. *)
Definition reaches_processor (rt : Runtime) (heard : result pystr) : bool :=
  match heard with
  | Ok (c :: q) => negb (any_in exit_words (lower (ucd_lower rt) (c :: q)))
  | _ => false
  end.

(** A turn in which an exit word was heard. *)
Definition ends_session (rt : Runtime) (heard : result pystr) : bool :=
  match heard with
  | Ok (c :: q) => any_in exit_words (lower (ucd_lower rt) (c :: q))
  | _ => false
  end.

(** [VoiceQAApp.run_interactive_mode] on the coming turns: the loop takes
    the turns in order and ends after the first one that returns [False]
    ([break]) or in which an interrupt leaves [listen_and_respond] or the
    pause ([except KeyboardInterrupt]).  The result says whether the loop
    has ended; it has not when it is still waiting for a turn. *)
Fixpoint run_interactive_mode (rt : Runtime) (orc : Oracles) (tts : TextToSpeech)
    (turns : list Turn) (a : AppWorld) : bool * AppWorld :=
  match turns with
  | [] => (false, a)
  | turn :: rest =>
      match listen_and_respond rt orc tts turn a with
      | (Finished true, a1) =>
          match sleep turn with
          | Finished _ => run_interactive_mode rt orc tts rest a1
          | KeyboardInterrupt => (true, a1)
          end
      | (Finished false, a1) => (true, a1)
      | (KeyboardInterrupt, a1) => (true, a1)
      end
  end.

(** The engine is never interrupted while it speaks. *)
Definition uninterrupted_speech (tts : TextToSpeech) : Prop :=
  forall texts text, say_and_wait tts texts text <> KeyboardInterrupt.

(** A turn interrupted before anything is said: while recording, or while
    the processor answers. *)
Definition interrupted_before_reply (rt : Runtime) (turn : Turn) : bool :=
  match record_audio turn with
  | KeyboardInterrupt => true
  | Finished heard =>
      reaches_processor rt heard
      && match answering turn with Some _ => true | None => false end
  end.

(** A turn after which the loop goes on, speech apart: no exit word was
    heard and no interrupt came while recording, answering or pausing. *)
Definition goes_on (rt : Runtime) (turn : Turn) : bool :=
  match record_audio turn with
  | KeyboardInterrupt => false
  | Finished heard =>
      negb (ends_session rt heard)
      && negb (interrupted_before_reply rt turn)
      && match sleep turn with Finished _ => true | KeyboardInterrupt => false end
  end.

(** A turn in which [heard] comes from the recording and nobody touches the
    keyboard. *)
Definition quiet_turn (heard : result pystr) : Turn :=
  {| record_audio := Finished heard; answering := None; sleep := Finished tt |}.

(** An engine that works. *)
Definition working_tts : TextToSpeech :=
  {| engine := true; say_and_wait := fun _ _ => Finished (Ok tt) |}.

Definition app_world (w : World) : AppWorld := {| qa_world := w; said := [] |}.

(** The runtime and the client of the "two sum" scenario: the parser knows
    the argument object of the look-up, the client knows the problem. *)
Definition two_sum_arguments : value := VDict [(lit "title_slug", VStr (lit "two-sum"))].

Definition scenario_runtime : Runtime :=
  {| ucd_lower := fun _ c _ => [c];
     json_loads := loads_among [two_sum_arguments];
     str_exn := sample_str_exn |}.

Definition two_sum_client : list Event -> ClientCall -> result value :=
  fun _ _ => Ok (VDict [(lit "title", VStr (lit "Two Sum"));
                        (lit "difficulty", VStr (lit "Easy"))]).

(** ** The LeetCode client (leetcode_api_client.py) *)

(** What the Python runtime provides for the client's string handling: the
    [repr] of a string and the upper-casing of a non-ASCII code point. *)
Record Text : Type := {
  repr_str : pystr -> pystr;
  ucd_upper : N -> pystr
}.

(** [repr(v)] *)
Fixpoint py_repr (tx : Text) (v : value) : pystr :=
  match v with
  | VNone => lit "None"
  | VBool true => lit "True"
  | VBool false => lit "False"
  | VInt n => lit (NilZero.string_of_int (Z.to_int n))
  | VFloat r => r
  | VStr s => repr_str tx s
  | VList l => lit "[" ++ join (lit ", ") (map (py_repr tx) l) ++ lit "]"
  | VDict d =>
      lit "{"
        ++ join (lit ", ")
             (map (fun kv => repr_str tx (fst kv) ++ lit ": " ++ py_repr tx (snd kv)) d)
        ++ lit "}"
  end.

(** [str(v)], which is what an f-string puts in for [v] *)
Definition py_str (tx : Text) (v : value) : pystr :=
  match v with
  | VStr s => s
  | _ => py_repr tx v
  end.

Definition ascii_upper (c : N) : N :=
  if ((97 <=? c) && (c <=? 122))%N then (c - 32)%N else c.

(** [s.upper()] *)
Definition upper (tx : Text) (s : pystr) : pystr :=
  flat_map (fun c => if (c <? 128)%N then [ascii_upper c] else ucd_upper tx c) s.

(** [v.upper()] *)
Definition value_upper (tx : Text) (v : value) : result value :=
  match v with
  | VStr s => Ok (VStr (upper tx s))
  | _ => Raise (AttributeError (type_name v) "upper")
  end.

(** [key in v] for a string [key] *)
Definition value_has (v : value) (key : pystr) : result bool :=
  match v with
  | VDict d => Ok match dict_lookup key d with Some _ => true | None => false end
  | VList l => Ok (existsb (fun x => value_is_str x key) l)
  | VStr s => Ok (contains key s)
  | _ => Raise (LibraryError "TypeError" (lit "argument is not iterable"))
  end.

(** [a or b] on values *)
Definition value_or (a b : value) : value := if truthy a then a else b.

(** A POST of the client's session. *)
Record HttpRequest : Type := {
  http_url : pystr;
  http_json : value;
  http_timeout : Z
}.

(** The web as the client sees it: from the requests posted so far (latest
    first) and a request, the parsed JSON of the response; it raises when
    the post fails, when the status is an error and when the body is not
    JSON. *)
Definition Web : Type := list HttpRequest -> HttpRequest -> result value.

(** The attribute of a [LeetCodeAPIClient] its methods read. *)
Record ApiClient : Type := {
  api_session : option pystr;
  api_username : pystr
}.

(** [LeetCodeAPIClient.__init__] *)
Definition LeetCodeAPIClient__init__ (env : pystr -> option pystr)
    (session : option pystr) : ApiClient :=
  {| api_session := py_or session (env (lit "LEETCODE_SESSION"));
     api_username := getenv_default env (lit "LEETCODE_USERNAME") (lit "dviresh1993") |}.

(** The GraphQL text of [get_daily_challenge]. *)
Definition daily_challenge_query : pystr := lit "
                query questionOfToday {
                    activeDailyCodingChallengeQuestion {
                        date
                        userStatus
                        link
                        question {
                            acRate
                            difficulty
                            freqBar
                            frontendQuestionId: questionFrontendId
                            isFavor
                            paidOnly: isPaidOnly
                            status
                            title
                            titleSlug
                            hasVideoSolution
                            hasSolution
                            topicTags {
                                name
                                id
                                slug
                            }
                        }
                    }
                }
                ".

(** The GraphQL text of [get_problem]. *)
Definition problem_query : pystr := lit "
                query questionData($titleSlug: String!) {
                    question(titleSlug: $titleSlug) {
                        questionId
                        questionFrontendId
                        title
                        titleSlug
                        content
                        difficulty
                        likes
                        dislikes
                        isLiked
                        similarQuestions
                        topicTags {
                            name
                            slug
                        }
                        stats
                    }
                }
                ".

(** The GraphQL text of [get_recent_submissions]. *)
Definition recent_submissions_query : pystr := lit "
                query recentSubmissions($username: String!, $limit: Int!) {
                    recentSubmissionList(username: $username, limit: $limit) {
                        title
                        titleSlug
                        timestamp
                        statusDisplay
                        lang
                        runtime
                        memory
                        url
                    }
                }
                ".

(** The GraphQL text of [get_user_profile]. *)
Definition user_profile_query : pystr := lit "
                query userPublicProfile($username: String!) {
                    matchedUser(username: $username) {
                        username
                        profile {
                            realName
                            ranking
                            userAvatar
                            reputation
                            websites
                            countryName
                            company
                            school
                            skillTags
                        }
                        submitStats {
                            acSubmissionNum {
                                difficulty
                                count
                                submissions
                            }
                            totalSubmissionNum {
                                difficulty
                                count
                                submissions
                            }
                        }
                    }
                }
                ".

(** The GraphQL text of [search_problems]. *)
Definition search_problems_query : pystr := lit "
                query problemsetQuestionList($categorySlug: String, $limit: Int, $skip: Int, $filters: QuestionListFilterInput) {
                    problemsetQuestionList: questionList(
                        categorySlug: $categorySlug
                        limit: $limit
                        skip: $skip
                        filters: $filters
                    ) {
                        total: totalNum
                        questions: data {
                            acRate
                            difficulty
                            freqBar
                            frontendQuestionId: questionFrontendId
                            isFavor
                            paidOnly: isPaidOnly
                            status
                            title
                            titleSlug
                            topicTags {
                                name
                                id
                                slug
                            }
                            hasSolution
                            hasVideoSolution
                        }
                    }
                }
                ".

(** The request every method posts: the GraphQL text and its variables. *)
Definition graphql (query : pystr) (variables : value) : HttpRequest :=
  {| http_url := lit "https://leetcode.com/graphql";
     http_json := VDict [(lit "query", VStr query); (lit "variables", variables)];
     http_timeout := 30 |}.

(** The test [if 'data' in data and data['data'][field]] *)
Definition has_data_field (data : value) (field : pystr) : result bool :=
  has <~ value_has data (lit "data") ;;
  if has then
    inner <~ value_getitem data (lit "data") ;;
    v <~ value_getitem inner field ;;
    Ok (truthy v)
  else Ok false.

(** What [try: ... except Exception: return {}] returns. *)
Definition or_empty (r : result value) : value :=
  match r with
  | Ok v => v
  | Raise _ => VDict []
  end.

(** The common end of [get_problem], [get_user_profile] and
    [search_problems]: the field of the response's data when it is there and
    true, the empty dict otherwise. *)
Definition data_field_or_empty (response : result value) (field : pystr) : value :=
  or_empty
    (data <~ response ;;
     found <~ has_data_field data field ;;
     if found then
       inner <~ value_getitem data (lit "data") ;;
       value_getitem inner field
     else Ok (VDict [])).

(** Each method gives the value it returns and the requests posted after
    it. *)
Definition get_daily_challenge (tx : Text) (web : Web) (posted : list HttpRequest)
    : value * list HttpRequest :=
  let request := graphql daily_challenge_query (VDict []) in
  (or_empty
     (data <~ web posted request ;;
      found <~ has_data_field data (lit "activeDailyCodingChallengeQuestion") ;;
      if found then
        inner <~ value_getitem data (lit "data") ;;
        challenge <~ value_getitem inner (lit "activeDailyCodingChallengeQuestion") ;;
        question <~ value_getitem challenge (lit "question") ;;
        title <~ value_getitem question (lit "title") ;;
        difficulty <~ value_getitem question (lit "difficulty") ;;
        title_slug <~ value_getitem question (lit "titleSlug") ;;
        date <~ value_getitem challenge (lit "date") ;;
        link <~ value_getitem challenge (lit "link") ;;
        Ok (VDict [(lit "questionTitle", title);
                   (lit "difficulty", difficulty);
                   (lit "titleSlug", title_slug);
                   (lit "date", date);
                   (lit "link", VStr (lit "https://leetcode.com" ++ py_str tx link))])
      else Ok (VDict [])),
   request :: posted).

Definition get_problem (web : Web) (posted : list HttpRequest) (title_slug : value)
    : value * list HttpRequest :=
  let request := graphql problem_query (VDict [(lit "titleSlug", title_slug)]) in
  (data_field_or_empty (web posted request) (lit "question"), request :: posted).

Definition get_recent_submissions (self : ApiClient) (web : Web)
    (posted : list HttpRequest) (username limit : value) : value * list HttpRequest :=
  let username := value_or username (VStr (api_username self)) in
  let request :=
    graphql recent_submissions_query
      (VDict [(lit "username", username); (lit "limit", limit)]) in
  (or_empty
     (data <~ web posted request ;;
      found <~ has_data_field data (lit "recentSubmissionList") ;;
      if found then
        inner <~ value_getitem data (lit "data") ;;
        submissions <~ value_getitem inner (lit "recentSubmissionList") ;;
        Ok (VDict [(lit "submissions", submissions); (lit "username", username)])
      else Ok (VDict [])),
   request :: posted).

Definition get_user_profile (self : ApiClient) (web : Web)
    (posted : list HttpRequest) (username : value) : value * list HttpRequest :=
  let username := value_or username (VStr (api_username self)) in
  let request := graphql user_profile_query (VDict [(lit "username", username)]) in
  (data_field_or_empty (web posted request) (lit "matchedUser"), request :: posted).

(** The [filters] dict of [search_problems]. *)
Definition search_filters (tx : Text) (keywords difficulty : value) : result value :=
  with_difficulty <~
    (if truthy difficulty
     then d <~ value_upper tx difficulty ;; Ok [(lit "difficulty", d)]
     else Ok []) ;;
  Ok (VDict (with_difficulty
             ++ if truthy keywords then [(lit "searchKeywords", keywords)] else [])).

Definition search_problems (tx : Text) (web : Web) (posted : list HttpRequest)
    (keywords difficulty limit : value) : value * list HttpRequest :=
  match search_filters tx keywords difficulty with
  | Raise _ => (VDict [], posted)
  | Ok filters =>
      let request :=
        graphql search_problems_query
          (VDict [(lit "categorySlug", VStr []); (lit "limit", limit);
                  (lit "skip", VInt 0); (lit "filters", filters)]) in
      (data_field_or_empty (web posted request) (lit "problemsetQuestionList"),
       request :: posted)
  end.

(** The client as the collaborator of the processor: each client call runs
    the method of its name against the web. *)
Definition api_call (tx : Text) (self : ApiClient) (web : Web)
    (posted : list HttpRequest) (call : ClientCall) : value * list HttpRequest :=
  match call with
  | Call_get_daily_challenge => get_daily_challenge tx web posted
  | Call_get_problem title_slug => get_problem web posted title_slug
  | Call_search_problems keywords difficulty limit =>
      search_problems tx web posted keywords difficulty limit
  | Call_get_user_profile username => get_user_profile self web posted username
  | Call_get_recent_submissions username limit =>
      get_recent_submissions self web posted username limit
  end.

Definition api_leetcode (tx : Text) (self : ApiClient)
    (web : list Event -> HttpRequest -> result value)
    : list Event -> ClientCall -> result value :=
  fun history call => Ok (fst (api_call tx self (fun _ => web history) [] call)).

(** A text runtime for the examples, and a web that is down. *)
Definition sample_text : Text :=
  {| repr_str := fun s => lit "'" ++ s ++ lit "'"; ucd_upper := fun c => [c] |}.

Definition web_down : Web :=
  fun _ _ => Raise (LibraryError "ConnectionError" (lit "network down")).

(** [out] is the field [field] of the data of [response], or the empty
    dict: it is not empty only when the response is an object whose "data"
    is an object that holds [out], true as a truth value, under [field]; and
    whenever the response has that shape [out] is the field. *)
Definition returns_field (out : value) (response : result value) (field : pystr) : Prop :=
  (out <> VDict [] ->
   exists d i,
     response = Ok (VDict d)
     /\ dict_lookup (lit "data") d = Some (VDict i)
     /\ dict_lookup field i = Some out
     /\ truthy out = true)
  /\ (forall d i v,
         response = Ok (VDict d) ->
         dict_lookup (lit "data") d = Some (VDict i) ->
         dict_lookup field i = Some v ->
         truthy v = true ->
         out = v).

(** ** Facts about strings *)

Lemma lstrip_idempotent (s : pystr) : lstrip (lstrip s) = lstrip s.
Proof.
  induction s as [|c s IH]; simpl; [reflexivity|].
  destruct (isspace c) eqn:E; [exact IH|].
  simpl. now rewrite E.
Qed.

Lemma lstrip_nil_iff (s : pystr) : lstrip s = [] <-> forallb isspace s = true.
Proof.
  induction s as [|c s IH]; simpl; [tauto|].
  destruct (isspace c); simpl; [exact IH|].
  split; discriminate.
Qed.

Lemma lstrip_snoc (s : pystr) (c : N) :
  lstrip (s ++ [c]) =
  match lstrip s with
  | [] => if isspace c then [] else [c]
  | r => r ++ [c]
  end.
Proof.
  induction s as [|a s IH]; simpl; [reflexivity|].
  destruct (isspace a); [exact IH|reflexivity].
Qed.

Lemma rstrip_cons (c : N) (s : pystr) :
  rstrip (c :: s) =
  match rstrip s with
  | [] => if isspace c then [] else [c]
  | r => c :: r
  end.
Proof.
  unfold rstrip. simpl rev. rewrite lstrip_snoc.
  destruct (lstrip (rev s)) as [|a r]; simpl.
  - now destruct (isspace c).
  - rewrite rev_app_distr. simpl.
    destruct (rev r ++ [a]) eqn:E; [now destruct (rev r)|reflexivity].
Qed.

Lemma rstrip_idempotent (s : pystr) : rstrip (rstrip s) = rstrip s.
Proof.
  unfold rstrip. now rewrite rev_involutive, lstrip_idempotent.
Qed.

(** Stripping the right end keeps a string that starts with a non-space
    stripped on the left. *)
Lemma lstrip_rstrip (s : pystr) : lstrip s = s -> lstrip (rstrip s) = rstrip s.
Proof.
  destruct s as [|c s]; [reflexivity|].
  simpl. destruct (isspace c) eqn:E.
  - intros H. exfalso.
    assert (L : (List.length (lstrip s) <= List.length s)%nat).
    { clear. induction s as [|a s IH]; simpl; [lia|].
      destruct (isspace a); simpl; lia. }
    rewrite H in L. simpl in L. lia.
  - intros _. rewrite rstrip_cons, E.
    destruct (rstrip s); simpl; now rewrite E.
Qed.

Lemma strip_idempotent (s : pystr) : strip (strip s) = strip s.
Proof.
  unfold strip.
  rewrite (lstrip_rstrip (lstrip_idempotent s)).
  apply rstrip_idempotent.
Qed.

Lemma forallb_rev (f : N -> bool) (s : pystr) : forallb f (rev s) = forallb f s.
Proof.
  induction s as [|c s IH]; simpl; [reflexivity|].
  rewrite forallb_app, IH. simpl. rewrite andb_true_r. apply andb_comm.
Qed.

(** A question is blank for [strip] exactly when all of it is white space. *)
Lemma strip_nil_iff (s : pystr) : strip s = [] <-> forallb isspace s = true.
Proof.
  unfold strip, rstrip. split.
  - intros H.
    assert (H1 : lstrip (rev (lstrip s)) = []).
    { destruct (lstrip (rev (lstrip s))) as [|a l]; [reflexivity|].
      simpl in H. now destruct (rev l). }
    apply lstrip_nil_iff in H1. rewrite forallb_rev in H1.
    apply lstrip_nil_iff in H1. rewrite lstrip_idempotent in H1.
    now apply lstrip_nil_iff.
  - intros H. apply lstrip_nil_iff in H. now rewrite H.
Qed.

Lemma pystr_eqb_eq (a b : pystr) : pystr_eqb a b = true <-> a = b.
Proof.
  revert b. induction a as [|x a IH]; intros [|y b]; simpl;
    try (split; (reflexivity || discriminate)).
  rewrite andb_true_iff, N.eqb_eq, IH. split.
  - now intros [-> ->].
  - intros H. now injection H.
Qed.

Lemma pystr_eqb_refl (a : pystr) : pystr_eqb a a = true.
Proof. now apply pystr_eqb_eq. Qed.

Lemma pystr_eqb_neq (a b : pystr) : a <> b -> pystr_eqb a b = false.
Proof.
  intros H. destruct (pystr_eqb a b) eqn:E; [|reflexivity].
  now apply pystr_eqb_eq in E.
Qed.

(** ** Substrings under lowering and stripping *)

Lemma startswith_app (p b : pystr) : startswith p (p ++ b) = true.
Proof.
  induction p as [|c p IH]; simpl; [reflexivity|].
  now rewrite N.eqb_refl, IH.
Qed.

Lemma startswith_split (p s : pystr) :
  startswith p s = true -> exists b, s = p ++ b.
Proof.
  revert s. induction p as [|c p IH]; intros s; simpl.
  - intros _. now exists s.
  - destruct s as [|d s]; [discriminate|].
    rewrite andb_true_iff, N.eqb_eq. intros [-> H].
    destruct (IH s H) as [b ->]. now exists b.
Qed.

Lemma contains_startswith (k s : pystr) :
  startswith k s = true -> contains k s = true.
Proof. intros H. destruct s; simpl; now rewrite H. Qed.

Lemma contains_app (k a b : pystr) : contains k (a ++ k ++ b) = true.
Proof.
  induction a as [|c a IH]; simpl.
  - apply contains_startswith, startswith_app.
  - rewrite IH. apply orb_true_r.
Qed.

Lemma contains_split (k s : pystr) :
  contains k s = true -> exists a b, s = a ++ k ++ b.
Proof.
  induction s as [|c s IH]; simpl.
  - rewrite orb_false_r. intros H. destruct (startswith_split _ _ H) as [b Hb].
    now exists [], b.
  - rewrite orb_true_iff. intros [H|H].
    + destruct (startswith_split _ _ H) as [b Hb]. now exists [], b.
    + destruct (IH H) as (a & b & ->). now exists (c :: a), b.
Qed.

Lemma lower_from_app ucd (a rest before : pystr) :
  exists pre,
    lower_from ucd before (a ++ rest) = pre ++ lower_from ucd (rev a ++ before) rest.
Proof.
  revert before. induction a as [|c a IH]; intros before; simpl.
  - now exists [].
  - destruct (IH (c :: before)) as [pre ->].
    rewrite <- app_assoc. simpl. rewrite app_assoc. now eexists.
Qed.

Lemma lower_from_plain ucd (k rest before : pystr) :
  forallb (fun c => (c <? 128)%N && (ascii_lower c =? c)%N) k = true ->
  lower_from ucd before (k ++ rest) = k ++ lower_from ucd (rev k ++ before) rest.
Proof.
  revert before. induction k as [|c k IH]; intros before; simpl; [reflexivity|].
  rewrite !andb_true_iff, N.eqb_eq. intros [[-> ->] Hk].
  simpl. rewrite (IH (c :: before) Hk), <- app_assoc. reflexivity.
Qed.

Lemma lstrip_app_nonspace (pre : pystr) (c : N) (r : pystr) :
  isspace c = false -> lstrip (pre ++ c :: r) = lstrip pre ++ c :: r.
Proof.
  intros Hc. induction pre as [|a pre IH]; simpl.
  - now rewrite Hc.
  - destruct (isspace a); [exact IH|reflexivity].
Qed.

(** A plain word that occurs in a question occurs in the lowered, stripped
    question. *)
Lemma plain_word_survives ucd (k question : pystr) :
  plain_word k = true ->
  contains k question = true ->
  contains k (strip (lower ucd question)) = true.
Proof.
  unfold plain_word. rewrite !andb_true_iff. intros [[Hplain Hhead] Hlast] Hin.
  destruct (contains_split _ _ Hin) as (a & b & ->).
  unfold lower.
  destruct (lower_from_app ucd a (k ++ b) []) as [pre ->].
  rewrite (lower_from_plain ucd k b _ Hplain).
  set (post := lower_from ucd (rev k ++ rev a ++ []) b).
  destruct k as [|c r]; [discriminate|].
  destruct (rev (c :: r)) as [|d r'] eqn:Hrev; [discriminate|].
  apply negb_true_iff in Hhead, Hlast.
  unfold strip, rstrip.
  change (pre ++ (c :: r) ++ post) with (pre ++ c :: (r ++ post)).
  rewrite (@lstrip_app_nonspace pre c (r ++ post) Hhead).
  change (lstrip pre ++ c :: r ++ post) with (lstrip pre ++ (c :: r) ++ post).
  rewrite !rev_app_distr, Hrev, <- app_assoc.
  change ((d :: r') ++ rev (lstrip pre)) with (d :: (r' ++ rev (lstrip pre))).
  rewrite (@lstrip_app_nonspace (rev post) d (r' ++ rev (lstrip pre)) Hlast).
  change (d :: r' ++ rev (lstrip pre)) with ((d :: r') ++ rev (lstrip pre)).
  rewrite <- Hrev, !rev_app_distr, !rev_involutive, <- app_assoc.
  apply contains_app.
Qed.

(** A word that neither starts nor ends with white space and occurs in a
    text occurs in the stripped text. *)
Lemma plain_word_strip (k s : pystr) :
  plain_word k = true ->
  contains k s = true ->
  contains k (strip s) = true.
Proof.
  unfold plain_word. rewrite !andb_true_iff. intros [[_ Hhead] Hlast] Hin.
  destruct (contains_split _ _ Hin) as (pre & post & ->).
  destruct k as [|c r]; [discriminate|].
  destruct (rev (c :: r)) as [|d r'] eqn:Hrev; [discriminate|].
  apply negb_true_iff in Hhead, Hlast.
  unfold strip, rstrip.
  change (pre ++ (c :: r) ++ post) with (pre ++ c :: (r ++ post)).
  rewrite (@lstrip_app_nonspace pre c (r ++ post) Hhead).
  change (lstrip pre ++ c :: r ++ post) with (lstrip pre ++ (c :: r) ++ post).
  rewrite !rev_app_distr, Hrev, <- app_assoc.
  change ((d :: r') ++ rev (lstrip pre)) with (d :: (r' ++ rev (lstrip pre))).
  rewrite (@lstrip_app_nonspace (rev post) d (r' ++ rev (lstrip pre)) Hlast).
  change (d :: r' ++ rev (lstrip pre)) with ((d :: r') ++ rev (lstrip pre)).
  rewrite <- Hrev, !rev_app_distr, !rev_involutive, <- app_assoc.
  apply contains_app.
Qed.

(** On ASCII text [lower] is the ASCII rule applied to every code point. *)
Lemma lower_from_ascii ucd (before s : pystr) :
  forallb (fun c => (c <? 128)%N) s = true ->
  lower_from ucd before s = map ascii_lower s.
Proof.
  revert before. induction s as [|c s IH]; intros before; simpl; [reflexivity|].
  rewrite andb_true_iff. intros [-> Hs]. simpl. now rewrite (IH _ Hs).
Qed.

(** ** Facts about [find] on the trigger table *)

Section FindFirst.

Context {A : Type} (f : A -> bool).

Lemma find_first (pre : list A) (x : A) (post : list A) :
  Forall (fun y => f y = false) pre -> f x = true ->
  find f (pre ++ x :: post) = Some x.
Proof.
  induction 1 as [|y pre Hy _ IH]; simpl; intros Hx.
  - now rewrite Hx.
  - rewrite Hy. now apply IH.
Qed.

Lemma find_some_first (l : list A) (x : A) :
  find f l = Some x ->
  exists pre post,
    l = pre ++ x :: post /\ f x = true /\ Forall (fun y => f y = false) pre.
Proof.
  induction l as [|y l IH]; simpl; [discriminate|].
  destruct (f y) eqn:E.
  - intros [= ->]. exists [], l. now repeat split.
  - intros H. destruct (IH H) as (pre & post & -> & Hx & Hpre).
    exists (y :: pre), post. repeat split; [assumption|].
    now constructor.
Qed.

Lemma find_none_iff (l : list A) :
  find f l = None <-> forall y, In y l -> f y = false.
Proof.
  split; [apply find_none|].
  induction l as [|y l IH]; simpl; [reflexivity|].
  intros H. rewrite (H y (or_introl eq_refl)). apply IH. auto.
Qed.

End FindFirst.

(** ** The fallback responder *)

Lemma init_fallback_responses env new_client key :
  fallback_responses (__init__ env new_client key) = trigger_table.
Proof.
  unfold __init__.
  destruct (new_client _); destruct (py_or _ _) as [[|c k]|]; reflexivity.
Qed.

Lemma trigger_reply_not_category (k r : pystr) :
  In (k, r) trigger_table -> ~ In r category_replies.
Proof.
  intros Hin Hcat.
  assert (E : existsb (pystr_eqb r) (map snd trigger_table) = true).
  { apply existsb_exists. exists r. split; [|apply pystr_eqb_refl].
    now apply (in_map snd) in Hin. }
  unfold category_replies in Hcat. simpl in Hcat.
  destruct Hcat as [<-|[<-|[<-|[]]]]; vm_compute in E; discriminate.
Qed.

(** With no trigger in the question the reply is one of the category
    replies, and otherwise it is the reply of the first trigger found. *)
Lemma fallback_cases rt (self : QAProcessor) (question : pystr) :
  (find (fun kv => contains (fst kv) (question_lower rt question))
        (fallback_responses self) = None
   /\ In (_get_fallback_response rt self question) category_replies)
  \/ (exists k r,
        find (fun kv => contains (fst kv) (question_lower rt question))
             (fallback_responses self) = Some (k, r)
        /\ _get_fallback_response rt self question = r).
Proof.
  unfold _get_fallback_response. fold (question_lower rt question).
  destruct (find _ (fallback_responses self)) as [[k r]|].
  - right. now exists k, r.
  - left. split; [reflexivity|].
    unfold category_replies.
    destruct (any_in _ _); [now left|].
    destruct (any_in _ _); [right; now left|right; right; now left].
Qed.

Lemma fallback_nonempty_trimmed rt env new_client key (question : pystr) :
  _get_fallback_response rt (__init__ env new_client key) question <> []
  /\ strip (_get_fallback_response rt (__init__ env new_client key) question)
     = _get_fallback_response rt (__init__ env new_client key) question.
Proof.
  destruct (fallback_cases rt (__init__ env new_client key) question)
    as [[_ Hin]|(k & r & Hfind & ->)].
  - unfold category_replies in Hin. simpl in Hin.
    destruct Hin as [<-|[<-|[<-|[]]]]; split;
      solve [discriminate | vm_compute; reflexivity].
  - rewrite init_fallback_responses in Hfind.
    apply find_some in Hfind. destruct Hfind as [Hin _].
    unfold trigger_table in Hin. simpl in Hin.
    repeat (destruct Hin as [Hin|Hin];
            [injection Hin as _ <-; split;
             solve [discriminate | vm_compute; reflexivity]|]).
    destruct Hin.
Qed.

(** C2. For every question that is empty or made of white space only,
    [process_question] returns the fixed "I didn't hear anything" message and
    leaves the world as it found it: no request reaches the reasoning
    service and no call reaches the LeetCode client. *)
Theorem blank_question_repeat_prompt rt orc (w : World) (question : pystr) :
  forallb isspace question = true ->
  process_question rt orc question w = (Ok repeat_prompt, w)
  /\ chat_calls (trace (snd (process_question rt orc question w))) = chat_calls (trace w)
  /\ client_calls (trace (snd (process_question rt orc question w))) = client_calls (trace w).
Proof.
  intros H. apply strip_nil_iff in H.
  assert (E : process_question rt orc question w = (Ok repeat_prompt, w)).
  { unfold process_question. now rewrite H. }
  rewrite E. now repeat split.
Qed.

Lemma blank_question_repeat_prompt_witness :
  forallb isspace (lit "  " ++ [9; 160; 8195; 10]%N) = true
  /\ process_question sample_runtime
       (sample_oracles [Ok (text_reply (lit "never asked"))])
       (lit "  " ++ [9; 160; 8195; 10]%N) online_world
     = (Ok repeat_prompt, online_world).
Proof.
  split; [reflexivity|].
  apply (blank_question_repeat_prompt sample_runtime
           (sample_oracles [Ok (text_reply (lit "never asked"))]) online_world
           (lit "  " ++ [9; 160; 8195; 10]%N)).
  reflexivity.
Defined.

(** C7. The fallback responder is total and touches neither collaborator:
    with no reasoning service configured, [process_question] returns a
    non-empty answer for every question and leaves the world unchanged; the
    question "hello" gets exactly the reply registered for the trigger
    "hello"; and the triggers are tried in the order of the table, so of
    several triggers that occur in a question the first registered wins. *)
Theorem fallback_responder_total rt orc env new_client key (t : list Event) :
  use_openai (__init__ env new_client key) = false ->
  (forall question,
      exists answer,
        process_question rt orc question (Build_World (__init__ env new_client key) t)
        = (Ok answer, Build_World (__init__ env new_client key) t)
        /\ answer <> []
        /\ (strip question <> [] ->
            answer = _get_fallback_response rt (__init__ env new_client key) question))
  /\ process_question rt orc (lit "hello") (Build_World (__init__ env new_client key) t)
     = (Ok (lit "Hello! I'm your voice assistant. I can help with LeetCode problems and general questions!"),
        Build_World (__init__ env new_client key) t)
  /\ (forall question pre k r post,
         fallback_responses (__init__ env new_client key) = pre ++ (k, r) :: post ->
         Forall (fun kv => contains (fst kv) (question_lower rt question) = false) pre ->
         contains k (question_lower rt question) = true ->
         _get_fallback_response rt (__init__ env new_client key) question = r).
Proof.
  intros Hoff.
  assert (Hrun : forall question c s, strip question = c :: s ->
            process_question rt orc question (Build_World (__init__ env new_client key) t)
            = (Ok (_get_fallback_response rt (__init__ env new_client key) question),
               Build_World (__init__ env new_client key) t)).
  { intros question c s Hs. unfold process_question. rewrite Hs.
    unfold bind, get_self. simpl. now rewrite Hoff. }
  split; [|split].
  - intros question. destruct (strip question) as [|c s] eqn:Hs.
    + exists repeat_prompt. unfold process_question. rewrite Hs.
      repeat split; [discriminate|]. now intros [].
    + exists (_get_fallback_response rt (__init__ env new_client key) question).
      split; [now apply Hrun with c s|].
      split; [apply fallback_nonempty_trimmed|reflexivity].
  - rewrite (Hrun (lit "hello") 104%N (lit "ello") eq_refl).
    unfold _get_fallback_response. rewrite init_fallback_responses. reflexivity.
  - intros question pre k r post Htab Hpre Hk.
    unfold _get_fallback_response. fold (question_lower rt question).
    rewrite Htab.
    now rewrite (find_first (fun kv => contains (fst kv) (question_lower rt question))
                   (k, r) post Hpre Hk).
Qed.

Lemma fallback_responder_total_witness :
  use_openai (__init__ no_env new_client_ok None) = false
  /\ process_question sample_runtime (sample_oracles []) (lit "hello") offline_world
     = (Ok (lit "Hello! I'm your voice assistant. I can help with LeetCode problems and general questions!"),
        offline_world).
Proof.
  split; [reflexivity|].
  apply (fallback_responder_total sample_runtime (sample_oracles [])
           no_env new_client_ok None []).
  reflexivity.
Defined.

Lemma triggers_plain (k r : pystr) : In (k, r) trigger_table -> plain_word k = true.
Proof.
  intros Hin.
  assert (H : forallb (fun kv => plain_word (fst kv)) trigger_table = true)
    by reflexivity.
  rewrite forallb_forall in H. exact (H (k, r) Hin).
Qed.

(** C9, as the code has it.  Trigger matching is substring containment in
    the lowered, stripped question, tried in the table's insertion order
    before any category is considered.  Whenever some trigger occurs, the
    reply is that of the FIRST trigger of the table that occurs, also when it
    occurs inside another word ("hi" inside "this"); it is the reply of a
    given occurring trigger when no trigger before it in the table occurs.
    The text matched against is the lowered one: for an ASCII question it is
    the question with every upper-case letter lowered and the surrounding
    white space removed, so that a trigger occurring in any letter case is
    found ("THANKS"); a trigger that occurs in the text of the question
    occurs in the lowered, stripped question.  A category reply is given
    exactly when no trigger occurs as a substring. *)
Theorem fallback_trigger_substring rt env new_client key :
  (forall question k r,
      In (k, r) trigger_table ->
      contains k (question_lower rt question) = true ->
      exists pre k1 r1 post,
        trigger_table = pre ++ (k1, r1) :: post
        /\ Forall (fun kv => contains (fst kv) (question_lower rt question) = false) pre
        /\ contains k1 (question_lower rt question) = true
        /\ _get_fallback_response rt (__init__ env new_client key) question = r1)
  /\ (forall question k r,
         In (k, r) trigger_table ->
         contains k question = true ->
         contains k (question_lower rt question) = true)
  /\ (forall question,
         In (_get_fallback_response rt (__init__ env new_client key) question) category_replies
         <-> (forall k r, In (k, r) trigger_table ->
                          contains k (question_lower rt question) = false))
  /\ _get_fallback_response rt (__init__ env new_client key) (lit "What is this")
     = lit "Hi there! Ask me about LeetCode problems or any other questions!"
  /\ _get_fallback_response rt (__init__ env new_client key) (lit "goodbye")
     = lit "Goodbye! It was nice talking with you."
  /\ (forall question pre k r post,
         trigger_table = pre ++ (k, r) :: post ->
         Forall (fun kv => contains (fst kv) (question_lower rt question) = false) pre ->
         contains k (question_lower rt question) = true ->
         _get_fallback_response rt (__init__ env new_client key) question = r)
  /\ (forall question,
         forallb (fun c => (c <? 128)%N) question = true ->
         question_lower rt question = strip (map ascii_lower question))
  /\ (forall question k r,
         In (k, r) trigger_table ->
         forallb (fun c => (c <? 128)%N) question = true ->
         contains k (map ascii_lower question) = true ->
         contains k (question_lower rt question) = true)
  /\ _get_fallback_response rt (__init__ env new_client key) (lit "THANKS")
     = lit "You're welcome!"
  /\ _get_fallback_response rt (__init__ env new_client key) (lit "Hello, what is this")
     = lit "Hello! I'm your voice assistant. I can help with LeetCode problems and general questions!".
Proof.
  split; [|split; [|split; [|split; [|split; [|split; [|split; [|split; [|split]]]]]]]].
  - intros question k r Hin Hk.
    destruct (fallback_cases rt (__init__ env new_client key) question)
      as [[Hnone _]|(k1 & r1 & Hfind & Hr)];
      rewrite init_fallback_responses in *.
    + rewrite find_none_iff in Hnone. specialize (Hnone (k, r) Hin).
      simpl in Hnone. congruence.
    + apply find_some_first in Hfind.
      destruct Hfind as (pre & post & Htab & Hk1 & Hpre).
      now exists pre, k1, r1, post.
  - intros question k r Hin Hk.
    apply plain_word_survives; [|exact Hk].
    exact (triggers_plain Hin).
  - intros question.
    destruct (fallback_cases rt (__init__ env new_client key) question)
      as [[Hnone Hcat]|(k1 & r1 & Hfind & Hr)];
      rewrite init_fallback_responses in *.
    + split; [|intros _; exact Hcat].
      intros _ k r Hin. rewrite find_none_iff in Hnone.
      exact (Hnone (k, r) Hin).
    + apply find_some in Hfind. destruct Hfind as [Hin Hk1]. simpl in Hk1.
      split.
      * intros Hcat. rewrite Hr in Hcat.
        now destruct (trigger_reply_not_category Hin Hcat).
      * intros Hall. rewrite (Hall k1 r1 Hin) in Hk1. discriminate.
  - unfold _get_fallback_response. rewrite init_fallback_responses. reflexivity.
  - unfold _get_fallback_response. rewrite init_fallback_responses. reflexivity.
  - intros question pre k r post Htab Hpre Hk.
    unfold _get_fallback_response. fold (question_lower rt question).
    rewrite init_fallback_responses. fold trigger_table. rewrite Htab.
    now rewrite (find_first (fun kv => contains (fst kv) (question_lower rt question))
                   (k, r) post Hpre Hk).
  - intros question Hascii. unfold question_lower, lower.
    now rewrite (lower_from_ascii (ucd_lower rt) [] question Hascii).
  - intros question k r Hin Hascii Hk. unfold question_lower, lower.
    rewrite (lower_from_ascii (ucd_lower rt) [] question Hascii).
    apply plain_word_strip; [|exact Hk].
    exact (triggers_plain Hin).
  - unfold _get_fallback_response. rewrite init_fallback_responses. reflexivity.
  - unfold _get_fallback_response. rewrite init_fallback_responses. reflexivity.
Qed.

(** C9 as stated fails: "bye" is a registered trigger and occurs in the
    lowered question "goodbye", yet the reply is the one registered for
    "goodbye", which stands before it in the table; likewise "hi" occurs in
    "hello, what is this" and the reply is the one registered for "hello". *)
Lemma earlier_trigger_takes_reply :
  In (lit "bye", lit "Bye! Have a great day!") trigger_table
  /\ contains (lit "bye") (lit "goodbye") = true
  /\ contains (lit "bye") (question_lower sample_runtime (lit "goodbye")) = true
  /\ _get_fallback_response sample_runtime (__init__ no_env new_client_ok None)
       (lit "goodbye")
     = lit "Goodbye! It was nice talking with you."
  /\ _get_fallback_response sample_runtime (__init__ no_env new_client_ok None)
       (lit "goodbye")
     <> lit "Bye! Have a great day!"
  /\ In (lit "hi", lit "Hi there! Ask me about LeetCode problems or any other questions!")
       trigger_table
  /\ contains (lit "hi") (question_lower sample_runtime (lit "hello, what is this")) = true
  /\ _get_fallback_response sample_runtime (__init__ no_env new_client_ok None)
       (lit "hello, what is this")
     <> lit "Hi there! Ask me about LeetCode problems or any other questions!".
Proof.
  split; [simpl; tauto|].
  split; [reflexivity|]. split; [reflexivity|]. split; [reflexivity|].
  split; [discriminate|].
  split; [simpl; tauto|].
  split; [reflexivity|]. discriminate.
Qed.

(** ** The tool-calling dispatcher *)

Lemma client_steps_refl (w : World) : client_steps w w.
Proof. split; [reflexivity|]. now exists []. Qed.

Lemma client_steps_trans (w w1 w2 : World) :
  client_steps w w1 -> client_steps w1 w2 -> client_steps w w2.
Proof.
  intros [Hs1 (new1 & Ht1 & Hc1)] [Hs2 (new2 & Ht2 & Hc2)].
  split; [congruence|].
  exists (new2 ++ new1). now rewrite Ht2, Ht1, app_assoc, forallb_app, Hc1, Hc2.
Qed.

Lemma filter_chat_clients (new : list Event) :
  forallb is_client new = true -> filter is_chat new = [].
Proof.
  induction new as [|[req|c] new IH]; simpl; [reflexivity|discriminate|exact IH].
Qed.

Lemma client_steps_chat_calls (w w' : World) :
  client_steps w w' -> chat_calls (trace w') = chat_calls (trace w).
Proof.
  intros [_ (new & -> & Hc)]. unfold chat_calls.
  now rewrite filter_app, (filter_chat_clients _ Hc).
Qed.

Section ClientOnly.

Context {A B : Type}.

Lemma client_only_ret (a : A) : client_only (ret a).
Proof. intros w. apply client_steps_refl. Qed.

Lemma client_only_raise (e : exn) : client_only (@raise A e).
Proof. intros w. apply client_steps_refl. Qed.

Lemma client_only_lift (r : result A) : client_only (lift r).
Proof. intros w. apply client_steps_refl. Qed.

Lemma client_only_bind (m : M A) (k : A -> M B) :
  client_only m -> (forall a, client_only (k a)) -> client_only (bind m k).
Proof.
  intros Hm Hk w. unfold bind. specialize (Hm w).
  destruct (m w) as [[a|e] w1]; simpl in *; [|exact Hm].
  exact (client_steps_trans Hm (Hk a w1)).
Qed.

Lemma client_only_try (m : M A) (h : exn -> M A) :
  client_only m -> (forall e, client_only (h e)) -> client_only (try_except m h).
Proof.
  intros Hm Hh w. unfold try_except. specialize (Hm w).
  destruct (m w) as [[a|e] w1]; simpl in *; [exact Hm|].
  exact (client_steps_trans Hm (Hh e w1)).
Qed.

End ClientOnly.

Lemma client_only_get_self : client_only get_self.
Proof. intros w. apply client_steps_refl. Qed.

Lemma client_only_invoke orc (c : ClientCall) : client_only (invoke orc c).
Proof. intros w. split; [reflexivity|]. now exists [EvClient c]. Qed.

Lemma client_only_client_method (attr : string) : client_only (client_method attr).
Proof.
  apply client_only_bind; [apply client_only_get_self|].
  intros self. destruct (leetcode_client self);
    [apply client_only_ret|apply client_only_raise].
Qed.

Lemma client_only_default_username : client_only read_default_username.
Proof.
  apply client_only_bind; [apply client_only_get_self|].
  intros self. destruct (default_username self);
    [apply client_only_ret|apply client_only_raise].
Qed.

Lemma client_only_subscript (args : value) (key : pystr) :
  client_only (subscript args key).
Proof.
  destruct args; try apply client_only_raise.
  simpl. destruct (dict_lookup key items);
    [apply client_only_ret|apply client_only_raise].
Qed.

Lemma client_only_get_method (args : value) : client_only (get_method args).
Proof.
  destruct args; try apply client_only_raise. apply client_only_ret.
Qed.

Create HintDb client_only.

#[local] Hint Resolve client_only_ret client_only_raise client_only_lift
  client_only_get_self client_only_invoke client_only_client_method
  client_only_default_username client_only_subscript client_only_get_method
  : client_only.

Ltac client_only_tac :=
  repeat first
    [ solve [auto with client_only]
    | apply client_only_bind; [|intros ?]
    | apply client_only_try; [|intros ?]
    | match goal with
      | |- client_only (if ?b then _ else _) => destruct b
      end ].

Section Dispatcher.

Context (rt : Runtime) (orc : Oracles).

(** Running the function of one tool call touches the client only. *)
Lemma call_mcp_function_client_only (name : pystr) (args : value) :
  client_only (call_mcp_function orc name args).
Proof. unfold call_mcp_function. client_only_tac. Qed.

Lemma tool_result_steps (name : pystr) (args : value) (w : World) :
  client_steps w (snd (tool_result rt orc name args w)).
Proof.
  unfold tool_result.
  pose proof (call_mcp_function_client_only name args w) as H.
  now destruct (call_mcp_function orc name args w) as [[v|e] w'].
Qed.

(** One turn of the loop on a call whose arguments parse: the tool message
    carries the call's id and the serialised payload, a raised exception
    having become an error payload. *)
Lemma execute_tool_call_parsed (tc : ToolCall) (args : value) (w : World) :
  json_loads rt (fn_arguments (tc_function tc)) = Ok args ->
  execute_tool_call rt orc tc w
  = (Ok (ToolMessage (tc_id tc)
           (json_dumps (fst (tool_result rt orc (fn_name (tc_function tc)) args w)))),
     snd (tool_result rt orc (fn_name (tc_function tc)) args w)).
Proof.
  intros Hp. unfold execute_tool_call, tool_result, try_except, bind, lift, ret.
  rewrite Hp.
  now destruct (call_mcp_function orc (fn_name (tc_function tc)) args w) as [[v|e] w'].
Qed.

(** One turn of the loop on a call whose arguments do not parse: the
    exception of the parser leaves the loop. *)
Lemma execute_tool_call_unparsed (tc : ToolCall) (e : exn) (w : World) :
  json_loads rt (fn_arguments (tc_function tc)) = Raise e ->
  execute_tool_call rt orc tc w = (Raise e, w).
Proof.
  intros Hp. unfold execute_tool_call, bind, lift. now rewrite Hp.
Qed.

Lemma execute_tool_call_client_only (tc : ToolCall) :
  client_only (execute_tool_call rt orc tc).
Proof.
  unfold execute_tool_call. client_only_tac.
  apply call_mcp_function_client_only.
Qed.

Lemma execute_tool_calls_client_only (tcs : list ToolCall) (messages : list ChatMessage) :
  client_only (execute_tool_calls rt orc tcs messages).
Proof.
  revert messages. induction tcs as [|tc tcs IH]; intros messages; simpl.
  - apply client_only_ret.
  - apply client_only_bind; [apply execute_tool_call_client_only|].
    intros m. apply IH.
Qed.

Lemma tool_message_of_earlier (w w1 : World) (tc : ToolCall) (m : ChatMessage) :
  client_steps w w1 -> tool_message_of rt orc w1 tc m -> tool_message_of rt orc w tc m.
Proof.
  intros H (args & wi & Hp & Hs & Hm).
  exists args, wi. split; [assumption|]. split; [|assumption].
  exact (client_steps_trans H Hs).
Qed.

(** When every call's arguments parse the loop runs to its end and appends
    one tool message per call, in the order of the calls. *)
Lemma execute_tool_calls_parsed (tcs : list ToolCall) (messages : list ChatMessage)
    (w : World) :
  forallb (parses rt) tcs = true ->
  exists results w1,
    execute_tool_calls rt orc tcs messages w = (Ok (messages ++ results), w1)
    /\ Forall2 (tool_message_of rt orc w) tcs results.
Proof.
  revert messages w. induction tcs as [|tc tcs IH]; intros messages w Hall; simpl.
  - exists [], w. rewrite app_nil_r. split; [reflexivity|constructor].
  - simpl in Hall. apply andb_true_iff in Hall. destruct Hall as [Hp Hall].
    unfold parses in Hp.
    destruct (json_loads rt (fn_arguments (tc_function tc))) as [args|] eqn:Eargs;
      [|discriminate].
    unfold bind at 1. rewrite (execute_tool_call_parsed tc w Eargs).
    set (out := tool_result rt orc (fn_name (tc_function tc)) args w).
    destruct (IH (messages ++ [ToolMessage (tc_id tc) (json_dumps (fst out))])
                 (snd out) Hall) as (results & w1 & Hrun & Hres).
    exists (ToolMessage (tc_id tc) (json_dumps (fst out)) :: results), w1.
    split.
    + rewrite Hrun. now rewrite <- app_assoc.
    + constructor.
      * exists args, w. split; [assumption|]. split; [apply client_steps_refl|reflexivity].
      * eapply Forall2_impl; [|exact Hres].
        intros tc' m'. apply tool_message_of_earlier.
        apply tool_result_steps.
Qed.

(** When some call's arguments do not parse the loop raises. *)
Lemma execute_tool_calls_unparsed (tcs : list ToolCall) (messages : list ChatMessage)
    (w : World) :
  forallb (parses rt) tcs = false ->
  exists e w1, execute_tool_calls rt orc tcs messages w = (Raise e, w1).
Proof.
  revert messages w. induction tcs as [|tc tcs IH]; intros messages w Hall; simpl.
  - discriminate.
  - simpl in Hall. unfold parses in Hall at 1. unfold bind at 1.
    destruct (json_loads rt (fn_arguments (tc_function tc))) as [args|e] eqn:Eargs.
    + rewrite (execute_tool_call_parsed tc w Eargs). now apply IH.
    + rewrite (execute_tool_call_unparsed tc w Eargs). now exists e, w.
Qed.

Lemma chat_completions_create_run (req : ChatRequest) (w : World) (c : OpenAI) :
  client (self_obj w) = Some c ->
  chat_completions_create orc req w
  = (service orc (trace w) req, record (EvChat req) w).
Proof.
  intros Hc. unfold chat_completions_create, bind, get_self. now rewrite Hc.
Qed.

Lemma read_response_text (r : result ChatCompletion) (w : World) :
  (response <- lift r ;;
   message <- first_message response ;;
   content_strip (msg_content message)) w = (response_text r, w).
Proof.
  unfold bind, lift, first_message, content_strip, response_text, ret, raise.
  destruct r as [[[|[m] rest]]|e]; simpl; try reflexivity.
  now destruct (msg_content m).
Qed.

(** [_handle_function_calls] on a reply whose calls all parse: the loop
    runs, then the second request is sent with every tool message, and the
    answer is the stripped text of its reply. *)
Lemma handle_function_calls_parsed (response : ChatCompletion) (ch : Choice)
    (rest : list Choice) (tcs : list ToolCall) (question : pystr) (w : World)
    (c : OpenAI) :
  client (self_obj w) = Some c ->
  choices response = ch :: rest ->
  msg_tool_calls (ch_message ch) = Some tcs ->
  forallb (parses rt) tcs = true ->
  exists results w1,
    execute_tool_calls rt orc tcs (initial_messages question (ch_message ch)) w
    = (Ok (initial_messages question (ch_message ch) ++ results), w1)
    /\ Forall2 (tool_message_of rt orc w) tcs results
    /\ client_steps w w1
    /\ _handle_function_calls rt orc response question w
       = (response_text
            (service orc (trace w1)
               (final_request (initial_messages question (ch_message ch) ++ results))),
          record
            (EvChat (final_request (initial_messages question (ch_message ch) ++ results)))
            w1).
Proof.
  intros Hc Hch Htcs Hall.
  destruct (execute_tool_calls_parsed tcs (initial_messages question (ch_message ch)) w Hall)
    as (results & w1 & Hrun & Hres).
  exists results, w1.
  pose proof (execute_tool_calls_client_only tcs
                (initial_messages question (ch_message ch)) w) as Hsteps.
  rewrite Hrun in Hsteps. simpl in Hsteps.
  repeat split; try assumption; try apply Hsteps.
  unfold _handle_function_calls, first_message at 1. rewrite Hch.
  unfold bind at 1. unfold ret at 1. rewrite Htcs.
  unfold bind at 1. unfold iter_tool_calls, ret at 1.
  unfold bind at 1. rewrite Hrun.
  assert (Hc1 : client (self_obj w1) = Some c) by (destruct Hsteps as [-> _]; exact Hc).
  unfold bind at 1.
  rewrite (chat_completions_create_run _ w1 Hc1).
  pose proof (read_response_text
                (service orc (trace w1)
                   (final_request (initial_messages question (ch_message ch) ++ results)))
                (record (EvChat (final_request
                                   (initial_messages question (ch_message ch) ++ results))) w1))
    as Hread.
  unfold bind at 1, lift in Hread.
  destruct (service orc (trace w1) _) as [resp|e]; [exact Hread|reflexivity].
Qed.

(** [_handle_function_calls] on a reply with a call that does not parse:
    it raises before the second request, after client calls only. *)
Lemma handle_function_calls_unparsed (response : ChatCompletion) (ch : Choice)
    (rest : list Choice) (tcs : list ToolCall) (question : pystr) (w : World) :
  choices response = ch :: rest ->
  msg_tool_calls (ch_message ch) = Some tcs ->
  forallb (parses rt) tcs = false ->
  exists e w1,
    client_steps w w1
    /\ _handle_function_calls rt orc response question w = (Raise e, w1).
Proof.
  intros Hch Htcs Hall.
  destruct (execute_tool_calls_unparsed tcs (initial_messages question (ch_message ch)) w Hall)
    as (e & w1 & Hrun).
  exists e, w1.
  pose proof (execute_tool_calls_client_only tcs
                (initial_messages question (ch_message ch)) w) as Hsteps.
  rewrite Hrun in Hsteps. simpl in Hsteps. split; [exact Hsteps|].
  unfold _handle_function_calls, first_message at 1. rewrite Hch.
  unfold bind at 1. unfold ret at 1. rewrite Htcs.
  unfold bind at 1. unfold iter_tool_calls, ret at 1.
  unfold bind at 1. now rewrite Hrun.
Qed.

Lemma try_reraise {A : Type} (m : M A) (w : World) :
  try_except m (fun e => raise e) w = m w.
Proof. unfold try_except, raise. now destruct (m w) as [[a|e] w1]. Qed.

(** The dispatcher, case by case on the first reply. *)
Lemma dispatch_cases (question : pystr) (w : World) (c : OpenAI) :
  client (self_obj w) = Some c ->
  _get_openai_response_with_mcp rt orc question w
  = match service orc (trace w) (initial_request question) with
    | Ok response =>
        match choices response with
        | ch :: _ =>
            if has_tool_calls (ch_message ch)
            then _handle_function_calls rt orc response question
                   (record (EvChat (initial_request question)) w)
            else (response_text (Ok response),
                  record (EvChat (initial_request question)) w)
        | [] => (Raise IndexError, record (EvChat (initial_request question)) w)
        end
    | Raise e => (Raise e, record (EvChat (initial_request question)) w)
    end.
Proof.
  intros Hc. unfold _get_openai_response_with_mcp. rewrite try_reraise.
  unfold bind at 1. rewrite (chat_completions_create_run _ w Hc).
  destruct (service orc (trace w) (initial_request question)) as [response|e];
    [|reflexivity].
  unfold bind, first_message, response_text.
  destruct (choices response) as [|ch rest]; [reflexivity|].
  unfold ret at 1. destruct (has_tool_calls (ch_message ch)); [reflexivity|].
  unfold content_strip. now destruct (msg_content (ch_message ch)).
Qed.

(** Without a client object the dispatcher raises at once. *)
Lemma dispatch_no_client (question : pystr) (w : World) :
  client (self_obj w) = None ->
  _get_openai_response_with_mcp rt orc question w
  = (Raise (AttributeError "NoneType" "chat"), w).
Proof.
  intros Hc. unfold _get_openai_response_with_mcp. rewrite try_reraise.
  unfold bind, chat_completions_create, bind, get_self. now rewrite Hc.
Qed.

(** [process_question] in terms of the dispatcher's outcome. *)
Lemma process_question_cases (question : pystr) (w : World) :
  process_question rt orc question w
  = match strip question with
    | [] => (Ok repeat_prompt, w)
    | _ :: _ =>
        if use_openai (self_obj w) then
          match _get_openai_response_with_mcp rt orc question w with
          | (Ok text, w1) => (Ok text, w1)
          | (Raise _, w1) =>
              (Ok (_get_fallback_response rt (self_obj w1) question), w1)
          end
        else (Ok (_get_fallback_response rt (self_obj w) question), w)
    end.
Proof.
  unfold process_question. destruct (strip question); [reflexivity|].
  unfold bind at 1. unfold get_self at 1.
  destruct (use_openai (self_obj w)); [|reflexivity].
  unfold try_except.
  now destruct (_get_openai_response_with_mcp rt orc question w) as [[text|e] w1].
Qed.

(** [process_question] never raises. *)
Lemma process_question_returns (question : pystr) (w : World) :
  exists text w1, process_question rt orc question w = (Ok text, w1).
Proof.
  rewrite process_question_cases.
  destruct (strip question); [now eauto|].
  destruct (use_openai (self_obj w)); [|now eauto].
  destruct (_get_openai_response_with_mcp rt orc question w) as [[text|e] w1];
    now eauto.
Qed.

Lemma has_tool_calls_some (m : ChatCompletionMessage) :
  has_tool_calls m = true -> exists tcs, msg_tool_calls m = Some tcs.
Proof.
  unfold has_tool_calls. destruct (msg_tool_calls m) as [tcs|]; [|discriminate].
  now exists tcs.
Qed.

(** The events one run of the dispatcher adds, latest first: the first
    request, then client calls, then the second request when, and only when,
    the first reply asked for tool calls whose arguments all parse. *)
Lemma dispatch_shape (question : pystr) (w : World) (c : OpenAI) :
  client (self_obj w) = Some c ->
  self_obj (snd (_get_openai_response_with_mcp rt orc question w)) = self_obj w
  /\ exists clients synth,
       trace (snd (_get_openai_response_with_mcp rt orc question w))
       = synth ++ clients ++ EvChat (initial_request question) :: trace w
       /\ forallb is_client clients = true
       /\ match decided_calls orc question w with
          | Some tcs =>
              if forallb (parses rt) tcs
              then exists messages, synth = [EvChat (final_request messages)]
              else synth = []
          | None => synth = [] /\ clients = []
          end.
Proof.
  intros Hc. rewrite (dispatch_cases question w Hc). unfold decided_calls.
  destruct (service orc (trace w) (initial_request question)) as [[[|ch rest]]|e];
    simpl choices; cbv iota;
    try (split; [reflexivity|]; exists [], []; now repeat split).
  destruct (has_tool_calls (ch_message ch)) eqn:Hhas;
    [|split; [reflexivity|]; exists [], []; now repeat split].
  destruct (has_tool_calls_some _ Hhas) as [tcs Htcs]. rewrite Htcs.
  assert (Hc0 : client (self_obj (record (EvChat (initial_request question)) w)) = Some c)
    by exact Hc.
  destruct (forallb (parses rt) tcs) eqn:Hall.
  - destruct (handle_function_calls_parsed {| choices := ch :: rest |} question
                (record (EvChat (initial_request question)) w) Hc0 eq_refl Htcs Hall)
      as (results & w1 & _ & _ & [Hself (new & Hnew & Hcl)] & ->).
    simpl snd. split; [exact Hself|].
    exists new, [EvChat (final_request (initial_messages question (ch_message ch) ++ results))].
    simpl trace. rewrite Hnew. repeat split; [assumption|]. now eexists.
  - destruct (handle_function_calls_unparsed {| choices := ch :: rest |} question
                (record (EvChat (initial_request question)) w) eq_refl Htcs Hall)
      as (e & w1 & [Hself (new & Hnew & Hcl)] & ->).
    simpl snd. split; [exact Hself|].
    exists new, []. rewrite Hnew. now repeat split.
Qed.

(** The dispatcher leaves the processor object as it found it. *)
Lemma dispatch_keeps_self (question : pystr) (w : World) :
  self_obj (snd (_get_openai_response_with_mcp rt orc question w)) = self_obj w.
Proof.
  destruct (client (self_obj w)) as [c|] eqn:Hc.
  - exact (proj1 (dispatch_shape question w Hc)).
  - now rewrite (dispatch_no_client question w Hc).
Qed.

End Dispatcher.

(** ** The orchestrator's answer *)

(** C1, as the code has it.  For every question [process_question] returns
    text that is trimmed.  The text is empty only when the dispatcher itself
    returned the empty text, which happens when the service's reply is blank:
    no fallback is substituted for it.  When the dispatcher raises, and when
    no reasoning service is configured, the answer is the fallback
    responder's, which is never empty.  When the dispatcher returns a text,
    that text is the answer, unchanged, and the world is the one the
    dispatcher left; a blank question gets the repeat prompt and touches
    nothing. *)
Theorem answer_trimmed rt orc env new_client key (t : list Event) (question : pystr) :
  exists text w1,
    process_question rt orc question (Build_World (__init__ env new_client key) t)
    = (Ok text, w1)
    /\ strip text = text
    /\ (text = [] ->
        use_openai (__init__ env new_client key) = true
        /\ _get_openai_response_with_mcp rt orc question
             (Build_World (__init__ env new_client key) t) = (Ok [], w1))
    /\ (forall e w2,
           strip question <> [] ->
           use_openai (__init__ env new_client key) = true ->
           _get_openai_response_with_mcp rt orc question
             (Build_World (__init__ env new_client key) t) = (Raise e, w2) ->
           text = _get_fallback_response rt (__init__ env new_client key) question
           /\ text <> [])
    /\ (use_openai (__init__ env new_client key) = false -> text <> [])
    /\ (forall answer w2,
           strip question <> [] ->
           use_openai (__init__ env new_client key) = true ->
           _get_openai_response_with_mcp rt orc question
             (Build_World (__init__ env new_client key) t) = (Ok answer, w2) ->
           text = answer /\ w1 = w2)
    /\ (forall e w2,
           strip question <> [] ->
           use_openai (__init__ env new_client key) = true ->
           _get_openai_response_with_mcp rt orc question
             (Build_World (__init__ env new_client key) t) = (Raise e, w2) ->
           w1 = w2)
    /\ (strip question = [] ->
        text = repeat_prompt /\ w1 = Build_World (__init__ env new_client key) t)
    /\ (strip question <> [] ->
        use_openai (__init__ env new_client key) = false ->
        text = _get_fallback_response rt (__init__ env new_client key) question
        /\ w1 = Build_World (__init__ env new_client key) t).
Proof.
  set (self := __init__ env new_client key).
  rewrite process_question_cases. simpl self_obj.
  destruct (fallback_nonempty_trimmed rt env new_client key question) as [Hne Htrim].
  fold self in Hne, Htrim.
  destruct (strip question) as [|a s] eqn:Hq.
  - exists repeat_prompt, (Build_World self t).
    split; [reflexivity|]. split; [reflexivity|]. split; [discriminate|].
    split; [intros e w2 Hne'; now destruct Hne'|].
    split; [discriminate|].
    split; [intros answer w2 Hne'; now destruct Hne'|].
    split; [intros e w2 Hne'; now destruct Hne'|].
    split; [now split|]. intros Hne'. now destruct Hne'.
  - destruct (use_openai self) eqn:Huse.
    + pose proof (dispatch_keeps_self rt orc question (Build_World self t)) as Hself.
      destruct (_get_openai_response_with_mcp rt orc question (Build_World self t))
        as [[text|e] w1] eqn:Hrun; simpl in Hself.
      * exists text, w1. split; [reflexivity|].
        split; [|split; [|split; [|split; [|split; [|split; [|split]]]]]];
          [| |discriminate|discriminate
           |intros answer w2 _ _ Heq; injection Heq as <- <-; now split
           |discriminate|intros Hnil; now rewrite Hnil in Hq|discriminate].
        -- destruct (client self) as [c|] eqn:Hc.
           ++ rewrite (dispatch_cases rt orc question (Build_World self t) Hc) in Hrun.
              destruct (service orc (trace (Build_World self t)) (initial_request question))
                as [[[|ch rest]]|e0]; try discriminate.
              simpl choices in Hrun. cbv iota in Hrun.
              destruct (has_tool_calls (ch_message ch)) eqn:Hhas.
              ** destruct (has_tool_calls_some _ Hhas) as [tcs Htcs].
                 destruct (forallb (parses rt) tcs) eqn:Hall.
                 --- destruct (handle_function_calls_parsed rt orc
                                 {| choices := ch :: rest |} question
                                 (record (EvChat (initial_request question))
                                    (Build_World self t)) Hc eq_refl Htcs Hall)
                       as (results & w2 & _ & _ & _ & Hh).
                     rewrite Hh in Hrun. injection Hrun as Hrun _.
                     unfold response_text in Hrun.
                     destruct (service orc _ _) as [[[|[m] r2]]|]; try discriminate.
                     simpl in Hrun. destruct (msg_content m); [|discriminate].
                     injection Hrun as <-. apply strip_idempotent.
                 --- destruct (handle_function_calls_unparsed rt orc
                                 {| choices := ch :: rest |} question
                                 (record (EvChat (initial_request question))
                                    (Build_World self t)) eq_refl Htcs Hall)
                       as (e0 & w2 & _ & Hh).
                     rewrite Hh in Hrun. discriminate.
              ** injection Hrun as Hrun _. simpl in Hrun.
                 destruct (msg_content (ch_message ch)); [|discriminate].
                 injection Hrun as <-. apply strip_idempotent.
           ++ rewrite (dispatch_no_client rt orc question (Build_World self t) Hc) in Hrun.
              discriminate.
        -- intros ->. now split.
      * exists (_get_fallback_response rt (self_obj w1) question), w1.
        rewrite Hself. split; [reflexivity|]. split; [exact Htrim|].
        split; [intros Hnil; now destruct Hne|].
        split; [intros e0 w2 _ _ _; now split|].
        split; [discriminate|].
        split; [discriminate|].
        split; [intros e0 w2 _ _ Heq; now injection Heq as _ <-|].
        split; [intros Hnil; now rewrite Hnil in Hq|discriminate].
    + exists (_get_fallback_response rt self question), (Build_World self t).
      split; [reflexivity|]. split; [exact Htrim|].
      split; [intros Hnil; now destruct Hne|].
      split; [discriminate|].
      split; [intros _; exact Hne|].
      split; [discriminate|].
      split; [discriminate|].
      split; [intros Hnil; now rewrite Hnil in Hq|]. now split.
Qed.

(** C1 as stated fails: the service answers the question "two sum" with a
    blank text and no tool call; the dispatcher succeeds with the empty
    text and [process_question] returns it, not the fallback's answer. *)
Lemma blank_reply_gives_empty_answer :
  strip (lit "two sum") <> []
  /\ process_question sample_runtime
       (sample_oracles [Ok (text_reply (lit "   "))]) (lit "two sum") online_world
     = (Ok [], record (EvChat (initial_request (lit "two sum"))) online_world)
  /\ _get_fallback_response sample_runtime (self_obj online_world) (lit "two sum") <> [].
Proof. repeat split; discriminate || reflexivity. Qed.

(** ** Round trips *)

(** C6, as the code has it.  One run of the dispatcher adds to the trace,
    in time order: exactly one first request carrying the tool declarations;
    then client calls only; then the second request, sent exactly when the
    first reply asked for tool calls and the arguments of all of them parsed
    as JSON.  The second request is the last event of the run, so whatever
    its reply asks for is not executed, and the run makes at most two round
    trips. *)
Theorem dispatcher_round_trips rt orc (question : pystr) (w : World) (c : OpenAI) :
  client (self_obj w) = Some c ->
  exists clients synth,
    trace (snd (_get_openai_response_with_mcp rt orc question w))
    = synth ++ clients ++ EvChat (initial_request question) :: trace w
    /\ forallb is_client clients = true
    /\ (synth = [] \/ exists messages, synth = [EvChat (final_request messages)])
    /\ ((exists messages, synth = [EvChat (final_request messages)])
        <-> (exists tcs, decided_calls orc question w = Some tcs
                         /\ forallb (parses rt) tcs = true))
    /\ chat_calls (trace (snd (_get_openai_response_with_mcp rt orc question w)))
       = (chat_calls (trace w) + 1 + List.length synth)%nat
    /\ (chat_calls (trace (snd (_get_openai_response_with_mcp rt orc question w)))
        <= chat_calls (trace w) + 2)%nat.
Proof.
  intros Hc.
  destruct (dispatch_shape rt orc question w Hc) as [_ (clients & synth & Ht & Hcl & Hd)].
  exists clients, synth.
  assert (Hsynth : synth = [] \/ exists messages, synth = [EvChat (final_request messages)]).
  { destruct (decided_calls orc question w) as [tcs|]; [|left; apply Hd].
    destruct (forallb (parses rt) tcs); [right|left]; exact Hd. }
  assert (Hcount : chat_calls (trace (snd (_get_openai_response_with_mcp rt orc question w)))
                   = (chat_calls (trace w) + 1 + List.length synth)%nat).
  { rewrite Ht. unfold chat_calls.
    rewrite !filter_app, !length_app, (filter_chat_clients _ Hcl). simpl.
    destruct Hsynth as [->|[messages ->]]; simpl; lia. }
  split; [exact Ht|]. split; [exact Hcl|]. split; [exact Hsynth|].
  split; [|split; [exact Hcount|]].
  - destruct (decided_calls orc question w) as [tcs|].
    + destruct (forallb (parses rt) tcs) eqn:Hall.
      * split; [intros _; now exists tcs|intros _; exact Hd].
      * split.
        -- intros [messages Hm]. rewrite Hd in Hm. discriminate.
        -- intros (tcs' & [= <-] & Hall'). congruence.
    + destruct Hd as [-> _]. split.
      * intros [messages Hm]. discriminate.
      * intros (tcs & Hsome & _). discriminate.
  - rewrite Hcount. destruct Hsynth as [->|[messages ->]]; simpl; lia.
Qed.

Lemma dispatcher_round_trips_witness :
  client (self_obj online_world) = Some {| openai_api_key := lit "sk-test" |}
  /\ exists clients synth,
       trace (snd (_get_openai_response_with_mcp sample_runtime
                     (sample_oracles
                        [Ok (tool_reply [tool_call (lit "call_1") (lit "get_daily_challenge") (lit "{}")]);
                         Ok (text_reply (lit "Today's problem is Two Sum."))])
                     (lit "daily problem") online_world))
       = synth ++ clients ++ EvChat (initial_request (lit "daily problem")) :: trace online_world
       /\ forallb is_client clients = true
       /\ List.length synth = 1%nat.
Proof.
  split; [reflexivity|].
  destruct (dispatcher_round_trips sample_runtime
              (sample_oracles
                 [Ok (tool_reply [tool_call (lit "call_1") (lit "get_daily_challenge") (lit "{}")]);
                  Ok (text_reply (lit "Today's problem is Two Sum."))])
              (lit "daily problem") online_world eq_refl)
    as (clients & synth & Ht & Hcl & _ & Hiff & _ & _).
  exists clients, synth. split; [exact Ht|]. split; [exact Hcl|].
  destruct (proj2 Hiff) as [messages ->]; [|reflexivity].
  eexists. split; reflexivity.
Defined.

(** C6 as stated fails: the first reply asks for one tool call whose
    argument text is not JSON; the decide phase did return a tool call, yet
    the run makes one round trip and no second request. *)
Lemma unparsed_call_skips_synthesis :
  decided_calls
    (sample_oracles
       [Ok (tool_reply [tool_call (lit "call_1") (lit "get_daily_challenge") (lit "{")]);
        Ok (text_reply (lit "Today's problem is Two Sum."))])
    (lit "daily problem") online_world
  = Some [tool_call (lit "call_1") (lit "get_daily_challenge") (lit "{")]
  /\ trace (snd (_get_openai_response_with_mcp sample_runtime
                   (sample_oracles
                      [Ok (tool_reply [tool_call (lit "call_1") (lit "get_daily_challenge") (lit "{")]);
                       Ok (text_reply (lit "Today's problem is Two Sum."))])
                   (lit "daily problem") online_world))
     = [EvChat (initial_request (lit "daily problem"))].
Proof. split; reflexivity. Qed.

(** ** Tool calls *)

Lemma registered_cases (name : pystr) :
  registered name
  = (pystr_eqb name (lit "get_daily_challenge")
     || (pystr_eqb name (lit "get_problem")
         || (pystr_eqb name (lit "search_problems")
             || (pystr_eqb name (lit "get_user_profile")
                 || (pystr_eqb name (lit "get_recent_submissions") || false))))).
Proof. reflexivity. Qed.

Lemma call_unknown_function orc (name : pystr) (args : value) (w : World) :
  registered name = false ->
  call_mcp_function orc name args w
  = (Ok (VDict [(lit "error", VStr (lit "Unknown function: " ++ name))]), w).
Proof.
  rewrite registered_cases. intros H.
  repeat (apply orb_false_iff in H; destruct H as [? H]).
  unfold call_mcp_function.
  repeat match goal with
         | E : pystr_eqb name _ = false |- _ => rewrite E; clear E
         end.
  reflexivity.
Qed.

(** C3, as the code has it.  When the argument text of every requested call
    parses as JSON, the loop gives every call exactly one tool message, in
    the order of the calls and under the call's own id, and the second
    request is then sent with all of them: a call whose function raises (the
    client failing, a missing argument, arguments of the wrong shape) gets
    the error object made from its exception, and the other calls and the
    request go on. *)
Theorem tool_failures_isolated rt orc (response : ChatCompletion) (ch : Choice)
    (rest : list Choice) (tcs : list ToolCall) (question : pystr) (w : World)
    (c : OpenAI) :
  client (self_obj w) = Some c ->
  choices response = ch :: rest ->
  msg_tool_calls (ch_message ch) = Some tcs ->
  forallb (parses rt) tcs = true ->
  (exists results w1,
      execute_tool_calls rt orc tcs (initial_messages question (ch_message ch)) w
      = (Ok (initial_messages question (ch_message ch) ++ results), w1)
      /\ Forall2 (tool_message_of rt orc w) tcs results
      /\ trace (snd (_handle_function_calls rt orc response question w))
         = EvChat (final_request (initial_messages question (ch_message ch) ++ results))
             :: trace w1)
  /\ (forall name args wi e w',
         call_mcp_function orc name args wi = (Raise e, w') ->
         tool_result rt orc name args wi
         = (VDict [(lit "error", VStr (str_exn rt e))], w'))
  /\ (forall lc wi e,
         leetcode_client (self_obj wi) = Some lc ->
         leetcode orc (trace wi) Call_get_daily_challenge = Raise e ->
         fst (tool_result rt orc (lit "get_daily_challenge") (VDict []) wi)
         = VDict [(lit "error", VStr (str_exn rt e))])
  /\ (forall lc wi,
         leetcode_client (self_obj wi) = Some lc ->
         tool_result rt orc (lit "get_problem") (VDict []) wi
         = (VDict [(lit "error", VStr (str_exn rt (KeyError (lit "title_slug"))))], wi)).
Proof.
  intros Hc Hch Htcs Hall. split; [|split; [|split]].
  - destruct (handle_function_calls_parsed rt orc response question w Hc Hch Htcs Hall)
      as (results & w1 & Hrun & Hres & _ & Hh).
    exists results, w1. rewrite Hh. now repeat split.
  - intros name args wi e w' Hraise. unfold tool_result. now rewrite Hraise.
  - intros lc wi e Hlc Hfail. unfold tool_result, call_mcp_function. simpl.
    unfold bind, client_method, bind, get_self, invoke. rewrite Hlc. simpl.
    now rewrite Hfail.
  - intros lc wi Hlc. unfold tool_result, call_mcp_function. simpl.
    unfold bind, client_method, bind, get_self. now rewrite Hlc.
Qed.

Lemma tool_failures_isolated_witness :
  exists results w1,
    execute_tool_calls sample_runtime
      {| service := scripted [] 0; leetcode := failing_client |}
      [tool_call (lit "call_1") (lit "get_daily_challenge") (lit "{}");
       tool_call (lit "call_2") (lit "get_problem") (lit "{}");
       tool_call (lit "call_3") (lit "no_such_tool") (lit "{}")]
      (initial_messages (lit "daily problem")
         {| msg_content := None;
            msg_tool_calls :=
              Some [tool_call (lit "call_1") (lit "get_daily_challenge") (lit "{}");
                    tool_call (lit "call_2") (lit "get_problem") (lit "{}");
                    tool_call (lit "call_3") (lit "no_such_tool") (lit "{}")] |})
      online_world
    = (Ok (initial_messages (lit "daily problem")
             {| msg_content := None;
                msg_tool_calls :=
                  Some [tool_call (lit "call_1") (lit "get_daily_challenge") (lit "{}");
                        tool_call (lit "call_2") (lit "get_problem") (lit "{}");
                        tool_call (lit "call_3") (lit "no_such_tool") (lit "{}")] |}
           ++ results), w1)
    /\ List.length results = 3%nat.
Proof.
  destruct (tool_failures_isolated sample_runtime
              {| service := scripted [] 0; leetcode := failing_client |}
              (tool_reply [tool_call (lit "call_1") (lit "get_daily_challenge") (lit "{}");
                           tool_call (lit "call_2") (lit "get_problem") (lit "{}");
                           tool_call (lit "call_3") (lit "no_such_tool") (lit "{}")])
              (lit "daily problem") online_world eq_refl eq_refl eq_refl eq_refl)
    as [(results & w1 & Hrun & Hres & _) _].
  exists results, w1. split; [exact Hrun|].
  symmetry. exact (Forall2_length Hres).
Defined.

(** C3 as stated fails: of two requested calls the first has an argument
    text that is not JSON; the parser's exception leaves the loop, the
    second call gets no tool message, no second request is sent, and
    [process_question] answers from the fallback responder. *)
Lemma unparsed_call_aborts_siblings :
  execute_tool_calls sample_runtime (sample_oracles [])
    [tool_call (lit "call_1") (lit "get_daily_challenge") (lit "{");
     tool_call (lit "call_2") (lit "get_daily_challenge") (lit "{}")]
    [] online_world
  = (Raise (LibraryError "JSONDecodeError" (lit "Expecting value")), online_world)
  /\ process_question sample_runtime
       (sample_oracles
          [Ok (tool_reply [tool_call (lit "call_1") (lit "get_daily_challenge") (lit "{");
                           tool_call (lit "call_2") (lit "get_daily_challenge") (lit "{}")]);
           Ok (text_reply (lit "Today's problem is Two Sum."))])
       (lit "daily problem") online_world
     = (Ok (lit "I'm sorry, I need my AI capabilities to answer that properly. Please check your OpenAI API configuration."),
        record (EvChat (initial_request (lit "daily problem"))) online_world).
Proof. split; reflexivity. Qed.

(** C4, as the code has it.  A tool call whose name is none of the five
    declared tools, and whose argument text parses, reaches no client
    operation: its turn leaves the world unchanged and gives, under the
    call's id, the tool message whose payload is the error object with the
    text "Unknown function: " followed by the name.  And [process_question]
    returns text in every case. *)
Theorem unknown_tool_error_result rt orc (tc : ToolCall) (args : value) (w : World) :
  registered (fn_name (tc_function tc)) = false ->
  json_loads rt (fn_arguments (tc_function tc)) = Ok args ->
  execute_tool_call rt orc tc w
  = (Ok (ToolMessage (tc_id tc)
           (json_dumps
              (VDict [(lit "error",
                       VStr (lit "Unknown function: " ++ fn_name (tc_function tc)))]))),
     w)
  /\ (forall question w0,
         exists text w1, process_question rt orc question w0 = (Ok text, w1)).
Proof.
  intros Hun Hp. split; [|apply process_question_returns].
  rewrite (execute_tool_call_parsed rt orc tc w Hp). unfold tool_result.
  now rewrite (call_unknown_function orc _ args w Hun).
Qed.

Lemma unknown_tool_error_result_witness :
  registered (lit "get_weather") = false
  /\ execute_tool_call sample_runtime (sample_oracles [])
       (tool_call (lit "call_1") (lit "get_weather") (lit "{}")) online_world
     = (Ok (ToolMessage (lit "call_1")
              (json_dumps (VDict [(lit "error", VStr (lit "Unknown function: get_weather"))]))),
        online_world).
Proof.
  split; [reflexivity|].
  apply (unknown_tool_error_result sample_runtime (sample_oracles [])
           (tool_call (lit "call_1") (lit "get_weather") (lit "{}"))
           (args := VDict []) online_world); reflexivity.
Defined.

(** C4 as stated fails: for the unknown name "get_weather" the payload of
    the tool message is not the error object with the text "unknown tool". *)
Lemma unknown_tool_payload_text :
  registered (lit "get_weather") = false
  /\ exists content,
       fst (execute_tool_call sample_runtime (sample_oracles [])
              (tool_call (lit "call_1") (lit "get_weather") (lit "{}")) online_world)
       = Ok (ToolMessage (lit "call_1") content)
       /\ content = json_dumps (VDict [(lit "error", VStr (lit "Unknown function: get_weather"))])
       /\ content <> json_dumps (VDict [(lit "error", VStr (lit "unknown tool"))]).
Proof.
  split; [reflexivity|]. eexists. split; [reflexivity|].
  split; [reflexivity|]. vm_compute. discriminate.
Qed.

(** ** The username of profile and submissions calls *)

Lemma record_neq (e : Event) (w : World) : record e w <> w.
Proof.
  intros H. apply (f_equal (fun x => List.length (trace x))) in H.
  simpl in H. lia.
Qed.

(** What a profile or submissions call does, by the truth value of the
    username it resolves to. *)
Lemma call_with_username orc (name : pystr) (items : list (pystr * value))
    (u : pystr) (w : World) :
  name = lit "get_user_profile" \/ name = lit "get_recent_submissions" ->
  default_username (self_obj w) = Some u ->
  call_mcp_function orc name (VDict items) w
  = if truthy (resolved_username items u) then
      match leetcode_client (self_obj w) with
      | Some _ =>
          (leetcode orc (trace w) (username_call name (resolved_username items u) items),
           record (EvClient (username_call name (resolved_username items u) items)) w)
      | None =>
          (Raise (AttributeError "NoneType"
                    (if pystr_eqb name (lit "get_user_profile")
                     then "get_user_profile" else "get_recent_submissions")), w)
      end
    else (Ok no_username_error, w).
Proof.
  intros [-> | ->] Hu; unfold call_mcp_function, username_call; simpl;
    unfold bind, get_method, read_default_username, bind, get_self, ret;
    rewrite Hu; unfold resolved_username;
    destruct (dict_lookup (lit "username") items) as [v|]; simpl;
    match goal with
    | |- context [truthy ?x] => destruct (truthy x)
    | _ => idtac
    end; simpl; try reflexivity;
    try (destruct u; simpl; try reflexivity);
    unfold client_method, bind, get_self, invoke, raise, ret;
    destruct (leetcode_client (self_obj w)); reflexivity.
Qed.

(** C5, as the code has it.  For a profile or submissions call whose
    arguments are a JSON object without a username: when the default
    identity is the empty string, the tool message carries the error object
    with the text "No username provided and no default username set" and the
    world is unchanged, so the client is not called; when the default
    identity is a non-empty name, the client is called once, with that name,
    and the tool message carries what the call gave. *)
Theorem missing_username_default rt orc (tc : ToolCall) (items : list (pystr * value))
    (w : World) :
  fn_name (tc_function tc) = lit "get_user_profile"
  \/ fn_name (tc_function tc) = lit "get_recent_submissions" ->
  json_loads rt (fn_arguments (tc_function tc)) = Ok (VDict items) ->
  dict_lookup (lit "username") items = None ->
  (default_username (self_obj w) = Some [] ->
   execute_tool_call rt orc tc w
   = (Ok (ToolMessage (tc_id tc) (json_dumps no_username_error)), w))
  /\ (forall u lc,
         default_username (self_obj w) = Some u -> u <> [] ->
         leetcode_client (self_obj w) = Some lc ->
         execute_tool_call rt orc tc w
         = (Ok (ToolMessage (tc_id tc)
                  (json_dumps
                     (payload_of rt
                        (leetcode orc (trace w)
                           (username_call (fn_name (tc_function tc)) (VStr u) items))))),
            record (EvClient (username_call (fn_name (tc_function tc)) (VStr u) items)) w)).
Proof.
  intros Hname Hp Hno. split.
  - intros Hu. rewrite (execute_tool_call_parsed rt orc tc w Hp). unfold tool_result.
    rewrite (call_with_username orc items w Hname Hu).
    unfold resolved_username. now rewrite Hno.
  - intros u lc Hu Hne Hlc.
    rewrite (execute_tool_call_parsed rt orc tc w Hp). unfold tool_result.
    rewrite (call_with_username orc items w Hname Hu).
    unfold resolved_username. rewrite Hno, Hlc.
    destruct u as [|a u]; [now destruct Hne|]. simpl.
    now destruct (leetcode orc (trace w) _).
Qed.

Lemma missing_username_default_witness :
  default_username (self_obj anonymous_world) = Some []
  /\ execute_tool_call sample_runtime (sample_oracles [])
       (tool_call (lit "call_1") (lit "get_recent_submissions") (lit "{}")) anonymous_world
     = (Ok (ToolMessage (lit "call_1") (json_dumps no_username_error)), anonymous_world).
Proof.
  split; [reflexivity|].
  apply (missing_username_default sample_runtime (sample_oracles [])
           (tool_call (lit "call_1") (lit "get_recent_submissions") (lit "{}"))
           (items := []) anonymous_world); solve [reflexivity | now right].
Defined.

(** C5 as stated fails: with the default identity empty and no username in
    the arguments, the payload of the tool message is not the error object
    with the text "no username available". *)
Lemma no_username_payload_text :
  default_username (self_obj anonymous_world) = Some []
  /\ exists content,
       execute_tool_call sample_runtime (sample_oracles [])
         (tool_call (lit "call_1") (lit "get_recent_submissions") (lit "{}")) anonymous_world
       = (Ok (ToolMessage (lit "call_1") content), anonymous_world)
       /\ content
          = json_dumps (VDict [(lit "error",
                                VStr (lit "No username provided and no default username set"))])
       /\ content <> json_dumps (VDict [(lit "error", VStr (lit "no username available"))]).
Proof.
  split; [reflexivity|]. eexists. split; [reflexivity|].
  split; [reflexivity|]. vm_compute. discriminate.
Qed.

Lemma init_default_username env new_client key (lc : LeetCodeAPIClient) :
  new_client (env (lit "LEETCODE_SESSION")) = Ok lc ->
  default_username (__init__ env new_client key)
  = Some (getenv_default env (lit "LEETCODE_USERNAME") (lit "dviresh1993"))
  /\ leetcode_client (__init__ env new_client key) = Some lc.
Proof.
  intros H. unfold __init__. rewrite H.
  destruct (py_or key _) as [[|a k]|]; split; reflexivity.
Qed.

(** C10, as the code has it.  For a processor whose client initialised, a
    profile or submissions call with a JSON object as arguments takes the
    "no username" branch (the error object is the result and the world is
    unchanged) exactly when the username it resolves to, the argument when
    there is one and the default identity otherwise, is false as a truth
    value.  When the arguments carry no username this happens exactly when
    [LEETCODE_USERNAME] is set to the empty string; when the variable is not
    set the default is "dviresh1993" and the branch is not taken. *)
Theorem no_username_branch rt orc env new_client key (lc : LeetCodeAPIClient)
    (t : list Event) (name : pystr) (items : list (pystr * value)) :
  name = lit "get_user_profile" \/ name = lit "get_recent_submissions" ->
  new_client (env (lit "LEETCODE_SESSION")) = Ok lc ->
  (tool_result rt orc name (VDict items) (Build_World (__init__ env new_client key) t)
   = (no_username_error, Build_World (__init__ env new_client key) t)
   <-> truthy (resolved_username items
                 (getenv_default env (lit "LEETCODE_USERNAME") (lit "dviresh1993")))
       = false)
  /\ (dict_lookup (lit "username") items = None ->
      (tool_result rt orc name (VDict items) (Build_World (__init__ env new_client key) t)
       = (no_username_error, Build_World (__init__ env new_client key) t)
       <-> env (lit "LEETCODE_USERNAME") = Some []))
  /\ (dict_lookup (lit "username") items = None ->
      env (lit "LEETCODE_USERNAME") = None ->
      tool_result rt orc name (VDict items) (Build_World (__init__ env new_client key) t)
      = (payload_of rt
           (leetcode orc t (username_call name (VStr (lit "dviresh1993")) items)),
         Build_World (__init__ env new_client key)
           (EvClient (username_call name (VStr (lit "dviresh1993")) items) :: t))).
Proof.
  intros Hname Hnew.
  destruct (init_default_username env new_client key Hnew) as [Hu Hlc].
  set (self := __init__ env new_client key) in *.
  set (u := getenv_default env (lit "LEETCODE_USERNAME") (lit "dviresh1993")) in *.
  assert (Hrun : tool_result rt orc name (VDict items) (Build_World self t)
                 = if truthy (resolved_username items u)
                   then (payload_of rt
                           (leetcode orc t (username_call name (resolved_username items u) items)),
                         record (EvClient (username_call name (resolved_username items u) items))
                           (Build_World self t))
                   else (no_username_error, Build_World self t)).
  { unfold tool_result.
    rewrite (call_with_username orc items (Build_World self t) Hname Hu).
    destruct (truthy (resolved_username items u)); [|reflexivity].
    simpl self_obj. rewrite Hlc. simpl trace.
    now destruct (leetcode orc t _). }
  assert (Hiff : tool_result rt orc name (VDict items) (Build_World self t)
                 = (no_username_error, Build_World self t)
                 <-> truthy (resolved_username items u) = false).
  { rewrite Hrun. destruct (truthy (resolved_username items u)).
    - split; [|discriminate]. intros H.
      apply (f_equal snd) in H. now destruct (record_neq H).
    - now split. }
  split; [exact Hiff|]. split.
  - intros Hno. rewrite Hiff. unfold resolved_username. rewrite Hno.
    unfold u, getenv_default.
    destruct (env (lit "LEETCODE_USERNAME")) as [[|a v]|]; simpl;
      split; intros H;
      first [reflexivity | discriminate H | vm_compute in H; discriminate H].
  - intros Hno Henv. rewrite Hrun. unfold resolved_username. rewrite Hno.
    unfold u, getenv_default. rewrite Henv. reflexivity.
Qed.

Lemma no_username_branch_witness :
  new_client_ok (no_env (lit "LEETCODE_SESSION")) = Ok {| lc_session := None |}
  /\ tool_result sample_runtime (sample_oracles []) (lit "get_user_profile") (VDict [])
       (Build_World (__init__ no_env new_client_ok (Some (lit "sk-test"))) [])
     = (VDict [],
        Build_World (__init__ no_env new_client_ok (Some (lit "sk-test")))
          [EvClient (Call_get_user_profile (VStr (lit "dviresh1993")))]).
Proof.
  split; [reflexivity|].
  apply (proj2 (proj2 (@no_username_branch sample_runtime (sample_oracles [])
                         no_env new_client_ok (Some (lit "sk-test"))
                         {| lc_session := None |} [] (lit "get_user_profile") []
                         (or_introl eq_refl) eq_refl)));
    reflexivity.
Defined.

(** C10 as stated fails: in the default configuration, where no
    [LEETCODE_USERNAME] is set and the default identity is "dviresh1993", a
    profile call whose arguments carry the empty string as username takes
    the "no username" branch. *)
Lemma empty_username_argument_reaches_branch :
  no_env (lit "LEETCODE_USERNAME") = None
  /\ default_username (self_obj online_world) = Some (lit "dviresh1993")
  /\ json_loads sample_runtime (json_dumps (VDict [(lit "username", VStr [])]))
     = Ok (VDict [(lit "username", VStr [])])
  /\ execute_tool_call sample_runtime (sample_oracles [])
       (tool_call (lit "call_1") (lit "get_user_profile")
          (json_dumps (VDict [(lit "username", VStr [])])))
       online_world
     = (Ok (ToolMessage (lit "call_1") (json_dumps no_username_error)), online_world).
Proof. repeat split; reflexivity. Qed.

(** ** Repeated questions *)

Lemma reply_text_response_text (r : result ChatCompletion) :
  reply_text r = match response_text r with
                 | Ok text => Some text
                 | Raise _ => None
                 end.
Proof.
  unfold reply_text, response_text.
  destruct r as [[[|[m] rest]]|e]; simpl; try reflexivity.
  now destruct (msg_content m).
Qed.

(** Against a script, the answer is the one read off the script, whatever the
    client does and whatever the trace held before; and the processor object
    is left as it was. *)
Lemma scripted_run rt (script : list (result ChatCompletion))
    (lc : list Event -> ClientCall -> result value) (self : QAProcessor)
    (t : list Event) (question : pystr) :
  exists w1,
    process_question rt {| service := scripted script (chat_calls t); leetcode := lc |}
      question (Build_World self t)
    = (Ok (scripted_answer rt self script question), w1)
    /\ self_obj w1 = self.
Proof.
  set (orc := {| service := scripted script (chat_calls t); leetcode := lc |}).
  set (w := Build_World self t).
  rewrite process_question_cases. unfold scripted_answer. simpl self_obj.
  destruct (strip question) as [|a s]; [now exists w|].
  destruct (use_openai self); [|now exists w].
  pose proof (dispatch_keeps_self rt orc question w) as Hself. simpl in Hself.
  assert (Hrun : fst (_get_openai_response_with_mcp rt orc question w)
                 = match scripted_dispatch rt self script with
                   | Some text => Ok text
                   | None => fst (_get_openai_response_with_mcp rt orc question w)
                   end
                 /\ (scripted_dispatch rt self script = None ->
                     exists e, fst (_get_openai_response_with_mcp rt orc question w) = Raise e)).
  { unfold scripted_dispatch. destruct (client self) as [c|] eqn:Hc.
    - rewrite (dispatch_cases rt orc question w Hc).
      assert (H0 : service orc (trace w) (initial_request question) = script_entry script 0).
      { unfold orc, w, scripted, script_entry. simpl. now rewrite Nat.sub_diag. }
      rewrite H0.
      destruct (script_entry script 0) as [[[|ch rest]]|e] eqn:He; simpl choices; cbv iota;
        try (split; [reflexivity|]; intros _; now eexists).
      destruct (has_tool_calls (ch_message ch)) eqn:Hhas.
      + destruct (has_tool_calls_some _ Hhas) as [tcs Htcs]. rewrite Htcs.
        destruct (forallb (parses rt) tcs) eqn:Hall.
        * destruct (handle_function_calls_parsed rt orc {| choices := ch :: rest |} question
                      (record (EvChat (initial_request question)) w) Hc eq_refl Htcs Hall)
            as (results & w2 & _ & _ & Hsteps & ->).
          assert (H1 : service orc (trace w2)
                         (final_request (initial_messages question (ch_message ch) ++ results))
                       = script_entry script 1).
          { unfold orc, scripted, script_entry. cbn [service].
            rewrite (client_steps_chat_calls Hsteps).
            change (chat_calls (trace (record (EvChat (initial_request question)) w)))
              with (S (chat_calls t)).
            now replace (S (chat_calls t) - chat_calls t)%nat with 1%nat by lia. }
          rewrite H1, reply_text_response_text. simpl fst.
          destruct (response_text (script_entry script 1)) as [text|e];
            split; try reflexivity; try discriminate. intros _. now exists e.
        * destruct (handle_function_calls_unparsed rt orc {| choices := ch :: rest |} question
                      (record (EvChat (initial_request question)) w) eq_refl Htcs Hall)
            as (e & w2 & _ & ->).
          split; [reflexivity|]. intros _. now exists e.
      + rewrite reply_text_response_text. unfold response_text. simpl.
        destruct (msg_content (ch_message ch)) as [text|];
          split; try reflexivity; try discriminate. intros _. now eexists.
    - rewrite (dispatch_no_client rt orc question w Hc).
      split; [reflexivity|]. intros _. now eexists. }
  destruct Hrun as [Hok Hnone].
  destruct (_get_openai_response_with_mcp rt orc question w) as [r w1].
  simpl in Hself, Hok, Hnone. exists w1. split; [|exact Hself].
  destruct (scripted_dispatch rt self script) as [text|].
  - now rewrite Hok.
  - destruct (Hnone eq_refl) as [e ->]. now rewrite Hself.
Qed.

(** C8.  Asking the same question twice of the same processor, against a
    reasoning service that replays the same script each time, gives the same
    text both times, whatever the client answers in either run: the second
    run starts in the world the first one left, the processor object is the
    same after each run, and the conversation of the first run plays no part
    in the second. *)
Theorem answers_repeat rt (script : list (result ChatCompletion))
    (lc1 lc2 : list Event -> ClientCall -> result value) (self : QAProcessor)
    (t : list Event) (question : pystr) :
  exists text w1 w2,
    process_question rt {| service := scripted script (chat_calls t); leetcode := lc1 |}
      question (Build_World self t) = (Ok text, w1)
    /\ process_question rt
         {| service := scripted script (chat_calls (trace w1)); leetcode := lc2 |}
         question w1 = (Ok text, w2)
    /\ self_obj w1 = self
    /\ self_obj w2 = self
    /\ text = scripted_answer rt self script question.
Proof.
  destruct (scripted_run rt script lc1 self t question) as (w1 & Hrun1 & Hself1).
  destruct (scripted_run rt script lc2 self (trace w1) question) as (w2 & Hrun2 & Hself2).
  exists (scripted_answer rt self script question), w1, w2.
  split; [exact Hrun1|]. split; [|now repeat split].
  destruct w1 as [self1 t1]. simpl in *. subst self1. exact Hrun2.
Qed.

(** ** The session of the MCP configuration *)

Lemma value_is_str_eq (v : value) (text : pystr) :
  value_is_str v text = true <-> v = VStr text.
Proof.
  destruct v; simpl; try (split; discriminate).
  rewrite pystr_eqb_eq. split; [now intros ->|now intros [= ->]].
Qed.

(** On a list, the loop returns the element after the first "--session"
    that is not the last element. *)
Lemma session_after_flag_finds (pre p post : list value) (v : value) :
  Forall (fun a => value_is_str a (lit "--session") = false) p ->
  session_after_flag (VList (pre ++ p ++ VStr (lit "--session") :: v :: post))
    (List.length pre) (p ++ VStr (lit "--session") :: v :: post)
  = Ok (Some v).
Proof.
  intros Hp. revert pre. induction Hp as [|a p Ha _ IH]; intros pre.
  - cbn [app session_after_flag]. rewrite (proj2 (value_is_str_eq _ _) eq_refl).
    cbn [value_len andb]. rewrite length_app. cbn [List.length].
    replace (List.length pre + 1 <? List.length pre + S (S (List.length post)))%nat
      with true by (symmetry; apply Nat.ltb_lt; lia).
    cbn [value_index rbind].
    rewrite nth_error_app2 by lia.
    replace (List.length pre + 1 - List.length pre)%nat with 1%nat by lia.
    reflexivity.
  - cbn [app session_after_flag]. rewrite Ha. cbn [andb].
    specialize (IH (pre ++ [a])). rewrite <- app_assoc, length_app in IH.
    cbn [app List.length] in IH.
    replace (List.length pre + 1)%nat with (S (List.length pre)) in IH by lia.
    exact IH.
Qed.

Lemma session_after_flag_list_sound (pre items : list value) (v : value) :
  session_after_flag (VList (pre ++ items)) (List.length pre) items = Ok (Some v) ->
  exists p post,
    items = p ++ VStr (lit "--session") :: v :: post
    /\ Forall (fun a => value_is_str a (lit "--session") = false) p.
Proof.
  revert pre. induction items as [|arg rest IH]; intros pre; cbn [session_after_flag].
  - discriminate.
  - destruct (value_is_str arg (lit "--session")) eqn:Hflag; cbn [andb].
    + destruct (List.length pre + 1 <? value_len (VList (pre ++ arg :: rest)))%nat eqn:Hlt.
      * cbn [value_index rbind]. rewrite nth_error_app2 by lia.
        replace (List.length pre + 1 - List.length pre)%nat with 1%nat by lia.
        destruct rest as [|v' post]; cbn [nth_error]; [discriminate|].
        intros [= ->]. apply value_is_str_eq in Hflag. subst arg.
        exists [], post. split; [reflexivity|constructor].
      * apply Nat.ltb_ge in Hlt. cbn [value_len] in Hlt.
        rewrite length_app in Hlt. cbn [List.length] in Hlt.
        destruct rest as [|x rest']; [discriminate|]. cbn [List.length] in Hlt. lia.
    + intros H. specialize (IH (pre ++ [arg])).
      rewrite <- app_assoc, length_app in IH. cbn [app List.length] in IH.
      replace (List.length pre + 1)%nat with (S (List.length pre)) in IH by lia.
      destruct (IH H) as (p & post & -> & Hp).
      exists (arg :: p), post. split; [reflexivity|now constructor].
Qed.

(** On the characters of a string and on the keys of a dict the loop never
    returns anything. *)
Lemma session_after_flag_str (s : pystr) (i : nat) (chars : pystr) (v : value) :
  session_after_flag (VStr s) i (map (fun c => VStr [c]) chars) <> Ok (Some v).
Proof.
  revert i. induction chars as [|c chars IH]; intros i; cbn [map session_after_flag].
  - discriminate.
  - replace (value_is_str (VStr [c]) (lit "--session")) with false
      by (simpl; now rewrite andb_false_r).
    apply IH.
Qed.

Lemma session_after_flag_dict (d : list (pystr * value)) (i : nat)
    (keys : list value) (v : value) :
  session_after_flag (VDict d) i keys <> Ok (Some v).
Proof.
  revert i. induction keys as [|k keys IH]; intros i; cbn [session_after_flag].
  - discriminate.
  - destruct (value_is_str k (lit "--session") && (i + 1 <? value_len (VDict d))%nat).
    + discriminate.
    + apply IH.
Qed.

Lemma session_after_flag_sound (args : value) (items : list value) (v : value) :
  value_iter args = Ok items ->
  session_after_flag args 0 items = Ok (Some v) ->
  exists p post,
    args = VList (p ++ VStr (lit "--session") :: v :: post)
    /\ Forall (fun a => value_is_str a (lit "--session") = false) p.
Proof.
  destruct args; cbn [value_iter]; try discriminate; intros [= <-] H.
  - now destruct (session_after_flag_str _ _ _ H).
  - destruct (session_after_flag_list_sound [] l H) as (p & post & -> & Hp).
    now exists p, post.
  - now destruct (session_after_flag_dict _ _ _ H).
Qed.

(** X1.  With no session in the environment, a configuration file whose
    leetcode server has the argument list [args] gives the element that
    follows the first "--session" of the list. *)
Theorem session_from_config (env : pystr -> option pystr) (fs : Files)
    (config : value) (p post : list value) (v : value) :
  env (lit "LEETCODE_SESSION") = None \/ env (lit "LEETCODE_SESSION") = Some [] ->
  path_exists fs mcp_config_path = true ->
  load_json fs mcp_config_path = Ok config ->
  config_args config = Some (p ++ VStr (lit "--session") :: v :: post) ->
  Forall (fun a => value_is_str a (lit "--session") = false) p ->
  _get_leetcode_session env fs = v.
Proof.
  intros Henv Hex Hload Hargs Hp. unfold _get_leetcode_session.
  assert (Hnone : match env (lit "LEETCODE_SESSION") with
                  | Some (c :: session) => false
                  | _ => true
                  end = true)
    by (destruct Henv as [-> | ->]; reflexivity).
  destruct (env (lit "LEETCODE_SESSION")) as [[|c s]|]; try discriminate;
    rewrite Hex, Hload; cbn [rbind];
    unfold config_args in Hargs;
    destruct config as [| | | | | |d]; try discriminate;
    cbn [value_get rbind];
    destruct (dict_lookup (lit "mcpServers") d) as [[| | | | | |servers]|]; try discriminate;
    cbn [value_get rbind];
    destruct (dict_lookup (lit "leetcode") servers) as [[| | | | | |lc]|]; try discriminate;
    cbn [value_get rbind];
    destruct (dict_lookup (lit "args") lc) as [[| | | | |args|]|]; try discriminate;
    injection Hargs as ->; cbn [value_iter rbind];
    pose proof (session_after_flag_finds [] post v Hp) as Hf;
    cbn [app List.length] in Hf; rewrite Hf; reflexivity.
Qed.

Lemma session_from_config_witness :
  _get_leetcode_session no_env
    (only_config
       (config_with_args
          [VStr (lit "-y"); VStr (lit "@jinzcdev/leetcode-mcp-server");
           VStr (lit "--site"); VStr (lit "global");
           VStr (lit "--session"); VStr (lit "abc123")]))
  = VStr (lit "abc123").
Proof.
  apply (@session_from_config no_env
           (only_config
              (config_with_args
                 [VStr (lit "-y"); VStr (lit "@jinzcdev/leetcode-mcp-server");
                  VStr (lit "--site"); VStr (lit "global");
                  VStr (lit "--session"); VStr (lit "abc123")]))
           (config_with_args
              [VStr (lit "-y"); VStr (lit "@jinzcdev/leetcode-mcp-server");
               VStr (lit "--site"); VStr (lit "global");
               VStr (lit "--session"); VStr (lit "abc123")])
           [VStr (lit "-y"); VStr (lit "@jinzcdev/leetcode-mcp-server");
            VStr (lit "--site"); VStr (lit "global")]
           [] (VStr (lit "abc123"))).
  - now left.
  - reflexivity.
  - reflexivity.
  - reflexivity.
  - repeat constructor.
Defined.

(** X2.  A session comes from two places only: a non-empty
    [LEETCODE_SESSION], which wins without the file being looked at, or the
    element after the first "--session" of an argument list in a
    configuration of the expected shape.  A missing or unreadable file, a
    configuration of any other shape (an argument "list" that is a string,
    a dict or a number) and a "--session" in last place all give [None]. *)
Theorem session_sources (env : pystr -> option pystr) (fs : Files) :
  (forall c s, env (lit "LEETCODE_SESSION") = Some (c :: s) ->
               _get_leetcode_session env fs = VStr (c :: s))
  /\ (_get_leetcode_session env fs <> VNone ->
      (exists c s, env (lit "LEETCODE_SESSION") = Some (c :: s)
                   /\ _get_leetcode_session env fs = VStr (c :: s))
      \/ (path_exists fs mcp_config_path = true
          /\ exists config p post,
               load_json fs mcp_config_path = Ok config
               /\ config_args config
                  = Some (p ++ VStr (lit "--session") :: _get_leetcode_session env fs :: post)
               /\ Forall (fun a => value_is_str a (lit "--session") = false) p)).
Proof.
  split.
  - intros c s Henv. unfold _get_leetcode_session. now rewrite Henv.
  - unfold _get_leetcode_session.
    destruct (env (lit "LEETCODE_SESSION")) as [[|c s]|] eqn:Henv;
      try (intros _; left; now exists c, s);
      (destruct (path_exists fs mcp_config_path); [|intros H; now destruct H];
       intros H; right; split; [reflexivity|];
       destruct (load_json fs mcp_config_path) as [config|e]; [|now destruct H];
       exists config; cbn [rbind] in *;
       unfold config_args;
       destruct config as [| | | | | |d]; try (now destruct H);
       cbn [value_get rbind] in *;
       destruct (dict_lookup (lit "mcpServers") d) as [[| | | | | |servers]|];
       try (now destruct H); cbn [value_get rbind dict_lookup] in *;
       destruct (dict_lookup (lit "leetcode") servers) as [[| | | | | |lc]|];
       try (now destruct H); cbn [value_get rbind dict_lookup] in *;
       destruct (dict_lookup (lit "args") lc) as [args|];
       try (now destruct H); cbn [value_get rbind dict_lookup] in *;
       destruct (value_iter args) as [items|e] eqn:Hiter; try (now destruct H);
       cbn [rbind] in *;
       destruct (session_after_flag args 0 items) as [[v|]|e] eqn:Hloop;
       try (now destruct H); cbn [rbind] in *;
       destruct (session_after_flag_sound args Hiter Hloop) as (p & post & -> & Hp);
       exists p, post; now repeat split).
Qed.

(** ** The voice application *)

Lemma lstrip_suffix (s : pystr) : exists a, s = a ++ lstrip s.
Proof.
  induction s as [|c s [a IH]]; simpl; [now exists []|].
  destruct (isspace c); [|now exists []].
  exists (c :: a). simpl. now rewrite <- IH.
Qed.

Lemma strip_infix (s : pystr) : exists a b, s = a ++ strip s ++ b.
Proof.
  unfold strip, rstrip.
  destruct (lstrip_suffix s) as [a Ha].
  destruct (lstrip_suffix (rev (lstrip s))) as [b Hb].
  exists a, (rev b). rewrite <- rev_app_distr, <- Hb, rev_involutive. exact Ha.
Qed.

Lemma contains_infix (k a s b : pystr) :
  contains k s = true -> contains k (a ++ s ++ b) = true.
Proof.
  intros H. destruct (contains_split _ _ H) as (a' & b' & ->).
  replace (a ++ (a' ++ k ++ b') ++ b) with ((a ++ a') ++ k ++ (b' ++ b))
    by (now rewrite <- !app_assoc).
  apply contains_app.
Qed.

(** What occurs in the stripped text occurs in the text. *)
Lemma contains_strip (k s : pystr) :
  contains k (strip s) = true -> contains k s = true.
Proof.
  intros H. destruct (strip_infix s) as (a & b & Hs).
  rewrite Hs. now apply contains_infix.
Qed.

Lemma speak_effect (tts : TextToSpeech) (text : pystr) (a : AppWorld) :
  qa_world (snd (speak tts text a)) = qa_world a
  /\ (said (snd (speak tts text a)) = said a
      \/ (said (snd (speak tts text a)) = text :: said a /\ strip text <> [])).
Proof.
  unfold speak. destruct (negb (engine tts)); [now split; [|left]|].
  destruct (strip text) as [|c s] eqn:Hs; [now split; [|left]|].
  destruct (say_and_wait tts (said a) text) as [[u|e]|]; simpl;
    (split; [reflexivity|right; split; [reflexivity|discriminate]]).
Qed.

Lemma speak_working (tts : TextToSpeech) (text : pystr) (a : AppWorld) :
  engine tts = true -> strip text <> [] ->
  said (snd (speak tts text a)) = text :: said a.
Proof.
  intros He Hs. unfold speak. rewrite He. simpl.
  destruct (strip text); [now destruct Hs|].
  now destruct (say_and_wait tts (said a) text) as [[u|e]|].
Qed.

(** Only the engine lets an interrupt out of [speak]. *)
Lemma speak_interrupted (tts : TextToSpeech) (text : pystr) (a : AppWorld) :
  fst (speak tts text a) = KeyboardInterrupt ->
  say_and_wait tts (said a) text = KeyboardInterrupt.
Proof.
  unfold speak. destruct (negb (engine tts)); [discriminate|].
  destruct (strip text); [discriminate|].
  now destruct (say_and_wait tts (said a) text) as [[u|e]|].
Qed.

Lemma speak_then_return_world (tts : TextToSpeech) (text : pystr) (value : bool)
    (a : AppWorld) :
  snd (speak_then_return tts text value a) = snd (speak tts text a).
Proof.
  unfold speak_then_return. now destruct (speak tts text a) as [[b|] a1].
Qed.

Lemma on_error_world (tts : TextToSpeech) (a : AppWorld) :
  snd (on_error tts a)
  = snd (speak tts (lit "Sorry, I encountered an error. Please try again.") a).
Proof.
  unfold on_error. now destruct (speak tts _ a) as [[b|] a1].
Qed.

Lemma speak_then_return_uninterrupted (tts : TextToSpeech) (text : pystr)
    (value : bool) (a : AppWorld) :
  uninterrupted_speech tts ->
  fst (speak_then_return tts text value a) = Finished value.
Proof.
  intros Hq. unfold speak_then_return.
  destruct (speak tts text a) as [[b|] a1] eqn:Hs; [reflexivity|].
  destruct (Hq (said a) text). apply speak_interrupted. now rewrite Hs.
Qed.

Lemma on_error_uninterrupted (tts : TextToSpeech) (a : AppWorld) :
  uninterrupted_speech tts -> fst (on_error tts a) = Finished true.
Proof.
  intros Hq. unfold on_error.
  destruct (speak tts _ a) as [[b|] a1] eqn:Hs; [reflexivity|].
  destruct (Hq (said a) (lit "Sorry, I encountered an error. Please try again.")).
  apply speak_interrupted. now rewrite Hs.
Qed.

(** Inside the [try] a speech never makes the method return [True] when
    [False] is what follows it, and never lets an interrupt out. *)
Lemma speak_then_return_cases (tts : TextToSpeech) (text : pystr) (value : bool)
    (a : AppWorld) :
  fst (speak_then_return tts text value a) = Finished value
  \/ fst (speak_then_return tts text value a) = Finished false.
Proof.
  unfold speak_then_return. destruct (speak tts text a) as [[b|] a1]; auto.
Qed.

Lemma response_text_trimmed (r : result ChatCompletion) (text : pystr) :
  response_text r = Ok text -> strip text = text.
Proof.
  unfold response_text. destruct r as [[[|[m] rest]]|e]; simpl; try discriminate.
  destruct (msg_content m); [|discriminate].
  intros [= <-]. apply strip_idempotent.
Qed.

(** What the dispatcher returns is stripped. *)
Lemma dispatch_trimmed rt orc (question : pystr) (w w1 : World) (text : pystr) :
  _get_openai_response_with_mcp rt orc question w = (Ok text, w1) ->
  strip text = text.
Proof.
  destruct (client (self_obj w)) as [c|] eqn:Hc.
  - rewrite (dispatch_cases rt orc question w Hc).
    destruct (service orc (trace w) (initial_request question)) as [[[|ch rest]]|e] eqn:Hs;
      simpl choices; cbv iota; try discriminate.
    destruct (has_tool_calls (ch_message ch)) eqn:Hhas.
    + destruct (has_tool_calls_some _ Hhas) as [tcs Htcs].
      destruct (forallb (parses rt) tcs) eqn:Hall.
      * destruct (handle_function_calls_parsed rt orc {| choices := ch :: rest |} question
                    (record (EvChat (initial_request question)) w) Hc eq_refl Htcs Hall)
          as (results & w2 & _ & _ & _ & ->).
        intros [= H _]. exact (response_text_trimmed _ H).
      * destruct (handle_function_calls_unparsed rt orc {| choices := ch :: rest |} question
                    (record (EvChat (initial_request question)) w) eq_refl Htcs Hall)
          as (e & w2 & _ & ->).
        discriminate.
    + intros [= H _].
      exact (response_text_trimmed (Ok {| choices := ch :: rest |}) H).
  - rewrite (dispatch_no_client rt orc question w Hc). discriminate.
Qed.

(** The answer of a processor built by the constructor is stripped. *)
Lemma process_question_trimmed rt orc env new_client key (t : list Event)
    (question text : pystr) (w1 : World) :
  process_question rt orc question (Build_World (__init__ env new_client key) t)
  = (Ok text, w1) ->
  strip text = text.
Proof.
  rewrite process_question_cases. simpl self_obj.
  destruct (fallback_nonempty_trimmed rt env new_client key question) as [_ Htrim].
  destruct (strip question); [now intros [= <- _]|].
  destruct (use_openai (__init__ env new_client key)); [|now intros [= <- _]].
  pose proof (dispatch_keeps_self rt orc question
                (Build_World (__init__ env new_client key) t)) as Hself.
  destruct (_get_openai_response_with_mcp rt orc question
              (Build_World (__init__ env new_client key) t)) as [[answer|e] w2] eqn:Hrun.
  - intros [= <- _]. exact (dispatch_trimmed rt orc question _ Hrun).
  - simpl in Hself. rewrite Hself. now intros [= <- _].
Qed.

(** X3.  A turn that no interrupt from the keyboard disturbs returns [False]
    exactly when something was heard whose lowered text holds one of the
    exit words "quit", "exit", "stop", "bye", anywhere, also inside another
    word.  An interrupt while recording or while the processor answers makes
    the turn return [False] with nothing said; one while recording leaves
    everything as it was.  The turn returns [True] only when no exit word was
    heard and no such interrupt came.  An interrupt leaves the method only
    from the speech of the error handler.  The processor is consulted only
    in turns where something was heard that holds no exit word; in every
    other turn its world is left as it was, so no request reaches the
    reasoning service or the client. *)
Theorem turn_control rt orc (tts : TextToSpeech) (turn : Turn) (a : AppWorld) :
  (uninterrupted_speech tts ->
   forall heard,
     record_audio turn = Finished heard ->
     interrupted_before_reply rt turn = false ->
     fst (listen_and_respond rt orc tts turn a) = Finished (negb (ends_session rt heard)))
  /\ (interrupted_before_reply rt turn = true ->
      fst (listen_and_respond rt orc tts turn a) = Finished false
      /\ said (snd (listen_and_respond rt orc tts turn a)) = said a)
  /\ (record_audio turn = KeyboardInterrupt ->
      listen_and_respond rt orc tts turn a = (Finished false, a))
  /\ (fst (listen_and_respond rt orc tts turn a) = Finished true ->
      exists heard,
        record_audio turn = Finished heard
        /\ ends_session rt heard = false
        /\ interrupted_before_reply rt turn = false)
  /\ (fst (listen_and_respond rt orc tts turn a) = KeyboardInterrupt ->
      exists e,
        record_audio turn = Finished (Raise e)
        /\ say_and_wait tts (said a)
             (lit "Sorry, I encountered an error. Please try again.")
           = KeyboardInterrupt)
  /\ ((forall heard, record_audio turn = Finished heard ->
                     reaches_processor rt heard = false) ->
      qa_world (snd (listen_and_respond rt orc tts turn a)) = qa_world a)
  /\ (forall q,
         record_audio turn = Finished (Ok q) ->
         reaches_processor rt (Ok q) = true ->
         qa_world (snd (listen_and_respond rt orc tts turn a))
         = match answering turn with
           | Some w1 => w1
           | None => snd (process_question rt orc q (qa_world a))
           end).
Proof.
  unfold listen_and_respond, interrupted_before_reply, reaches_processor, ends_session.
  destruct (record_audio turn) as [[[|c q]|e]|].
  - (* nothing heard *)
    split; [|split; [|split; [|split; [|split; [|split]]]]].
    + intros Hq heard [= <-] _. now apply speak_then_return_uninterrupted.
    + discriminate.
    + discriminate.
    + intros _. now exists (Ok []).
    + intros H.
      destruct (speak_then_return_cases tts
                  (lit "I couldn't hear you clearly. Please try again.") true a);
        congruence.
    + intros _. rewrite speak_then_return_world. apply speak_effect.
    + intros q' [= <-] Hr. discriminate Hr.
  - destruct (any_in exit_words (lower (ucd_lower rt) (c :: q))) eqn:Hexit.
    + (* an exit word *)
      split; [|split; [|split; [|split; [|split; [|split]]]]].
      * intros Hq heard [= <-] _. rewrite Hexit.
        now apply speak_then_return_uninterrupted.
      * discriminate.
      * discriminate.
      * intros H.
        destruct (speak_then_return_cases tts
                    (lit "Goodbye! Thanks for using the voice assistant.") false a);
          congruence.
      * intros H.
        destruct (speak_then_return_cases tts
                    (lit "Goodbye! Thanks for using the voice assistant.") false a);
          congruence.
      * intros _. rewrite speak_then_return_world. apply speak_effect.
      * intros q' [= <-] Hr. rewrite Hexit in Hr. discriminate Hr.
    + (* a question *)
      destruct (answering turn) as [w1|].
      * split; [|split; [|split; [|split; [|split; [|split]]]]];
          try discriminate.
        -- intros _. now split.
        -- intros H. specialize (H (Ok (c :: q)) eq_refl).
           change (negb (any_in exit_words (lower (ucd_lower rt) (c :: q))) = false) in H.
           rewrite Hexit in H. discriminate H.
        -- intros q' [= <-] _. reflexivity.
      * destruct (process_question_returns rt orc (c :: q) (qa_world a))
          as (ans & w1 & Hrun).
        rewrite Hrun.
        split; [|split; [|split; [|split; [|split; [|split]]]]];
          try discriminate.
        -- intros Hq heard [= <-] _. rewrite Hexit.
           now apply speak_then_return_uninterrupted.
        -- intros _. exists (Ok (c :: q)). now rewrite Hexit.
        -- intros H.
           match goal with
           | H : fst (speak_then_return tts ?t true ?a0) = _ |- _ =>
               destruct (speak_then_return_cases tts t true a0); congruence
           end.
        -- intros H. specialize (H (Ok (c :: q)) eq_refl).
           change (negb (any_in exit_words (lower (ucd_lower rt) (c :: q))) = false) in H.
           rewrite Hexit in H. discriminate H.
        -- intros q' [= <-] _. rewrite speak_then_return_world, Hrun.
           now rewrite (proj1 (speak_effect _ _ _)).
  - (* the recording raised *)
    split; [|split; [|split; [|split; [|split; [|split]]]]].
    + intros Hq heard [= <-] _. now apply on_error_uninterrupted.
    + discriminate.
    + discriminate.
    + intros _. now exists (Raise e).
    + intros H. exists e. split; [reflexivity|].
      apply speak_interrupted. unfold on_error in H.
      now destruct (speak tts _ a) as [[b|] a1].
    + intros _. rewrite on_error_world. apply speak_effect.
    + discriminate.
  - (* the recording was interrupted *)
    split; [|split; [|split; [|split; [|split; [|split]]]]]; try discriminate.
    + intros _. now split.
    + reflexivity.
    + reflexivity.
Qed.

(** X4.  With a working engine and a processor built by the constructor,
    every turn that is not interrupted while recording or while the
    processor answers hands the engine exactly one text, and the text is not
    blank: an empty answer of the processor is replaced by the apology
    before it is spoken. *)
Theorem turn_says_one_text rt orc env new_client key (t : list Event)
    (tts : TextToSpeech) (turn : Turn) (texts : list pystr) :
  engine tts = true ->
  interrupted_before_reply rt turn = false ->
  exists text,
    said (snd (listen_and_respond rt orc tts turn
                 {| qa_world := Build_World (__init__ env new_client key) t;
                    said := texts |}))
    = text :: texts
    /\ strip text <> []
    /\ (forall q w1,
           record_audio turn = Finished (Ok q) ->
           reaches_processor rt (Ok q) = true ->
           process_question rt orc q (Build_World (__init__ env new_client key) t)
           = (Ok [], w1) ->
           text = apology).
Proof.
  intros He. unfold listen_and_respond, interrupted_before_reply, reaches_processor.
  destruct (record_audio turn) as [[[|c q]|e]|]; [| | |discriminate].
  - intros _. eexists. rewrite speak_then_return_world.
    split; [apply speak_working; [exact He|discriminate]|].
    split; [discriminate|]. intros q' w' [= <-] Hr. discriminate Hr.
  - destruct (any_in exit_words (lower (ucd_lower rt) (c :: q))) eqn:Hexit.
    + intros _. eexists. rewrite speak_then_return_world.
      split; [apply speak_working; [exact He|discriminate]|].
      split; [discriminate|].
      intros q' w' [= <-] Hr. rewrite Hexit in Hr. discriminate Hr.
    + destruct (answering turn) as [w0|]; [discriminate|]. intros _.
      simpl qa_world.
      destruct (process_question rt orc (c :: q)
                  (Build_World (__init__ env new_client key) t)) as [[ans|e] w1] eqn:Hrun.
      * pose proof (process_question_trimmed rt orc env new_client key t (c :: q) Hrun)
          as Htrim.
        rewrite speak_then_return_world.
        destruct ans as [|x ans].
        -- exists apology. split; [apply speak_working; [exact He|discriminate]|].
           split; [discriminate|reflexivity].
        -- exists (x :: ans).
           split; [apply speak_working; [exact He|rewrite Htrim; discriminate]|].
           split; [rewrite Htrim; discriminate|].
           intros q' w' [= <-] _ Hr. rewrite Hrun in Hr. discriminate Hr.
      * destruct (process_question_returns rt orc (c :: q)
                    (Build_World (__init__ env new_client key) t)) as (x & w2 & Hx).
        congruence.
  - intros _. eexists. rewrite on_error_world.
    split; [apply speak_working; [exact He|discriminate]|].
    split; discriminate.
Qed.

Lemma turn_says_one_text_witness :
  exists text,
    said (snd (listen_and_respond sample_runtime
                 (sample_oracles [Ok (text_reply (lit "   "))]) working_tts
                 (quiet_turn (Ok (lit "two sum"))) (app_world online_world)))
    = [text]
    /\ strip text <> []
    /\ text = apology.
Proof.
  destruct (@turn_says_one_text sample_runtime
              (sample_oracles [Ok (text_reply (lit "   "))])
              no_env new_client_ok (Some (lit "sk-test")) [] working_tts
              (quiet_turn (Ok (lit "two sum"))) [] eq_refl eq_refl)
    as (text & Hsaid & Hne & Hap).
  exists text. split; [exact Hsaid|]. split; [exact Hne|].
  apply (Hap (lit "two sum")
             (record (EvChat (initial_request (lit "two sum"))) online_world));
    reflexivity.
Defined.

Lemma contains_trans (a b s : pystr) :
  contains a b = true -> contains b s = true -> contains a s = true.
Proof.
  intros Hab Hbs. destruct (contains_split _ _ Hbs) as (x & y & ->).
  now apply contains_infix.
Qed.

(** X5.  The exit word "bye" shadows two rows of the trigger table: in a
    turn that reaches the processor the lowered question holds no "bye", so
    the fallback responder never gives the replies registered for "goodbye"
    and "bye".  Through the application those two replies cannot be
    heard. *)
Theorem farewell_replies_unreachable rt env new_client key (q : pystr) :
  reaches_processor rt (Ok q) = true ->
  _get_fallback_response rt (__init__ env new_client key) q
  <> lit "Goodbye! It was nice talking with you."
  /\ _get_fallback_response rt (__init__ env new_client key) q
     <> lit "Bye! Have a great day!".
Proof.
  unfold reaches_processor. destruct q as [|c q]; [discriminate|].
  intros Hreach. apply negb_true_iff in Hreach.
  unfold any_in, exit_words in Hreach. cbn [existsb] in Hreach.
  repeat (apply orb_false_iff in Hreach; destruct Hreach as [? Hreach]).
  assert (Hbye : contains (lit "bye") (question_lower rt (c :: q)) = false).
  { destruct (contains (lit "bye") (question_lower rt (c :: q))) eqn:E; [|reflexivity].
    apply contains_strip in E. congruence. }
  assert (Hgoodbye : contains (lit "goodbye") (question_lower rt (c :: q)) = false).
  { destruct (contains (lit "goodbye") (question_lower rt (c :: q))) eqn:E; [|reflexivity].
    rewrite (contains_trans (lit "bye") (lit "goodbye") _ eq_refl E) in Hbye.
    discriminate. }
  destruct (fallback_cases rt (__init__ env new_client key) (c :: q))
    as [[_ Hcat]|(k & r & Hfind & ->)].
  - unfold category_replies in Hcat. simpl in Hcat.
    destruct Hcat as [<-|[<-|[<-|[]]]]; split; discriminate.
  - rewrite init_fallback_responses in Hfind. apply find_some in Hfind.
    destruct Hfind as [Hin Hk]. simpl in Hk.
    unfold trigger_table in Hin. simpl in Hin.
    repeat (destruct Hin as [Hin|Hin];
            [injection Hin as <- <-;
             first [congruence | split; discriminate]|]).
    destruct Hin.
Qed.

Lemma farewell_replies_unreachable_witness :
  reaches_processor sample_runtime (Ok (lit "see you later")) = true
  /\ _get_fallback_response sample_runtime (__init__ no_env new_client_ok None)
       (lit "see you later")
     <> lit "Bye! Have a great day!".
Proof.
  split; [reflexivity|].
  apply (@farewell_replies_unreachable sample_runtime no_env new_client_ok None
           (lit "see you later")).
  reflexivity.
Defined.

(** ** The constructor's invariants *)

(** X6.  What the constructor establishes and every question keeps: the
    processor uses the reasoning service exactly when it holds a client
    object, which is exactly when the key argument, or else the
    [OPENAI_API_KEY] variable, is a non-empty string, a non-empty argument
    taking precedence; the default identity is set exactly when the LeetCode
    client initialised; and [process_question] returns the processor object
    unchanged. *)
Theorem constructor_invariants rt orc env new_client key (t : list Event)
    (question : pystr) :
  (use_openai (__init__ env new_client key) = true
   <-> exists c, client (__init__ env new_client key) = Some c)
  /\ (use_openai (__init__ env new_client key) = true
      <-> exists c k, py_or key (env (lit "OPENAI_API_KEY")) = Some (c :: k))
  /\ (forall c k, key = Some (c :: k) ->
                  client (__init__ env new_client key)
                  = Some {| openai_api_key := c :: k |})
  /\ (mcp_available (__init__ env new_client key) = true
      <-> exists lc, leetcode_client (__init__ env new_client key) = Some lc)
  /\ (mcp_available (__init__ env new_client key) = true
      <-> exists u, default_username (__init__ env new_client key) = Some u)
  /\ self_obj (snd (process_question rt orc question
                      (Build_World (__init__ env new_client key) t)))
     = __init__ env new_client key.
Proof.
  split; [|split; [|split; [|split; [|split]]]].
  - unfold __init__.
    destruct (new_client _); destruct (py_or _ _) as [[|c k]|]; simpl;
      split; try discriminate; try (intros [x H]; discriminate); eauto.
  - unfold __init__.
    destruct (new_client _); destruct (py_or _ _) as [[|c k]|]; simpl;
      split; try discriminate; try (intros (x & y & H); discriminate); eauto.
  - intros c k ->. unfold __init__. simpl.
    destruct (new_client _); reflexivity.
  - unfold __init__.
    destruct (new_client _); destruct (py_or _ _) as [[|c k]|]; simpl;
      split; try discriminate; try (intros [x H]; discriminate); eauto.
  - unfold __init__.
    destruct (new_client _); destruct (py_or _ _) as [[|c k]|]; simpl;
      split; try discriminate; try (intros [x H]; discriminate); eauto.
  - rewrite process_question_cases. simpl self_obj.
    destruct (strip question); [reflexivity|].
    destruct (use_openai (__init__ env new_client key)); [|reflexivity].
    pose proof (dispatch_keeps_self rt orc question
                  (Build_World (__init__ env new_client key) t)) as Hself.
    now destruct (_get_openai_response_with_mcp rt orc question
                    (Build_World (__init__ env new_client key) t)) as [[text|e] w1].
Qed.

(** ** Letter case and surrounding white space *)

Lemma isspace_ascii_lower (c : N) : isspace (ascii_lower c) = isspace c.
Proof.
  unfold ascii_lower.
  destruct ((65 <=? c) && (c <=? 90))%N eqn:E; [|reflexivity].
  apply andb_true_iff in E. destruct E as [H1 H2].
  apply N.leb_le in H1, H2. unfold isspace.
  repeat match goal with
         | |- context [(?a <=? ?b)%N] =>
             first [replace (a <=? b)%N with true by (symmetry; apply N.leb_le; lia)
                   |replace (a <=? b)%N with false by (symmetry; apply N.leb_gt; lia)]
         | |- context [(?a =? ?b)%N] =>
             replace (a =? b)%N with false by (symmetry; apply N.eqb_neq; lia)
         end.
  reflexivity.
Qed.

Lemma blank_ascii_lower (s : pystr) :
  strip (map ascii_lower s) = [] <-> strip s = [].
Proof.
  rewrite !strip_nil_iff.
  replace (forallb isspace (map ascii_lower s)) with (forallb isspace s);
    [reflexivity|].
  induction s as [|c s IH]; simpl; [reflexivity|].
  now rewrite isspace_ascii_lower, IH.
Qed.

(** X7.  Without a reasoning service the answer to an ASCII question depends
    on the question only up to letter case and surrounding white space: two
    ASCII questions whose lowered, stripped texts are equal get the same
    answer. *)
Theorem answer_ignores_case_and_padding rt orc (w : World) (q1 q2 : pystr) :
  use_openai (self_obj w) = false ->
  forallb (fun c => (c <? 128)%N) q1 = true ->
  forallb (fun c => (c <? 128)%N) q2 = true ->
  strip (map ascii_lower q1) = strip (map ascii_lower q2) ->
  process_question rt orc q1 w = process_question rt orc q2 w.
Proof.
  intros Hoff H1 H2 Heq. rewrite !process_question_cases, Hoff.
  assert (Hblank : strip q1 = [] <-> strip q2 = []).
  { rewrite <- (blank_ascii_lower q1), <- (blank_ascii_lower q2), Heq. reflexivity. }
  assert (Hans : _get_fallback_response rt (self_obj w) q1
                 = _get_fallback_response rt (self_obj w) q2).
  { unfold _get_fallback_response, lower.
    now rewrite (lower_from_ascii _ [] q1 H1), (lower_from_ascii _ [] q2 H2), Heq. }
  destruct (strip q1) as [|a s1] eqn:E1; destruct (strip q2) as [|b s2] eqn:E2.
  - reflexivity.
  - discriminate (proj1 Hblank eq_refl).
  - discriminate (proj2 Hblank eq_refl).
  - now rewrite Hans.
Qed.

Lemma answer_ignores_case_and_padding_witness :
  process_question sample_runtime (sample_oracles []) (lit "  THANK You ") offline_world
  = process_question sample_runtime (sample_oracles []) (lit "thank you") offline_world.
Proof.
  apply (@answer_ignores_case_and_padding sample_runtime (sample_oracles [])
           offline_world (lit "  THANK You ") (lit "thank you"));
    reflexivity.
Defined.

(** ** The two paths through the dispatcher *)

(** X8.  A processor with a reasoning service, a question that is not
    blank, and a first reply that carries text and asks for no tool: the
    answer is the stripped text, after exactly one request and no client
    call. *)
Theorem direct_answer rt orc (w : World) (c : OpenAI) (question text : pystr)
    (response : ChatCompletion) (ch : Choice) (rest : list Choice) :
  use_openai (self_obj w) = true ->
  client (self_obj w) = Some c ->
  strip question <> [] ->
  service orc (trace w) (initial_request question) = Ok response ->
  choices response = ch :: rest ->
  has_tool_calls (ch_message ch) = false ->
  msg_content (ch_message ch) = Some text ->
  process_question rt orc question w
  = (Ok (strip text), record (EvChat (initial_request question)) w).
Proof.
  intros Huse Hc Hq Hs Hch Hno Htext.
  rewrite process_question_cases, Huse, (dispatch_cases rt orc question w Hc), Hs, Hch, Hno.
  destruct (strip question); [now destruct Hq|].
  unfold response_text. now rewrite Hch, Htext.
Qed.

Lemma direct_answer_witness :
  process_question sample_runtime
    (sample_oracles [Ok (text_reply (lit " Python is a programming language. "))])
    (lit "What is Python?") online_world
  = (Ok (lit "Python is a programming language."),
     record (EvChat (initial_request (lit "What is Python?"))) online_world).
Proof.
  apply (@direct_answer sample_runtime
           (sample_oracles [Ok (text_reply (lit " Python is a programming language. "))])
           online_world {| openai_api_key := lit "sk-test" |}
           (lit "What is Python?") (lit " Python is a programming language. ")
           (text_reply (lit " Python is a programming language. "))
           {| ch_message := {| msg_content := Some (lit " Python is a programming language. ");
                               msg_tool_calls := None |} |} []);
    solve [reflexivity | discriminate].
Defined.

Lemma call_get_problem orc (items : list (pystr * value)) (slug : value)
    (lc : LeetCodeAPIClient) (w : World) :
  leetcode_client (self_obj w) = Some lc ->
  dict_lookup (lit "title_slug") items = Some slug ->
  call_mcp_function orc (lit "get_problem") (VDict items) w
  = (leetcode orc (trace w) (Call_get_problem slug),
     record (EvClient (Call_get_problem slug)) w).
Proof.
  intros Hlc Hslug. unfold call_mcp_function. simpl.
  unfold bind, client_method, bind, get_self. rewrite Hlc. simpl.
  now rewrite Hslug.
Qed.

(** X9.  The problem look-up from end to end.  When the first reply asks
    for the one tool call "get_problem" with a JSON object that holds a
    [title_slug], the client is called once, with that slug; the second
    request carries, after the three opening messages, one tool message
    under the call's id whose content is the serialised result of the
    client (or the error object, when the client raised); and the answer is
    the stripped text of the second reply, or the fallback responder's
    answer when that reply cannot be read. *)
Theorem problem_lookup rt orc (w : World) (c : OpenAI) (lc : LeetCodeAPIClient)
    (question id arguments : pystr) (response : ChatCompletion) (ch : Choice)
    (rest : list Choice) (items : list (pystr * value)) (slug : value) :
  use_openai (self_obj w) = true ->
  client (self_obj w) = Some c ->
  leetcode_client (self_obj w) = Some lc ->
  strip question <> [] ->
  service orc (trace w) (initial_request question) = Ok response ->
  choices response = ch :: rest ->
  msg_tool_calls (ch_message ch) = Some [tool_call id (lit "get_problem") arguments] ->
  json_loads rt arguments = Ok (VDict items) ->
  dict_lookup (lit "title_slug") items = Some slug ->
  process_question rt orc question w
  = (Ok match response_text
                (service orc
                   (EvClient (Call_get_problem slug)
                      :: EvChat (initial_request question) :: trace w)
                   (final_request
                      (initial_messages question (ch_message ch)
                         ++ [ToolMessage id
                               (json_dumps
                                  (payload_of rt
                                     (leetcode orc
                                        (EvChat (initial_request question) :: trace w)
                                        (Call_get_problem slug))))])))
        with
        | Ok text => text
        | Raise _ => _get_fallback_response rt (self_obj w) question
        end,
     {| self_obj := self_obj w;
        trace :=
          EvChat (final_request
                    (initial_messages question (ch_message ch)
                       ++ [ToolMessage id
                             (json_dumps
                                (payload_of rt
                                   (leetcode orc
                                      (EvChat (initial_request question) :: trace w)
                                      (Call_get_problem slug))))]))
            :: EvClient (Call_get_problem slug)
            :: EvChat (initial_request question) :: trace w |}).
Proof.
  intros Huse Hc Hlc Hq Hs Hch Htcs Hp Hslug.
  rewrite process_question_cases, Huse, (dispatch_cases rt orc question w Hc), Hs, Hch.
  destruct (strip question); [now destruct Hq|].
  unfold has_tool_calls. rewrite Htcs.
  unfold _handle_function_calls, first_message. rewrite Hch.
  unfold bind at 1. unfold ret at 1. rewrite Htcs.
  unfold bind at 1. unfold iter_tool_calls, ret at 1.
  cbn [execute_tool_calls]. unfold bind at 1. unfold bind at 1.
  rewrite (execute_tool_call_parsed rt orc
             (tool_call id (lit "get_problem") arguments)
             (record (EvChat (initial_request question)) w) Hp).
  unfold tool_result. cbn [tool_call tc_function fn_name tc_id].
  rewrite (call_get_problem orc items (lc := lc)
             (record (EvChat (initial_request question)) w) Hlc Hslug).
  cbn [trace record]. unfold payload_of.
  destruct (leetcode orc (EvChat (initial_request question) :: trace w)
              (Call_get_problem slug)) as [v|e];
    cbn [fst snd]; unfold ret at 1; unfold bind at 1;
    (rewrite chat_completions_create_run with (c := c) by exact Hc);
    cbn [trace record self_obj]; unfold response_text;
    match goal with
    | |- context [match service orc ?h ?r with _ => _ end] =>
        destruct (service orc h r) as [[[|[m] rest2]]|e2]
    end;
    unfold bind, raise, ret, content_strip; cbn [choices ch_message];
    try reflexivity; destruct (msg_content m); reflexivity.
Qed.

Lemma problem_lookup_witness :
  fst (process_question scenario_runtime
         {| service :=
              scripted
                [Ok (tool_reply [tool_call (lit "call_1") (lit "get_problem")
                                   (json_dumps two_sum_arguments)]);
                 Ok (text_reply (lit "Two Sum is an Easy difficulty problem."))] 0;
            leetcode := two_sum_client |}
         (lit "two sum") online_world)
  = Ok (lit "Two Sum is an Easy difficulty problem.").
Proof.
  rewrite (@problem_lookup scenario_runtime
             {| service :=
                  scripted
                    [Ok (tool_reply [tool_call (lit "call_1") (lit "get_problem")
                                       (json_dumps two_sum_arguments)]);
                     Ok (text_reply (lit "Two Sum is an Easy difficulty problem."))] 0;
                leetcode := two_sum_client |}
             online_world {| openai_api_key := lit "sk-test" |}
             {| lc_session := None |}
             (lit "two sum") (lit "call_1") (json_dumps two_sum_arguments)
             (tool_reply [tool_call (lit "call_1") (lit "get_problem")
                            (json_dumps two_sum_arguments)])
             {| ch_message :=
                  {| msg_content := None;
                     msg_tool_calls :=
                       Some [tool_call (lit "call_1") (lit "get_problem")
                               (json_dumps two_sum_arguments)] |} |}
             [] [(lit "title_slug", VStr (lit "two-sum"))] (VStr (lit "two-sum")));
    solve [reflexivity | discriminate].
Defined.

(** ** The LeetCode client *)

Lemma has_data_field_true (data : value) (field : pystr) :
  has_data_field data field = Ok true ->
  exists d i v,
    data = VDict d
    /\ dict_lookup (lit "data") d = Some (VDict i)
    /\ dict_lookup field i = Some v
    /\ truthy v = true.
Proof.
  unfold has_data_field.
  destruct data as [| | | |s|l|d]; cbn [value_has rbind]; try discriminate.
  - destruct (contains (lit "data") s); cbn [value_getitem rbind]; discriminate.
  - destruct (existsb _ l); cbn [value_getitem rbind]; discriminate.
  - cbn [value_getitem].
    destruct (dict_lookup (lit "data") d) as [inner|] eqn:Hd; [|discriminate].
    cbn [rbind].
    destruct inner as [| | | | | |i]; cbn [value_getitem rbind]; try discriminate.
    destruct (dict_lookup field i) as [v|] eqn:Hv; cbn [rbind]; [|discriminate].
    intros [= Ht]. now exists d, i, v.
Qed.

Lemma has_data_field_shape (d i : list (pystr * value)) (field : pystr) (v : value) :
  dict_lookup (lit "data") d = Some (VDict i) ->
  dict_lookup field i = Some v ->
  has_data_field (VDict d) field = Ok (truthy v).
Proof.
  intros Hd Hi. unfold has_data_field. cbn [value_has rbind value_getitem].
  rewrite Hd. cbn [rbind value_getitem]. now rewrite Hi.
Qed.

Lemma data_field_or_empty_returns (response : result value) (field : pystr) :
  returns_field (data_field_or_empty response field) response field.
Proof.
  unfold returns_field, data_field_or_empty. split.
  - destruct response as [data|e]; cbn [rbind or_empty]; [|now intros H].
    destruct (has_data_field data field) as [[|]|e] eqn:Hhas; cbn [rbind or_empty];
      try (now intros H).
    destruct (has_data_field_true _ _ Hhas) as (d & i & v & -> & Hd & Hi & Ht).
    cbn [value_getitem]. rewrite Hd. cbn [rbind value_getitem]. rewrite Hi.
    cbn [or_empty]. intros _. now exists d, i.
  - intros d i v -> Hd Hi Ht. cbn [rbind].
    rewrite (has_data_field_shape d field Hd Hi), Ht. cbn [rbind value_getitem].
    rewrite Hd. cbn [rbind value_getitem]. now rewrite Hi.
Qed.

(** X10.  [get_problem] and [get_user_profile] post one request each and
    return the field "question", "matchedUser" of the response's data when
    the response is an object whose "data" is an object holding a true value
    there; in every other case (the exchange failed, the response has another
    shape, the field is missing, null or empty) they return the empty dict.
    [search_problems] does the same with "problemsetQuestionList" when its
    filters can be built; they cannot exactly when the difficulty is a true
    value that is not a string, and then it posts nothing and returns the
    empty dict. *)
Theorem lookups_return_field (tx : Text) (self : ApiClient) (web : Web)
    (posted : list HttpRequest) (title_slug username keywords difficulty limit : value) :
  (returns_field (fst (get_problem web posted title_slug))
     (web posted (graphql problem_query (VDict [(lit "titleSlug", title_slug)])))
     (lit "question")
   /\ snd (get_problem web posted title_slug)
      = graphql problem_query (VDict [(lit "titleSlug", title_slug)]) :: posted)
  /\ (returns_field (fst (get_user_profile self web posted username))
        (web posted
           (graphql user_profile_query
              (VDict [(lit "username", value_or username (VStr (api_username self)))])))
        (lit "matchedUser")
      /\ snd (get_user_profile self web posted username)
         = graphql user_profile_query
             (VDict [(lit "username", value_or username (VStr (api_username self)))])
             :: posted)
  /\ match search_filters tx keywords difficulty with
     | Ok filters =>
         returns_field (fst (search_problems tx web posted keywords difficulty limit))
           (web posted
              (graphql search_problems_query
                 (VDict [(lit "categorySlug", VStr []); (lit "limit", limit);
                         (lit "skip", VInt 0); (lit "filters", filters)])))
           (lit "problemsetQuestionList")
         /\ snd (search_problems tx web posted keywords difficulty limit)
            = graphql search_problems_query
                (VDict [(lit "categorySlug", VStr []); (lit "limit", limit);
                        (lit "skip", VInt 0); (lit "filters", filters)])
                :: posted
     | Raise _ =>
         search_problems tx web posted keywords difficulty limit = (VDict [], posted)
     end
  /\ ((exists e, search_filters tx keywords difficulty = Raise e)
      <-> truthy difficulty = true /\ forall s, difficulty <> VStr s).
Proof.
  split; [|split; [|split]].
  - unfold get_problem. cbn [fst snd].
    split; [apply data_field_or_empty_returns|reflexivity].
  - unfold get_user_profile. cbn [fst snd].
    split; [apply data_field_or_empty_returns|reflexivity].
  - unfold search_problems.
    destruct (search_filters tx keywords difficulty) as [filters|e]; [|reflexivity].
    cbn [fst snd]. split; [apply data_field_or_empty_returns|reflexivity].
  - unfold search_filters.
    destruct (truthy difficulty) eqn:Ht.
    + destruct difficulty; cbn [value_upper rbind];
        (split;
         [intros _; split; [reflexivity|discriminate]
         |intros _; eexists; reflexivity])
        || (split; [intros [e He]; discriminate He
                   |intros [_ Hns]; now destruct (Hns s)]).
    + cbn [rbind]. split; [intros [e He]; discriminate He|intros [Hf _]; discriminate Hf].
Qed.

Lemma dict_lookup_nonempty (k : pystr) (d : list (pystr * value)) (v : value) :
  dict_lookup k d = Some v -> truthy (VDict d) = true.
Proof. destruct d; [discriminate|reflexivity]. Qed.

(** X11.  [get_daily_challenge] posts one request, without variables, and
    returns either the empty dict or a dict with exactly the keys
    "questionTitle", "difficulty", "titleSlug", "date" and "link", in this
    order, taken from the challenge of the response and its question, the
    link being the text "https://leetcode.com" followed by the link of the
    challenge; it returns that dict whenever the response has the shape. *)
Theorem daily_challenge_shape (tx : Text) (web : Web) (posted : list HttpRequest) :
  snd (get_daily_challenge tx web posted)
  = graphql daily_challenge_query (VDict []) :: posted
  /\ (fst (get_daily_challenge tx web posted) = VDict []
      \/ exists d i c q title difficulty slug date link,
           web posted (graphql daily_challenge_query (VDict [])) = Ok (VDict d)
           /\ dict_lookup (lit "data") d = Some (VDict i)
           /\ dict_lookup (lit "activeDailyCodingChallengeQuestion") i = Some (VDict c)
           /\ dict_lookup (lit "question") c = Some (VDict q)
           /\ dict_lookup (lit "title") q = Some title
           /\ dict_lookup (lit "difficulty") q = Some difficulty
           /\ dict_lookup (lit "titleSlug") q = Some slug
           /\ dict_lookup (lit "date") c = Some date
           /\ dict_lookup (lit "link") c = Some link
           /\ fst (get_daily_challenge tx web posted)
              = VDict [(lit "questionTitle", title);
                       (lit "difficulty", difficulty);
                       (lit "titleSlug", slug);
                       (lit "date", date);
                       (lit "link", VStr (lit "https://leetcode.com" ++ py_str tx link))])
  /\ (forall d i c q title difficulty slug date link,
         web posted (graphql daily_challenge_query (VDict [])) = Ok (VDict d) ->
         dict_lookup (lit "data") d = Some (VDict i) ->
         dict_lookup (lit "activeDailyCodingChallengeQuestion") i = Some (VDict c) ->
         dict_lookup (lit "question") c = Some (VDict q) ->
         dict_lookup (lit "title") q = Some title ->
         dict_lookup (lit "difficulty") q = Some difficulty ->
         dict_lookup (lit "titleSlug") q = Some slug ->
         dict_lookup (lit "date") c = Some date ->
         dict_lookup (lit "link") c = Some link ->
         fst (get_daily_challenge tx web posted)
         = VDict [(lit "questionTitle", title);
                  (lit "difficulty", difficulty);
                  (lit "titleSlug", slug);
                  (lit "date", date);
                  (lit "link", VStr (lit "https://leetcode.com" ++ py_str tx link))]).
Proof.
  split; [reflexivity|]. split.
  - unfold get_daily_challenge. cbn [fst].
    destruct (web posted (graphql daily_challenge_query (VDict []))) as [data|e];
      cbn [rbind or_empty]; [|now left].
    destruct (has_data_field data (lit "activeDailyCodingChallengeQuestion"))
      as [[|]|e] eqn:Hhas; cbn [rbind or_empty]; try (now left).
    destruct (has_data_field_true _ _ Hhas) as (d & i & v & -> & Hd & Hi & _).
    cbn [value_getitem]. rewrite Hd. cbn [rbind value_getitem]. rewrite Hi.
    cbn [rbind].
    destruct v as [| | | | | |c]; cbn [value_getitem rbind or_empty]; try (now left).
    destruct (dict_lookup (lit "question") c) as [qv|] eqn:Hq;
      cbn [rbind or_empty]; [|now left].
    destruct qv as [| | | | | |q]; cbn [value_getitem rbind or_empty]; try (now left).
    destruct (dict_lookup (lit "title") q) as [title|] eqn:Ht;
      cbn [rbind or_empty]; [|now left].
    destruct (dict_lookup (lit "difficulty") q) as [difficulty|] eqn:Hdi;
      cbn [rbind or_empty]; [|now left].
    destruct (dict_lookup (lit "titleSlug") q) as [slug|] eqn:Hsl;
      cbn [rbind or_empty]; [|now left].
    destruct (dict_lookup (lit "date") c) as [date|] eqn:Hda;
      cbn [rbind or_empty]; [|now left].
    destruct (dict_lookup (lit "link") c) as [link|] eqn:Hl;
      cbn [rbind or_empty]; [|now left].
    right. exists d, i, c, q, title, difficulty, slug, date, link.
    now repeat split.
  - intros d i c q title difficulty slug date link Hw Hd Hi Hq Ht Hdi Hsl Hda Hl.
    unfold get_daily_challenge. cbn [fst]. rewrite Hw. cbn [rbind].
    rewrite (has_data_field_shape d _ Hd Hi), (dict_lookup_nonempty _ _ Hq).
    cbn [rbind value_getitem]. rewrite Hd. cbn [rbind value_getitem]. rewrite Hi.
    cbn [rbind value_getitem]. rewrite Hq. cbn [rbind value_getitem].
    rewrite Ht. cbn [rbind]. rewrite Hdi. cbn [rbind]. rewrite Hsl. cbn [rbind].
    rewrite Hda. cbn [rbind]. rewrite Hl. reflexivity.
Qed.

(** X12.  [get_recent_submissions] asks for the given username, or for the
    client's own when the given one is false as a truth value; it posts one
    request, whose variables are that username and the limit, and returns
    either the empty dict or the dict of the response's non-empty
    "recentSubmissionList" under "submissions" and the username asked for
    under "username"; it returns that dict whenever the response has the
    shape. *)
Theorem recent_submissions_shape (self : ApiClient) (web : Web)
    (posted : list HttpRequest) (username limit : value) :
  snd (get_recent_submissions self web posted username limit)
  = graphql recent_submissions_query
      (VDict [(lit "username", value_or username (VStr (api_username self)));
              (lit "limit", limit)]) :: posted
  /\ (truthy username = false ->
      value_or username (VStr (api_username self)) = VStr (api_username self))
  /\ (truthy username = true ->
      value_or username (VStr (api_username self)) = username)
  /\ (fst (get_recent_submissions self web posted username limit) = VDict []
      \/ exists d i submissions,
           web posted
             (graphql recent_submissions_query
                (VDict [(lit "username", value_or username (VStr (api_username self)));
                        (lit "limit", limit)]))
           = Ok (VDict d)
           /\ dict_lookup (lit "data") d = Some (VDict i)
           /\ dict_lookup (lit "recentSubmissionList") i = Some submissions
           /\ truthy submissions = true
           /\ fst (get_recent_submissions self web posted username limit)
              = VDict [(lit "submissions", submissions);
                       (lit "username", value_or username (VStr (api_username self)))])
  /\ (forall d i submissions,
         web posted
           (graphql recent_submissions_query
              (VDict [(lit "username", value_or username (VStr (api_username self)));
                      (lit "limit", limit)]))
         = Ok (VDict d) ->
         dict_lookup (lit "data") d = Some (VDict i) ->
         dict_lookup (lit "recentSubmissionList") i = Some submissions ->
         truthy submissions = true ->
         fst (get_recent_submissions self web posted username limit)
         = VDict [(lit "submissions", submissions);
                  (lit "username", value_or username (VStr (api_username self)))]).
Proof.
  split; [reflexivity|].
  split; [intros H; unfold value_or; now rewrite H|].
  split; [intros H; unfold value_or; now rewrite H|].
  unfold get_recent_submissions. cbn [fst].
  set (u := value_or username (VStr (api_username self))).
  set (r := web posted _).
  split.
  - destruct r as [data|e] eqn:Hr; cbn [rbind or_empty]; [|now left].
    destruct (has_data_field data (lit "recentSubmissionList")) as [[|]|e] eqn:Hhas;
      cbn [rbind or_empty]; try (now left).
    destruct (has_data_field_true _ _ Hhas) as (d & i & v & -> & Hd & Hi & Ht).
    cbn [value_getitem]. rewrite Hd. cbn [rbind value_getitem]. rewrite Hi.
    cbn [rbind or_empty]. right. exists d, i, v. now repeat split.
  - intros d i submissions -> Hd Hi Ht. cbn [rbind].
    rewrite (has_data_field_shape d _ Hd Hi), Ht.
    cbn [rbind value_getitem]. rewrite Hd. cbn [rbind value_getitem].
    now rewrite Hi.
Qed.

Lemma upper_ascii (tx : Text) (s : pystr) :
  forallb (fun c => (c <? 128)%N) s = true -> upper tx s = map ascii_upper s.
Proof.
  unfold upper. induction s as [|c s IH]; simpl; [reflexivity|].
  rewrite andb_true_iff. intros [-> Hs]. simpl. now rewrite (IH Hs).
Qed.

(** X13.  The filters of [search_problems]: a difficulty that is false as a
    truth value adds nothing; an ASCII string is added upper-cased under
    "difficulty"; any other true value (a number, a list) makes the method
    return the empty dict without posting anything; the keywords are added
    under "searchKeywords" when they are true.  With the empty strings the
    dispatcher passes for omitted arguments the filters are empty. *)
Theorem search_filters_built (tx : Text) (web : Web) (posted : list HttpRequest)
    (keywords difficulty limit : value) :
  (truthy difficulty = false ->
   search_filters tx keywords difficulty
   = Ok (VDict (if truthy keywords then [(lit "searchKeywords", keywords)] else [])))
  /\ (forall c d,
         difficulty = VStr (c :: d) ->
         forallb (fun x => (x <? 128)%N) (c :: d) = true ->
         search_filters tx keywords difficulty
         = Ok (VDict ((lit "difficulty", VStr (map ascii_upper (c :: d)))
                        :: if truthy keywords then [(lit "searchKeywords", keywords)]
                           else [])))
  /\ (truthy difficulty = true ->
      (forall s, difficulty <> VStr s) ->
      search_problems tx web posted keywords difficulty limit = (VDict [], posted))
  /\ search_filters tx (VStr []) (VStr []) = Ok (VDict []).
Proof.
  split; [|split; [|split]].
  - intros H. unfold search_filters. now rewrite H.
  - intros c d -> Hascii. unfold search_filters. cbn [truthy value_upper rbind].
    now rewrite (upper_ascii tx (c :: d) Hascii).
  - intros Ht Hns. unfold search_problems, search_filters. rewrite Ht.
    destruct difficulty; cbn [value_upper rbind]; try reflexivity.
    now destruct (Hns s).
  - reflexivity.
Qed.

Lemma call_get_daily_challenge orc (args : value) (lc : LeetCodeAPIClient) (w : World) :
  leetcode_client (self_obj w) = Some lc ->
  call_mcp_function orc (lit "get_daily_challenge") args w
  = (leetcode orc (trace w) Call_get_daily_challenge,
     record (EvClient Call_get_daily_challenge) w).
Proof.
  intros Hlc. unfold call_mcp_function. simpl.
  unfold bind, client_method, bind, get_self. now rewrite Hlc.
Qed.

(** X14.  When the web is down (every exchange raises) every method of the
    client returns the empty dict and none raises: with this client behind
    the processor, a daily-challenge tool call gets the tool message whose
    content is the text of the empty object, not an error object. *)
Theorem web_down_gives_empty (tx : Text) (self : ApiClient)
    (web : list Event -> HttpRequest -> result value) :
  (forall history request, exists e, web history request = Raise e) ->
  (forall history call, api_leetcode tx self web history call = Ok (VDict []))
  /\ (forall rt chat w lc id arguments args,
         leetcode_client (self_obj w) = Some lc ->
         json_loads rt arguments = Ok args ->
         execute_tool_call rt {| service := chat; leetcode := api_leetcode tx self web |}
           (tool_call id (lit "get_daily_challenge") arguments) w
         = (Ok (ToolMessage id (lit "{}")), record (EvClient Call_get_daily_challenge) w)).
Proof.
  intros Hdown.
  assert (Hall : forall history call, api_leetcode tx self web history call = Ok (VDict [])).
  { intros history call. unfold api_leetcode. f_equal.
    destruct call; cbn [api_call];
      unfold get_daily_challenge, get_problem, get_user_profile, get_recent_submissions,
        search_problems, data_field_or_empty;
      try (destruct (search_filters tx keywords difficulty); [|reflexivity]);
      cbn [fst];
      match goal with
      | |- context [web history ?r] => destruct (Hdown history r) as [e ->]
      end; reflexivity. }
  split; [exact Hall|].
  intros rt chat w lc id arguments args Hlc Hp.
  rewrite (execute_tool_call_parsed rt _ (tool_call id (lit "get_daily_challenge") arguments)
             w Hp).
  unfold tool_result. cbn [tool_call tc_function fn_name tc_id].
  rewrite (call_get_daily_challenge _ args w Hlc). cbn [leetcode].
  now rewrite Hall.
Qed.

Lemma web_down_gives_empty_witness :
  api_leetcode sample_text (LeetCodeAPIClient__init__ no_env None)
    (fun _ => web_down []) [] (Call_get_problem (VStr (lit "two-sum")))
  = Ok (VDict []).
Proof.
  apply (@web_down_gives_empty sample_text (LeetCodeAPIClient__init__ no_env None)
           (fun _ => web_down [])).
  intros history request. now eexists.
Defined.

(** ** The interactive loop *)

(** A turn that no interrupt disturbs returns [False] exactly when an exit
    word was heard. *)
Lemma listen_and_respond_uninterrupted rt orc (tts : TextToSpeech) (turn : Turn)
    (a : AppWorld) (heard : result pystr) :
  uninterrupted_speech tts ->
  record_audio turn = Finished heard ->
  interrupted_before_reply rt turn = false ->
  fst (listen_and_respond rt orc tts turn a) = Finished (negb (ends_session rt heard)).
Proof.
  intros Hq Hrec.
  unfold listen_and_respond, interrupted_before_reply, reaches_processor, ends_session.
  rewrite Hrec. destruct heard as [[|c q]|e].
  - intros _. now apply speak_then_return_uninterrupted.
  - destruct (any_in exit_words (lower (ucd_lower rt) (c :: q))) eqn:Hexit.
    + intros _. now apply speak_then_return_uninterrupted.
    + destruct (answering turn); [discriminate|]. intros _.
      destruct (process_question rt orc (c :: q) (qa_world a)) as [[ans|e] w1].
      * now apply speak_then_return_uninterrupted.
      * now apply on_error_uninterrupted.
  - intros _. now apply on_error_uninterrupted.
Qed.

(** A turn returns [True] only when no exit word was heard and neither the
    recording nor the processor was interrupted. *)
Lemma listen_and_respond_true rt orc (tts : TextToSpeech) (turn : Turn) (a : AppWorld) :
  fst (listen_and_respond rt orc tts turn a) = Finished true ->
  exists heard,
    record_audio turn = Finished heard
    /\ ends_session rt heard = false
    /\ interrupted_before_reply rt turn = false.
Proof.
  unfold listen_and_respond, interrupted_before_reply, reaches_processor, ends_session.
  destruct (record_audio turn) as [[[|c q]|e]|]; [| | |discriminate].
  - intros _. now exists (Ok []).
  - destruct (any_in exit_words (lower (ucd_lower rt) (c :: q))) eqn:Hexit.
    + intros H.
      destruct (speak_then_return_cases tts
                  (lit "Goodbye! Thanks for using the voice assistant.") false a);
        congruence.
    + destruct (answering turn); [discriminate|].
      intros _. exists (Ok (c :: q)). now rewrite Hexit.
  - intros _. now exists (Raise e).
Qed.

(** X15.  The interactive loop ends at the first turn in which an exit word
    is heard or an interrupt from the keyboard comes while the application
    records, waits for the processor or pauses: the turns before it are
    answered in order, that turn is the last one run, and nothing heard
    after it is looked at.  An exit turn says goodbye without consulting the
    processor; an interrupt of the recording leaves everything as it was.
    As long as no exit word is heard and no interrupt comes the loop goes
    on.  The engine is taken not to be interrupted while it speaks. *)
Theorem session_ends_at_first_exit rt orc (tts : TextToSpeech)
    (before after : list Turn) (last : Turn) (a : AppWorld) :
  uninterrupted_speech tts ->
  forallb (goes_on rt) before = true ->
  goes_on rt last = false ->
  fst (run_interactive_mode rt orc tts before a) = false
  /\ run_interactive_mode rt orc tts (before ++ last :: after) a
     = (true,
        snd (listen_and_respond rt orc tts last
               (snd (run_interactive_mode rt orc tts before a))))
  /\ (forall heard,
         record_audio last = Finished heard ->
         ends_session rt heard = true ->
         snd (run_interactive_mode rt orc tts (before ++ last :: after) a)
         = snd (speak tts (lit "Goodbye! Thanks for using the voice assistant.")
                  (snd (run_interactive_mode rt orc tts before a)))
         /\ qa_world (snd (run_interactive_mode rt orc tts (before ++ last :: after) a))
            = qa_world (snd (run_interactive_mode rt orc tts before a)))
  /\ (record_audio last = KeyboardInterrupt ->
      snd (run_interactive_mode rt orc tts (before ++ last :: after) a)
      = snd (run_interactive_mode rt orc tts before a)).
Proof.
  intros Hq Hbefore Hlast.
  assert (Hend : forall a0, run_interactive_mode rt orc tts (last :: after) a0
                 = (true, snd (listen_and_respond rt orc tts last a0))).
  { intros a0. cbn [run_interactive_mode].
    destruct (listen_and_respond rt orc tts last a0) as [[[|]|] a1] eqn:Hturn;
      try reflexivity.
    destruct (@listen_and_respond_true rt orc tts last a0) as (heard & Hrec & Hexit & Hint);
      [now rewrite Hturn|].
    unfold goes_on in Hlast. rewrite Hrec, Hexit, Hint in Hlast.
    now destruct (sleep last). }
  assert (Hexit : forall a0 heard,
             record_audio last = Finished heard -> ends_session rt heard = true ->
             snd (listen_and_respond rt orc tts last a0)
             = snd (speak tts (lit "Goodbye! Thanks for using the voice assistant.") a0)).
  { intros a0 heard Hrec Hex. unfold listen_and_respond. rewrite Hrec.
    unfold ends_session in Hex. destruct heard as [[|c q]|e]; try discriminate.
    rewrite Hex. apply speak_then_return_world. }
  assert (Hint : forall a0, record_audio last = KeyboardInterrupt ->
                            snd (listen_and_respond rt orc tts last a0) = a0).
  { intros a0 Hrec. unfold listen_and_respond. now rewrite Hrec. }
  revert a. induction before as [|turn before IH]; intros a.
  - change ([] ++ last :: after) with (last :: after). rewrite Hend.
    cbn [run_interactive_mode fst snd].
    split; [reflexivity|]. split; [reflexivity|]. split.
    + intros heard Hrec Hex. rewrite (Hexit a heard Hrec Hex).
      split; [reflexivity|apply speak_effect].
    + apply Hint.
  - cbn [forallb] in Hbefore. apply andb_true_iff in Hbefore.
    destruct Hbefore as [Hturn Hbefore].
    cbn [app run_interactive_mode].
    unfold goes_on in Hturn.
    destruct (record_audio turn) as [heard|] eqn:Hrec; [|discriminate].
    apply andb_true_iff in Hturn. destruct Hturn as [Hturn Hsleep].
    apply andb_true_iff in Hturn. destruct Hturn as [Hno_exit Hno_int].
    apply negb_true_iff in Hno_int.
    pose proof (@listen_and_respond_uninterrupted rt orc tts turn a heard Hq Hrec Hno_int)
      as Hgo.
    rewrite Hno_exit in Hgo.
    destruct (listen_and_respond rt orc tts turn a) as [go_on a1].
    cbn [fst] in Hgo. subst go_on.
    destruct (sleep turn); [|discriminate].
    exact (IH Hbefore a1).
Qed.

Lemma session_ends_at_first_exit_witness :
  run_interactive_mode sample_runtime (sample_oracles []) working_tts
    ([quiet_turn (Ok (lit "hello")); quiet_turn (Ok [])]
       ++ {| record_audio := KeyboardInterrupt; answering := None; sleep := Finished tt |}
       :: [quiet_turn (Ok (lit "thanks"))])
    (app_world offline_world)
  = (true,
     {| qa_world := offline_world;
        said := [lit "I couldn't hear you clearly. Please try again.";
                 lit "Hello! I'm your voice assistant. I can help with LeetCode problems and general questions!"] |}).
Proof.
  destruct (@session_ends_at_first_exit sample_runtime (sample_oracles []) working_tts
              [quiet_turn (Ok (lit "hello")); quiet_turn (Ok [])]
              [quiet_turn (Ok (lit "thanks"))]
              {| record_audio := KeyboardInterrupt; answering := None; sleep := Finished tt |}
              (app_world offline_world)
              (fun texts text H => eq_ind (Finished (Ok tt))
                 (fun x => match x with Finished _ => True | KeyboardInterrupt => False end)
                 I KeyboardInterrupt H)
              eq_refl eq_refl) as (_ & Hrun & _).
  rewrite Hrun. reflexivity.
Defined.

(** ** The username that reaches the web *)

(** X16.  The client has a fallback of its own for a missing username, but
    behind the dispatcher it never fires: when a profile or submissions tool
    call reaches the client, the username it resolved to is true as a truth
    value, and the request the client posts asks for exactly that username,
    whatever the client's own default is. *)
Theorem dispatcher_username_reaches_web orc (tx : Text) (self : ApiClient) (web : Web)
    (posted : list HttpRequest) (name : pystr) (items : list (pystr * value))
    (u : pystr) (lc : LeetCodeAPIClient) (w : World) :
  name = lit "get_user_profile" \/ name = lit "get_recent_submissions" ->
  default_username (self_obj w) = Some u ->
  leetcode_client (self_obj w) = Some lc ->
  trace (snd (call_mcp_function orc name (VDict items) w)) <> trace w ->
  truthy (resolved_username items u) = true
  /\ trace (snd (call_mcp_function orc name (VDict items) w))
     = EvClient (username_call name (resolved_username items u) items) :: trace w
  /\ exists query rest,
       snd (api_call tx self web posted
              (username_call name (resolved_username items u) items))
       = graphql query (VDict ((lit "username", resolved_username items u) :: rest))
           :: posted.
Proof.
  intros Hname Hu Hlc Hcalled.
  rewrite (call_with_username orc items w Hname Hu) in *. rewrite Hlc in *.
  destruct (truthy (resolved_username items u)) eqn:Ht;
    [|now destruct Hcalled].
  split; [reflexivity|]. split; [reflexivity|].
  unfold username_call.
  destruct Hname as [-> | ->].
  - change (pystr_eqb (lit "get_user_profile") (lit "get_user_profile")) with true.
    cbv iota. cbn [api_call]. unfold get_user_profile, value_or. rewrite Ht.
    cbn [snd]. now exists user_profile_query, [].
  - change (pystr_eqb (lit "get_recent_submissions") (lit "get_user_profile")) with false.
    cbv iota. cbn [api_call]. unfold get_recent_submissions, value_or. rewrite Ht.
    cbn [snd]. now eexists recent_submissions_query, _.
Qed.

Lemma dispatcher_username_reaches_web_witness :
  exists query rest,
    snd (api_call sample_text (LeetCodeAPIClient__init__ no_env None) web_down []
           (username_call (lit "get_user_profile")
              (resolved_username [(lit "username", VStr (lit "alice"))] (lit "dviresh1993"))
              [(lit "username", VStr (lit "alice"))]))
    = [graphql query (VDict ((lit "username", VStr (lit "alice")) :: rest))].
Proof.
  destruct (@dispatcher_username_reaches_web (sample_oracles []) sample_text
              (LeetCodeAPIClient__init__ no_env None) web_down []
              (lit "get_user_profile") [(lit "username", VStr (lit "alice"))]
              (lit "dviresh1993") {| lc_session := None |} online_world
              (or_introl eq_refl) eq_refl eq_refl) as (_ & _ & Hweb).
  - discriminate.
  - exact Hweb.
Defined.
